(** * slack-export-summary: the monthly summarizer of [summarize.js]

    A shallow embedding of the summarization engine (cache store, splitter,
    size-limit escalation with its three nested [try] blocks) and the
    properties of it that the specification states.

    Conventions of the embedding.
    - A JavaScript string is a [string]: one [ascii] per UTF-16 code unit,
      restricted to code units below 256.  [.length] is [String.length].
    - Array indices and line counts are [nat]; millisecond time stamps are [Z].
    - A thrown value is the [message] of the error object; every error has one.
    - The effects are explicit: a computation takes the world (the monthly
      files, the cache directory, the clock, the service and the calls made
      so far) and gives back what it returns or throws and the world it
      leaves.  The clock and the service are oracles: [clock w k] is the
      k-th reading of [Date.now()] and [llm w k] the answer to the k-th call
      of [openai.chat.completions.create], so a statement about every world
      is a statement about every behaviour of both.
    - The [Date] constructor is kept abstract ([dateOf]: the month and year
      of a file name, or an invalid date); the en-US rendering of month and
      year is written out.
    - A call that resolves has a string as [choices[0].message.content].
    - A cache file either does not parse or parses to an object like the two
      the program writes (a summary or a digest): [summary] and
      [oneSentenceSummary] are strings where they are there, and [timestamp]
      is the number the property converts to, if it converts to one (without
      one the age is [NaN]).
    - Writing a cache file, creating the cache directory and reading
      [prompt.md] succeed.  The program creates the cache directory before
      every use; both cache files of a month lie in it when the file is a
      monthly file [YYYY-MM.md] and the path of the directory does not hold
      [.json].  Console output is left out.
    - Reading a monthly document that does not exist throws the error of
      [fs.readFileSync] for a missing file; no other failure of a read is
      modelled.
    - An entry of [dms.json] has a string as [id] and a list of strings as
      [members].
    - An entry of [users.json] has a string as [id], and strings where it
      has a [name], a [profile.display_name] or a [profile.real_name].
    - [main] is given what it reads from outside: the listing of the output
      directory, the answer typed at the prompt and [summary.md]; writing
      [summary.md] succeeds, the rendering of a date as an ISO string is
      kept abstract, and the pause between two months is left out. *)

From Stdlib Require Import ZArith Ascii String DecimalString Lia.
From stdpp Require Import gmap strings list sorting.

Local Open Scope Z_scope.
Local Open Scope nat_scope.

(** ** JavaScript string and array primitives used by the source *)

Module JS.

Definition LF : ascii := Ascii.ascii_of_nat 10.
Definition nl : string := String LF "".

(** [s.startsWith(p)] *)
Definition startsWith (s p : string) : bool := String.prefix p s.

(** [s.includes(sub)] *)
Fixpoint includes (s sub : string) : bool :=
  String.prefix sub s ||
  match s with
  | EmptyString => false
  | String _ r => includes r sub
  end.

(** [s.split("\n")]: never empty, a trailing line feed gives a last empty line. *)
Fixpoint split_lines (s : string) : list string :=
  match s with
  | EmptyString => [""]
  | String c r =>
      if Ascii.eqb c LF then "" :: split_lines r
      else match split_lines r with
           | [] => [String c ""]
           | l :: ls => String c l :: ls
           end
  end.

(** [a.join(sep)] *)
Fixpoint join (sep : string) (a : list string) : string :=
  match a with
  | [] => ""
  | x :: r =>
      match r with
      | [] => x
      | _ :: _ => x +:+ sep +:+ join sep r
      end
  end.

(** [a.slice(b, e)] and [a.slice(b)] for non-negative integer arguments. *)
Definition slice {A} (b e : nat) (a : list A) : list A := take (e - b) (drop b a).
Definition sliceFrom {A} (b : nat) (a : list A) : list A := drop b a.

(** White space of [String.prototype.trim] among the code units below 256:
    TAB, LF, VT, FF, CR, SP and NBSP. *)
Definition is_ws (c : ascii) : bool :=
  match Ascii.N_of_ascii c with
  | 9%N | 10%N | 11%N | 12%N | 13%N | 32%N | 160%N => true
  | _ => false
  end.

Fixpoint trimStart (s : string) : string :=
  match s with
  | EmptyString => ""
  | String c r => if is_ws c then trimStart r else s
  end.

Fixpoint trimEnd (s : string) : string :=
  match s with
  | EmptyString => ""
  | String c r =>
      match trimEnd r with
      | EmptyString => if is_ws c then "" else String c ""
      | String d r' => String c (String d r')
      end
  end.

(** [s.trim()] *)
Definition trim (s : string) : string := trimEnd (trimStart s).

Fixpoint dropStr (n : nat) (s : string) : string :=
  match n, s with
  | S n', String _ r => dropStr n' r
  | _, _ => s
  end.

(** First occurrence of [pat] in [s]: the text before it and the text after it. *)
Fixpoint search (pat s : string) : option (string * string) :=
  if String.prefix pat s then Some ("", dropStr (String.length pat) s)
  else match s with
       | EmptyString => None
       | String c r =>
           match search pat r with
           | Some (pre, post) => Some (String c pre, post)
           | None => None
           end
       end.

(** GetSubstitution for a string pattern (no captures): [$$], [$&], [$`] and
    [$'] are expanded, every other [$] stands for itself. *)
Fixpoint getSubstitution (matched pre post repl : string) : string :=
  match repl with
  | EmptyString => ""
  | String c r =>
      if Ascii.eqb c "$" then
        match r with
        | String d r' =>
            if Ascii.eqb d "$" then "$" +:+ getSubstitution matched pre post r'
            else if Ascii.eqb d "&" then matched +:+ getSubstitution matched pre post r'
            else if Ascii.eqb d "`" then pre +:+ getSubstitution matched pre post r'
            else if Ascii.eqb d "'" then post +:+ getSubstitution matched pre post r'
            else String c (getSubstitution matched pre post r)
        | EmptyString => String c ""
        end
      else String c (getSubstitution matched pre post r)
  end.

(** [s.replace(pat, repl)] with a string pattern: the first occurrence only. *)
Definition replace (s pat repl : string) : string :=
  match search pat s with
  | None => s
  | Some (pre, post) => pre +:+ getSubstitution pat pre post repl +:+ post
  end.

End JS.

(** ** Splitter: [splitMonthContent] and [splitMonthContentIntoFour] *)

Module Splitter.
Import JS.

(** The scanning loop of both splitters,
    [for (i = start; i < limit; i++) if (lines[i].startsWith("## ")) { splitIndex = i; break; }],
    run for [fuel = limit - start] iterations: the index at which it breaks. *)
Fixpoint scan (lines : list string) (i fuel : nat) : option nat :=
  match fuel with
  | 0 => None
  | S fuel' =>
      match lines !! i with
      | Some l => if startsWith l "## " then Some i else scan lines (S i) fuel'
      | None => None
      end
  end.

(** [splitIndex] of [splitMonthContent]. *)
Definition splitIndex (lines : list string) : nat :=
  let midPoint := length lines / 2 in
  default midPoint (scan lines midPoint (length lines - midPoint)).

Record halves := { firstHalf : string; secondHalf : string }.

Definition splitMonthContent (content : string) : halves :=
  let lines := split_lines content in
  let splitIndex := splitIndex lines in
  {| firstHalf := join nl (slice 0 splitIndex lines);
     secondHalf := join nl (sliceFrom splitIndex lines) |}.

(** One iteration of the [quarter] loop of [splitMonthContentIntoFour]. *)
Definition splitPoint (lines : list string) (quarterSize quarter : nat) : nat :=
  let targetIndex := quarter * quarterSize in
  default targetIndex
    (scan lines targetIndex
       (Nat.min (targetIndex + quarterSize) (length lines) - targetIndex)).

Definition splitPoints (lines : list string) : list nat :=
  let quarterSize := length lines / 4 in
  map (splitPoint lines quarterSize) [1; 2; 3].

Definition splitMonthContentIntoFour (content : string) : list string :=
  let lines := split_lines content in
  let splitPoints := splitPoints lines in
  [ join nl (slice 0 (nth 0 splitPoints 0) lines);
    join nl (slice (nth 0 splitPoints 0) (nth 1 splitPoints 0) lines);
    join nl (slice (nth 1 splitPoints 0) (nth 2 splitPoints 0) lines);
    join nl (sliceFrom (nth 2 splitPoints 0) lines) ].

(** Line [i] is a section boundary: it exists and starts with ["## "]. *)
Definition boundary (lines : list string) (i : nat) : bool :=
  match lines !! i with
  | Some l => startsWith l "## "
  | None => false
  end.

End Splitter.

(** ** The world the summarizer runs in, and the monad of its effects *)

Module Effects.

(** The object a cache file parses to.  A property the object lacks reads as
    [undefined]: [None].  [timestamp] is the number the property converts to
    in a subtraction, [None] when that is [NaN] (the property is missing or
    holds no number). *)
Record cacheData := {
  timestamp : option Z;
  monthFile : string;
  summary : option string;
  oneSentenceSummary : option string;
  model : string }.

(** A file of the cache directory as [JSON.parse] sees it: [Corrupted] when
    parsing it throws. *)
Inductive cacheFile :=
| Corrupted
| Json (d : cacheData).

(** One call of [openai.chat.completions.create]: the system and the user
    message. *)
Record request := { system : string; user : string }.

(** Its result: [choices[0].message.content], or the message of the error it
    throws. *)
Inductive response :=
| Content (text : string)
| Failure (message : string).

Record world := {
  documents : gmap string string;   (* the monthly markdown files, by path *)
  cache : gmap string cacheFile;    (* the cache files, by path *)
  clock : nat -> Z;                 (* the successive readings of Date.now() *)
  ticks : nat;                      (* how many readings were taken *)
  llm : nat -> response;            (* the successive answers of the service *)
  requests : list request }.        (* the calls made so far, in order *)

Definition tick (w : world) : world :=
  {| documents := documents w; cache := cache w; clock := clock w;
     ticks := S (ticks w); llm := llm w; requests := requests w |}.

Definition sent (r : request) (w : world) : world :=
  {| documents := documents w; cache := cache w; clock := clock w;
     ticks := ticks w; llm := llm w; requests := requests w ++ [r] |}.

Definition stored (path : string) (f : cacheFile) (w : world) : world :=
  {| documents := documents w; cache := <[path := f]> (cache w); clock := clock w;
     ticks := ticks w; llm := llm w; requests := requests w |}.

(** A computation returns a value or throws an error message; the world it
    leaves is kept in both cases. *)
Inductive outcome (A : Type) :=
| Return (a : A)
| Throw (message : string).
Arguments Return {A} a.
Arguments Throw {A} message.

Definition M (A : Type) : Type := world -> outcome A * world.

Definition ret {A} (a : A) : M A := fun w => (Return a, w).

Definition throw {A} (message : string) : M A := fun w => (Throw message, w).

Definition bind {A B} (m : M A) (k : A -> M B) : M B :=
  fun w => match m w with
           | (Return a, w') => k a w'
           | (Throw e, w') => (Throw e, w')
           end.

(** [try { m } catch (error) { h(error.message) }] *)
Definition tryCatch {A} (m : M A) (h : string -> M A) : M A :=
  fun w => match m w with
           | (Return a, w') => (Return a, w')
           | (Throw e, w') => h e w'
           end.

Declare Scope js_scope.
Delimit Scope js_scope with js.
Notation "x <- m ;; k" := (bind m (fun x => k))
  (at level 100, m at next level, right associativity) : js_scope.

(** [Date.now()] *)
Definition Date_now : M Z :=
  fun w => (Return (clock w (ticks w)), tick w).

(** [fs.existsSync(path)] on the cache directory. *)
Definition existsSync (path : string) : M bool :=
  fun w => (Return (bool_decide (is_Some (cache w !! path))), w).

(** The message of the error [fs.readFileSync] throws for a file that does
    not exist. *)
Definition noSuchFile (path : string) : string :=
  "ENOENT: no such file or directory, open '" +:+ path +:+ "'".

(** [JSON.parse(fs.readFileSync(path, "utf8"))] on the cache directory. *)
Definition readJson (path : string) : M cacheData :=
  fun w => match cache w !! path with
           | Some (Json d) => (Return d, w)
           | Some Corrupted => (Throw "Unexpected token in JSON", w)
           | None => (Throw (noSuchFile path), w)
           end.

(** [fs.writeFileSync(path, JSON.stringify(d, null, 2), "utf8")] *)
Definition writeJson (path : string) (d : cacheData) : M unit :=
  fun w => (Return tt, stored path (Json d) w).

(** [fs.readFileSync(path, "utf8")] on the monthly files. *)
Definition readFileSync (path : string) : M string :=
  fun w => match documents w !! path with
           | Some content => (Return content, w)
           | None => (Throw (noSuchFile path), w)
           end.

(** [(await openai.chat.completions.create({model, messages})).choices[0].message.content] *)
Definition create (r : request) : M string :=
  fun w => match llm w (length (requests w)) with
           | Content text => (Return text, sent r w)
           | Failure e => (Throw e, sent r w)
           end.

(** [path.join(a, b)] for a directory [a] and a file name [b]. *)
Definition path_join (a b : string) : string := a +:+ "/" +:+ b.

(** [now - timestamp]: [None] is [NaN]. *)
Definition minus (now : Z) (timestamp : option Z) : option Z :=
  match timestamp with
  | Some t => Some (now - t)%Z
  | None => None
  end.

(** [a > b] and [a <= b] on numbers: both are false when [a] is [NaN]. *)
Definition greater (a : option Z) (b : Z) : bool :=
  match a with
  | Some x => (x >? b)%Z
  | None => false
  end.
Definition atMost (a : option Z) (b : Z) : bool :=
  match a with
  | Some x => (x <=? b)%Z
  | None => false
  end.

(** Truthiness of a string, and of a property that may be [undefined]. *)
Definition truthy (s : string) : bool := negb (String.eqb s "").
Definition truthy_opt (o : option string) : bool :=
  match o with
  | Some s => truthy s
  | None => false
  end.

End Effects.

(** ** The summarizer: cache store and size-limit escalation *)

Module Summarizer.
Import JS Splitter Effects.
Local Open Scope js_scope.

Section Summarizer.

(** [new Date(year, month - 1)] for the [year] and [month] that
    [monthFile.replace(".md", "").split("-")] begins with: the month (from 0)
    and the year of the date, or [None] for an invalid date. *)
Variable dateOf : string -> option (nat * nat).
(** The text of [prompt.md], which [getSystemPrompt] reads. *)
Variable systemPrompt : string.
(** [path.join(__dirname, "cache")], which [getCacheDir] returns. *)
Variable cacheDir : string.

Definition monthNames : list string :=
  ["January"; "February"; "March"; "April"; "May"; "June"; "July"; "August";
   "September"; "October"; "November"; "December"].

(** [date.toLocaleDateString("en-US", {month: "long", year: "numeric"})] *)
Definition toLocaleDateString (date : option (nat * nat)) : string :=
  match date with
  | Some (month, year) =>
      nth (month mod 12) monthNames "" +:+ " " +:+
      NilEmpty.string_of_uint (Nat.to_uint year)
  | None => "Invalid Date"
  end.

(** The name of the month of a file, e.g. ["February 2021"] for ["2021-02.md"]. *)
Definition monthNameOf (monthFile : string) : string :=
  toLocaleDateString (dateOf monthFile).

Definition getSystemPrompt : string := systemPrompt.

Definition getCacheDir : string := cacheDir.

Definition getCacheFilePath (monthFile : string) : string :=
  let cacheDir := getCacheDir in
  path_join cacheDir (replace monthFile ".md" ".json").

(** [7 * 24 * 60 * 60 * 1000] *)
Definition maxAge : Z := (7 * 24 * 60 * 60 * 1000)%Z.

Definition getCachedSummary (monthFile : string) : M (option string) :=
  let cacheFilePath := getCacheFilePath monthFile in
  present <- existsSync cacheFilePath ;;
  if negb present then ret None
  else
    tryCatch
      (cacheData <- readJson cacheFilePath ;;
       now <- Date_now ;;
       let cacheAge := minus now (timestamp cacheData) in
       if greater cacheAge maxAge then ret None
       else if negb (truthy_opt (summary cacheData)) then ret None
       else match summary cacheData with
            | Some s => if String.length s <? 10 then ret None else ret (Some s)
            | None => ret None
            end)
      (fun error => ret None).

Definition saveToCache (monthFile summary : string) : M unit :=
  let cacheFilePath := getCacheFilePath monthFile in
  now <- Date_now ;;
  let cacheData :=
    {| timestamp := Some now; monthFile := monthFile; summary := Some summary;
       oneSentenceSummary := None; model := "gpt-5-mini" |} in
  writeJson cacheFilePath cacheData.

Definition combineFourPrompt : string :=
  "You are a helpful assistant that combines four summaries of the same month into one cohesive summary. Merge the key points, remove duplicates, and create a unified narrative that flows well chronologically.".

(** [summaries[i]] inside a template literal. *)
Definition item (summaries : list string) (i : nat) : string :=
  nth i summaries "undefined".

Definition combineFourRequest (summaries : list string) (monthName : string) : request :=
  {| system := combineFourPrompt;
     user := "Please combine these four summaries for " +:+ monthName +:+
             " into one comprehensive summary:" +:+ nl +:+ nl +:+
             "First quarter summary:" +:+ nl +:+ item summaries 0 +:+ nl +:+ nl +:+
             "Second quarter summary:" +:+ nl +:+ item summaries 1 +:+ nl +:+ nl +:+
             "Third quarter summary:" +:+ nl +:+ item summaries 2 +:+ nl +:+ nl +:+
             "Fourth quarter summary:" +:+ nl +:+ item summaries 3 |}.

Definition combineFourSummaries (summaries : list string) (monthName : string) : M string :=
  tryCatch
    (completion <- create (combineFourRequest summaries monthName) ;;
     ret (trim completion))
    (fun error => ret (join (nl +:+ nl) summaries)).

Definition oneSentencePrompt : string :=
  "You are a helpful assistant that creates concise one-sentence summaries. Create a single, clear sentence that captures the most important events, decisions, or themes from the given month's summary. Focus on the most significant developments or outcomes.".

Definition oneSentenceRequest (fullSummary : string) : request :=
  {| system := oneSentencePrompt;
     user := "Please create a one-sentence summary of this month's activities:" +:+
             nl +:+ nl +:+ fullSummary |}.

Definition oneSentenceCachePath (monthFile : string) : string :=
  replace (getCacheFilePath monthFile) ".json" "-onesentence.json".

(** The cache check of [generateOneSentenceSummary]: the digest it returns
    early, if any. *)
Definition cachedOneSentence (monthFile : string) : M (option string) :=
  present <- existsSync (oneSentenceCachePath monthFile) ;;
  if present then
    tryCatch
      (cacheData <- readJson (oneSentenceCachePath monthFile) ;;
       now <- Date_now ;;
       let cacheAge := minus now (timestamp cacheData) in
       if atMost cacheAge maxAge && truthy_opt (oneSentenceSummary cacheData)
       then ret (oneSentenceSummary cacheData)
       else ret None)
      (fun error => ret None)
  else ret None.

Definition generateOneSentenceSummary (monthFile fullSummary : string) : M string :=
  cached <- cachedOneSentence monthFile ;;
  match cached with
  | Some s => ret s
  | None =>
      tryCatch
        (completion <- create (oneSentenceRequest fullSummary) ;;
         let oneSentenceSummary := trim completion in
         now <- Date_now ;;
         let cacheData :=
           {| timestamp := Some now; monthFile := monthFile; summary := None;
              oneSentenceSummary := Some oneSentenceSummary; model := "gpt-5-mini" |} in
         _ <- writeJson (oneSentenceCachePath monthFile) cacheData ;;
         ret oneSentenceSummary)
        (fun error => ret "Unable to generate summary.")
  end.

(** The heading line of a month and the blank line after it. *)
Definition heading (monthName : string) : string :=
  "## " +:+ monthName +:+ nl +:+ nl.

(** [text.replace(`## ${monthName}\n\n`, `## ${monthName}\n\n**tl;dr:** ${oneSentenceSummary}\n\n`)] *)
Definition withTldr (monthName text oneSentenceSummary : string) : string :=
  replace text (heading monthName)
    (heading monthName +:+ "**tl;dr:** " +:+ oneSentenceSummary +:+ nl +:+ nl).

(** The test of both [catch] blocks for a size-limit error. *)
Definition isTokenLimit (message : string) : bool :=
  includes message "Input tokens exceed" || includes message "token limit".

Definition errorBlock (monthName message : string) : string :=
  heading monthName +:+ "Error generating summary: " +:+ message.

Definition placeholder (monthName : string) : string :=
  heading monthName +:+ "No significant activity recorded for this month.".

Definition wholeRequest (monthName content : string) : request :=
  {| system := getSystemPrompt;
     user := "# " +:+ monthName +:+ nl +:+ nl +:+ content |}.

(** The request for one part, [label] being ["First Half"], ["Third Quarter"], ... *)
Definition partRequest (monthName label part : string) : request :=
  {| system := getSystemPrompt;
     user := "# " +:+ monthName +:+ " (" +:+ label +:+ ")" +:+ nl +:+ nl +:+ part |}.

(** The three steps every successful attempt ends with: derive the digest,
    splice it in, cache the summary without it. *)
Definition finish (monthFile monthName formattedSummary : string) : M string :=
  oneSentenceSummary <- generateOneSentenceSummary monthFile formattedSummary ;;
  let summaryWithTldr := withTldr monthName formattedSummary oneSentenceSummary in
  _ <- saveToCache monthFile formattedSummary ;;
  ret summaryWithTldr.

Definition quarterNames : list string := ["first"; "second"; "third"; "fourth"].

Definition toUpperCase (c : ascii) : ascii :=
  let n := Ascii.nat_of_ascii c in
  if (97 <=? n) && (n <=? 122) then Ascii.ascii_of_nat (n - 32) else c.

(** [name.charAt(0).toUpperCase() + name.slice(1)] *)
Definition capitalized (name : string) : string :=
  match name with
  | EmptyString => ""
  | String c r => String (toUpperCase c) r
  end.

(** The loop over the quarters, [rest] being [quarters] from index [i] on. *)
Fixpoint summarizeQuarters (monthName : string) (rest : list string) (i : nat)
    (quarterSummaries : list string) : M (list string) :=
  match rest with
  | [] => ret quarterSummaries
  | quarter :: rest' =>
      match quarterNames !! i with
      | None => throw "Cannot read properties of undefined (reading 'charAt')"
      | Some name =>
          completion <-
            create (partRequest monthName (capitalized name +:+ " Quarter") quarter) ;;
          summarizeQuarters monthName rest' (S i) (quarterSummaries ++ [trim completion])
      end
  end.

(** The innermost [try]: four-part splitting. *)
Definition summarizeInFour (monthFile monthName content : string) : M string :=
  tryCatch
    (let quarters := splitMonthContentIntoFour content in
     quarterSummaries <- summarizeQuarters monthName quarters 0 [] ;;
     combinedSummary <- combineFourSummaries quarterSummaries monthName ;;
     let formattedSummary := heading monthName +:+ combinedSummary in
     finish monthFile monthName formattedSummary)
    (fun fourPartError => ret (errorBlock monthName fourPartError)).

(** The middle [try]: two-part splitting, and its [catch]. *)
Definition summarizeInTwo (monthFile monthName content : string) : M string :=
  tryCatch
    (let parts := splitMonthContent content in
     firstCompletion <-
       create (partRequest monthName "First Half" (firstHalf parts)) ;;
     secondCompletion <-
       create (partRequest monthName "Second Half" (secondHalf parts)) ;;
     let firstSummary := trim firstCompletion in
     let secondSummary := trim secondCompletion in
     let combinedSummary := firstSummary +:+ secondSummary in
     let formattedSummary := heading monthName +:+ combinedSummary in
     finish monthFile monthName formattedSummary)
    (fun splitError =>
       if isTokenLimit splitError
       then summarizeInFour monthFile monthName content
       else ret (errorBlock monthName splitError)).

(** The outer [try]: the whole document, and its [catch]. *)
Definition summarizeWhole (monthFile monthName content : string) : M string :=
  tryCatch
    (completion <- create (wholeRequest monthName content) ;;
     let summary := trim completion in
     if negb (truthy summary) || (String.length summary <? 10) then
       let placeholder := placeholder monthName in
       _ <- saveToCache monthFile placeholder ;;
       ret placeholder
     else
       let formattedSummary := heading monthName +:+ summary in
       finish monthFile monthName formattedSummary)
    (fun error =>
       if isTokenLimit error
       then summarizeInTwo monthFile monthName content
       else ret (errorBlock monthName error)).

Definition generateMonthSummary (monthFile outputDir : string) : M string :=
  let filePath := path_join outputDir monthFile in
  content <- readFileSync filePath ;;
  let monthName := monthNameOf monthFile in
  cachedSummary <- getCachedSummary monthFile ;;
  if truthy_opt cachedSummary then
    match cachedSummary with
    | Some cachedSummary =>
        oneSentenceSummary <- generateOneSentenceSummary monthFile cachedSummary ;;
        let summaryWithTldr := withTldr monthName cachedSummary oneSentenceSummary in
        ret summaryWithTldr
    | None => ret ""
    end
  else summarizeWhole monthFile monthName content.

End Summarizer.
End Summarizer.

(** ** Vocabulary of the statements *)

Module Vocabulary.
Import JS Splitter Effects Summarizer.

(** What the body of [getCachedSummary] answers for a parsed record read at
    time [now]. *)
Definition validSummary (now : Z) (d : cacheData) : option string :=
  if greater (minus now (timestamp d)) maxAge then None
  else match summary d with
       | Some s => if String.length s <? 10 then None else Some s
       | None => None
       end.

(** What the cache check of [generateOneSentenceSummary] answers for a parsed
    record read at time [now]. *)
Definition validDigest (now : Z) (d : cacheData) : option string :=
  if atMost (minus now (timestamp d)) maxAge && truthy_opt (oneSentenceSummary d)
  then oneSentenceSummary d else None.

(** The record [saveToCache] writes at time [now]. *)
Definition summaryRecord (now : Z) (monthFile text : string) : cacheData :=
  {| timestamp := Some now; monthFile := monthFile; summary := Some text;
     oneSentenceSummary := None; model := "gpt-5-mini" |}.

(** The world [saveToCache] leaves. *)
Definition saved (cacheDir monthFile text : string) (w : world) : world :=
  stored (getCacheFilePath cacheDir monthFile)
    (Json (summaryRecord (clock w (ticks w)) monthFile text))
    (tick w).

(** The world after the calls [rs], made in order. *)
Definition sentAll (rs : list request) (w : world) : world :=
  foldl (fun w r => sent r w) w rs.

(** The two requests of the two-part attempt. *)
Definition firstRequest (systemPrompt monthName content : string) : request :=
  partRequest systemPrompt monthName "First Half" (firstHalf (splitMonthContent content)).
Definition secondRequest (systemPrompt monthName content : string) : request :=
  partRequest systemPrompt monthName "Second Half" (secondHalf (splitMonthContent content)).

(** The requests of the loop over the quarters, from index [i] on. *)
Definition quarterRequests (systemPrompt monthName : string) (i : nat)
    (quarters : list string) : list request :=
  zip_with
    (fun name quarter =>
       partRequest systemPrompt monthName (capitalized name +:+ " Quarter") quarter)
    (drop i quarterNames) quarters.

(** No [$] in a text: [replace] expands nothing in it. *)
Fixpoint dollarFree (s : string) : bool :=
  match s with
  | EmptyString => true
  | String c r => negb (Ascii.eqb c "$") && dollarFree r
  end.

(** [text] begins with the heading of the month. *)
Definition headed (monthName text : string) : Prop :=
  exists rest, text = heading monthName +:+ rest.

(** The three kinds of text [generateMonthSummary] returns: a summary with
    its digest spliced in, the placeholder for a month with no activity, and
    the inline error block. *)
Inductive outputShape (monthName : string) : string -> Prop :=
| RealSummary (body one : string) :
    outputShape monthName (withTldr monthName (heading monthName +:+ body) one)
| NoActivity :
    outputShape monthName (placeholder monthName)
| InlineError (e : string) :
    outputShape monthName (errorBlock monthName e).

(** A computation that returns in every world, with a value in [Q]. *)
Definition returns {A} (Q : A -> Prop) (m : M A) : Prop :=
  forall w, exists a w', m w = (Return a, w') /\ Q a.

(** The world without the cache file at [path]. *)
Definition removed (path : string) (w : world) : world :=
  {| documents := documents w; cache := delete path (cache w); clock := clock w;
     ticks := ticks w; llm := llm w; requests := requests w |}.

(** Two worlds that are the same, or differ only in that the first has a
    corrupted file at [path] where the second has none. *)
Definition alike (path : string) (w1 w2 : world) : Prop :=
  w1 = w2 \/ (cache w1 !! path = Some Corrupted /\ w2 = removed path w1).

(** A computation that does not tell such worlds apart. *)
Definition blind (path : string) {A} (m : M A) : Prop :=
  forall w1 w2, alike path w1 w2 ->
    fst (m w1) = fst (m w2) /\ alike path (snd (m w1)) (snd (m w2)).

(** The summary cached at [path], if any, begins with the heading of the
    month. *)
Definition wellFormedAt (path monthName : string) (w : world) : Prop :=
  forall d s, cache w !! path = Some (Json d) -> summary d = Some s ->
              headed monthName s.

(** A computation that keeps an invariant of the world, however it ends. *)
Definition keeps (I : world -> Prop) {A} (m : M A) : Prop :=
  forall w, I w -> I (snd (m w)).

End Vocabulary.
Export Vocabulary.

(** ** Sample worlds, for the concrete instances below *)

Module Sample.
Import JS Effects Summarizer.

Definition dateOf (monthFile : string) : option (nat * nat) := Some (1, 2021).

Definition document : string :=
  "# 2021-02" +:+ nl +:+ nl +:+ "## February 15, 2021" +:+ nl +:+ nl +:+
  "### channel-1" +:+ nl +:+ nl +:+ "6:30:04 PM @John: Hello everyone!" +:+ nl +:+
  "6:30:11 PM @Jane: How is everyone doing?".

(** A world with the February document, a given cache directory and service,
    and a clock that starts at [start] and advances by one each reading. *)
Definition world (files : gmap string cacheFile) (start : Z) (answers : nat -> response)
    : Effects.world :=
  {| documents := {[ "output/2021-02.md" := document ]};
     cache := files;
     clock := fun n => (start + Z.of_nat n)%Z;
     ticks := 0;
     llm := answers;
     requests := [] |}.

Definition run : M string :=
  generateMonthSummary dateOf "PROMPT" "cache" "2021-02.md" "output".

(** A digest of six characters, written at time 0. *)
Definition shortDigest : gmap string cacheFile :=
  {[ "cache/2021-02-onesentence.json" :=
       Json {| timestamp := Some 0%Z; monthFile := "2021-02.md"; summary := None;
               oneSentenceSummary := Some "Quiet."; model := "gpt-5-mini" |} ]}.

(** A summary written at time 0. *)
Definition februaryCached : gmap string cacheFile :=
  {[ "cache/2021-02.json" :=
       Json {| timestamp := Some 0%Z; monthFile := "2021-02.md";
               summary := Some ("## February 2021" +:+ nl +:+ nl +:+ "The team said hello.");
               oneSentenceSummary := None; model := "gpt-5-mini" |} ]}.

Definition corruptedCache : gmap string cacheFile :=
  {[ "cache/2021-02.json" := Corrupted ]}.

(** Services. *)
Definition alwaysEmpty (k : nat) : response := Content "".
Definition rateLimited (k : nat) : response := Failure "429 Rate limit reached".
Definition greets (k : nat) : response := Content "The team said hello to each other.".
(** Too large whole and in halves; the quarters fit. *)
Definition quartersFit (k : nat) : response :=
  match k with
  | 0 | 1 => Failure "Input tokens exceed the configured limit"
  | _ => Content "The team said hello to each other."
  end.
(** Too large whole; the halves fit. *)
Definition halvesFit (k : nat) : response :=
  match k with
  | 0 => Failure "This model's token limit was exceeded"
  | 1 => Content "First part. "
  | 2 => Content " Second part."
  | _ => Content "A digest."
  end.
(** Too large at every size. *)
Definition alwaysTooLarge (k : nat) : response :=
  Failure "Input tokens exceed the configured limit".

(** A summary written at time 0, read at the last valid instant and just
    after it. *)
Definition atMaxAge : Effects.world := world februaryCached maxAge greets.
Definition pastMaxAge : Effects.world := world februaryCached (maxAge + 1) greets.

End Sample.

(** ** The monthly files of the output directory: [getMonthlyFiles] *)

Module Listing.
Import JS.

(** [\d] *)
Definition isDigit (c : ascii) : bool :=
  let n := Ascii.nat_of_ascii c in (48 <=? n) && (n <=? 57).

(** [/^\d{4}-\d{2}\.md$/.test(file)] *)
Definition monthlyPattern (file : string) : bool :=
  match list_ascii_of_string file with
  | [y1; y2; y3; y4; dash; m1; m2; dot; m; d] =>
      isDigit y1 && isDigit y2 && isDigit y3 && isDigit y4 &&
      Ascii.eqb dash "-" && isDigit m1 && isDigit m2 &&
      Ascii.eqb dot "." && Ascii.eqb m "m" && Ascii.eqb d "d"
  | _ => false
  end.

(** [s.endsWith(suffix)] *)
Definition endsWith (s suffix : string) : bool :=
  (String.length suffix <=? String.length s) &&
  String.eqb (dropStr (String.length s - String.length suffix) s) suffix.

(** [getMonthlyFiles(outputDir)], given what [fs.readdirSync(outputDir)]
    lists. [sort()] without a comparison function orders the names by their
    code units; the sorted arrangement of a list of strings is unique, so
    any sorting algorithm gives it. *)
Definition getMonthlyFiles (files : list string) : list string :=
  merge_sort String.le
    (List.filter (fun file => endsWith file ".md" && monthlyPattern file) files).

End Listing.

(** ** The run over all months: [main] *)

Module Orchestrator.
Import JS Effects Summarizer Listing.
Local Open Scope js_scope.

(** [s.toLowerCase()] on code units below 256: the letters A-Z and the
    capital letters of Latin-1. *)
Definition toLowerCaseUnit (c : ascii) : ascii :=
  let n := Ascii.nat_of_ascii c in
  if ((65 <=? n) && (n <=? 90)) || ((192 <=? n) && (n <=? 214)) || ((216 <=? n) && (n <=? 222))
  then Ascii.ascii_of_nat (n + 32) else c.

Fixpoint toLowerCase (s : string) : string :=
  match s with
  | EmptyString => ""
  | String c r => String (toLowerCaseUnit c) (toLowerCase r)
  end.

(** A number in a string concatenation. *)
Definition numberToString (n : nat) : string := NilEmpty.string_of_uint (Nat.to_uint n).

(** What the second loop of [main] has counted and collected. *)
Record tally := { summaries : list string; processed : nat; apiCallsMade : nat }.

(** How a run of [main] ends: with [process.exit(code)], with an exception
    that leaves [main], or by reaching its end. *)
Inductive ending := Exit (code : nat) | Threw (message : string) | Completed.

(** A run of [main]: its end, the two counts of the cache check, the tally
    of the second loop when the run ends, and [summary.md] as the run leaves
    it ([None]: no such file). *)
Record report := {
  ended : ending;
  cachedCount : nat;
  needsApiCallCount : nat;
  counted : tally;
  summaryMd : option string }.

Section Orchestrator.

Variable dateOf : string -> option (nat * nat).
Variable systemPrompt : string.
Variable cacheDir : string.
(** [path.join(__dirname, "output")] *)
Variable outputDir : string.
(** [new Date(now).toISOString()] *)
Variable toISOString : Z -> string.

(** The loop of the cache check. *)
Fixpoint checkCache (monthlyFiles : list string) (cachedCount needsApiCallCount : nat)
    : M (nat * nat) :=
  match monthlyFiles with
  | [] => ret (cachedCount, needsApiCallCount)
  | monthFile :: rest =>
      cachedSummary <- getCachedSummary cacheDir monthFile ;;
      if truthy_opt cachedSummary
      then checkCache rest (S cachedCount) needsApiCallCount
      else checkCache rest cachedCount (S needsApiCallCount)
  end.

(** [answer.toLowerCase() !== "y" && answer.toLowerCase() !== "yes"] *)
Definition declined (answer : string) : bool :=
  negb (String.eqb (toLowerCase answer) "y") && negb (String.eqb (toLowerCase answer) "yes").

Definition header (now : Z) (months : nat) : string :=
  join nl
    [ "# Company Conversation Summary";
      "";
      "This document contains AI-generated summaries of monthly Slack conversations, ";
      "providing insights into the company's journey, decisions, and key discussions.";
      "";
      "Generated on: " +:+ toISOString now;
      "Total months to process: " +:+ numberToString months;
      "" ].

Definition finalHeader (now : Z) (processed : nat) : string :=
  join nl
    [ "# Company Conversation Summary";
      "";
      "This document contains AI-generated summaries of monthly Slack conversations, ";
      "providing insights into the company's journey, decisions, and key discussions.";
      "";
      "Generated on: " +:+ toISOString now;
      "Total months processed: " +:+ numberToString processed;
      "" ].

(** The loop over the months. [file] is the content of [summary.md], to
    which every month is appended as soon as it is done; when an exception
    leaves the loop, the tally and the file are what they were then. *)
Fixpoint processMonths (monthlyFiles : list string) (t : tally) (file : string) (w : world)
    : option string * tally * string * world :=
  match monthlyFiles with
  | [] => (None, t, file, w)
  | monthFile :: rest =>
      match getCachedSummary cacheDir monthFile w with
      | (Throw e, w1) => (Some e, t, file, w1)
      | (Return cached, w1) =>
          let wasCached := bool_decide (cached <> None) in
          match generateMonthSummary dateOf systemPrompt cacheDir monthFile outputDir w1 with
          | (Throw e, w2) => (Some e, t, file, w2)
          | (Return summary, w2) =>
              processMonths rest
                {| summaries := summaries t ++ [summary];
                   processed := S (processed t);
                   apiCallsMade := if wasCached then apiCallsMade t else S (apiCallsMade t) |}
                (file +:+ summary +:+ nl +:+ nl)
                w2
          end
      end
  end.

(** [main()], given what [fs.readdirSync(outputDir)] lists ([None]: the
    directory does not exist), the line the user answers the question with,
    and [summary.md] as it is before the run. *)
Definition main (listing : option (list string)) (answer : string)
    (summaryMd : option string) (w : world) : report * world :=
  let start := {| summaries := []; processed := 0; apiCallsMade := 0 |} in
  match listing with
  | None =>
      ({| ended := Exit 1; cachedCount := 0; needsApiCallCount := 0;
          counted := start; summaryMd := summaryMd |}, w)
  | Some files =>
      let monthlyFiles := getMonthlyFiles files in
      if length monthlyFiles =? 0 then
        ({| ended := Exit 1; cachedCount := 0; needsApiCallCount := 0;
            counted := start; summaryMd := summaryMd |}, w)
      else
        match checkCache monthlyFiles 0 0 w with
        | (Throw e, w1) =>
            ({| ended := Threw e; cachedCount := 0; needsApiCallCount := 0;
                counted := start; summaryMd := summaryMd |}, w1)
        | (Return (cachedCount, needsApiCallCount), w1) =>
            if declined answer then
              ({| ended := Exit 0; cachedCount := cachedCount;
                  needsApiCallCount := needsApiCallCount;
                  counted := start; summaryMd := summaryMd |}, w1)
            else
              let header := header (clock w1 (ticks w1)) (length monthlyFiles) in
              match processMonths monthlyFiles start header (tick w1) with
              | (Some e, t, file, w2) =>
                  ({| ended := Threw e; cachedCount := cachedCount;
                      needsApiCallCount := needsApiCallCount;
                      counted := t; summaryMd := Some file |}, w2)
              | (None, t, file, w2) =>
                  let finalHeader := finalHeader (clock w2 (ticks w2)) (processed t) in
                  let currentContent := file in
                  let contentWithoutHeader :=
                    dropStr (String.length header) currentContent in
                  ({| ended := Completed; cachedCount := cachedCount;
                      needsApiCallCount := needsApiCallCount;
                      counted := t;
                      summaryMd := Some (finalHeader +:+ contentWithoutHeader) |},
                   tick w2)
              end
        end
  end.

End Orchestrator.
End Orchestrator.

(** ** The converter: names of users, mentions and months *)

Module Converter.
Import JS Effects.

(** An entry of [users.json], as far as the converter reads it. *)
Record Profile := { display_name : option string; real_name : option string }.
Record User := { id : string; profile : option Profile; name : option string }.

(** [user.profile && user.profile.<field>] *)
Definition profileField (user : User) (field : Profile -> option string) : option string :=
  match profile user with
  | Some p => field p
  | None => None
  end.

(** [createUserMapping(users)]: the [Map] it returns. *)
Definition createUserMapping (users : list User) : gmap string string :=
  foldl
    (fun userMap user =>
       if truthy_opt (profileField user display_name) then
         <[ id user := default "" (profileField user display_name) ]> userMap
       else if truthy_opt (profileField user real_name) then
         <[ id user := default "" (profileField user real_name) ]> userMap
       else if truthy_opt (name user) then
         <[ id user := default "" (name user) ]> userMap
       else
         <[ id user := id user ]> userMap)
    ∅ users.

(** An entry of [dms.json]: its [id] and its [members]. *)
Record DM := { dmId : string; members : list string }.

(** [createDMMapping(dms, userMap)]: the [Map] it returns. The names are
    put in the order of [sort()], the order of their code units. *)
Definition createDMMapping (dms : list DM) (userMap : gmap string string)
    : gmap string string :=
  foldl
    (fun dmMap dm =>
       let participantNames :=
         merge_sort String.le
           (List.filter (fun name => negb (String.eqb name "USLACKBOT"))
              (map (fun userId =>
                      if truthy_opt (userMap !! userId) then default "" (userMap !! userId)
                      else userId)
                 (members dm))) in
       if 0 <? length participantNames then
         let dmName :=
           if length participantNames =? 1
           then "DM with " +:+ nth 0 participantNames "undefined"
           else "DM between " +:+ join ", " participantNames in
         <[ dmId dm := dmName ]> dmMap
       else dmMap)
    ∅ dms.

(** [[A-Z0-9]] *)
Definition isIdUnit (c : ascii) : bool :=
  let n := Ascii.nat_of_ascii c in
  ((65 <=? n) && (n <=? 90)) || ((48 <=? n) && (n <=? 57)).

(** The longest run of [[A-Z0-9]] at the start of [s], and what follows it. *)
Fixpoint idRun (s : string) : string * string :=
  match s with
  | EmptyString => ("", "")
  | String c r =>
      if isIdUnit c then let (run, rest) := idRun r in (String c run, rest)
      else ("", s)
  end.

(** A match of [/<@([A-Z0-9]+)>/] at the start of [s]: its capture. The run
    is greedy, and since [>] is no [[A-Z0-9]] a shorter run cannot match. *)
Definition mentionAt (s : string) : option string :=
  match s with
  | String "<" (String "@" r) =>
      let (userId, rest) := idRun r in
      if truthy userId && startsWith rest ">" then Some userId else None
  | _ => None
  end.

(** [text.replace(/<@([A-Z0-9]+)>/g, (match, userId) => ...)]: the text is
    read from left to right; at a match the result of the function is put
    out, as it is, and the [skip] further units of the match are passed
    over; elsewhere the unit is put out. *)
Fixpoint replaceMentions (userMap : gmap string string) (s : string) (skip : nat) : string :=
  match s with
  | EmptyString => ""
  | String c r =>
      match skip with
      | S skip' => replaceMentions userMap r skip'
      | 0 =>
          match mentionAt s with
          | Some userId =>
              let userName :=
                if truthy_opt (userMap !! userId) then default "" (userMap !! userId)
                else userId in
              "@" +:+ userName +:+ replaceMentions userMap r (String.length userId + 2)
          | None => String c (replaceMentions userMap r 0)
          end
      end
  end.

(** [cleanMessageText(text, userMap)]; [None] is a message without [text]. *)
Definition cleanMessageText (text : option string) (userMap : gmap string string) : string :=
  if negb (truthy_opt text) then ""
  else replaceMentions userMap (default "" text) 0.

(** [dateStr.substring(0, 7)] *)
Definition getMonthKey (dateStr : string) : string := String.substring 0 7 dateStr.

Definition getDateFromFilename (filename : string) : string :=
  replace filename ".json" "".

(** [`${monthKey}.md`], the name of the file [main] writes for a month. *)
Definition monthFileName (monthKey : string) : string := monthKey +:+ ".md".

End Converter.

(** ** Further vocabulary *)

Module Terms.
Import JS Splitter Effects Summarizer.

(** The record [generateOneSentenceSummary] writes at time [now]. *)
Definition digestRecord (now : Z) (monthFile text : string) : cacheData :=
  {| timestamp := Some now; monthFile := monthFile; summary := None;
     oneSentenceSummary := Some text; model := "gpt-5-mini" |}.

(** The value of a decimal digit. *)
Definition digitValue (c : ascii) : nat := Ascii.nat_of_ascii c - 48.

(** The year and the month a monthly file name is written with, as one
    number that grows with time: [100 * year + month]. *)
Definition monthNumber (file : string) : nat :=
  match list_ascii_of_string file with
  | y1 :: y2 :: y3 :: y4 :: _ :: m1 :: m2 :: _ =>
      100 * (1000 * digitValue y1 + 100 * digitValue y2 + 10 * digitValue y3 + digitValue y4)
      + (10 * digitValue m1 + digitValue m2)
  | _ => 0
  end.

(** The first seven characters of a monthly file name: [YYYY-MM]. *)
Definition stem (file : string) : string := String.substring 0 7 file.

(** The character [c] occurs in [s]. *)
Fixpoint occurs (c : ascii) (s : string) : bool :=
  match s with
  | EmptyString => false
  | String x r => Ascii.eqb x c || occurs c r
  end.

(** A computation that adds at most [onReturn] calls to the service when it
    returns and at most [onThrow] when it throws. *)
Definition calls {A} (onReturn onThrow : nat) (m : M A) : Prop :=
  forall w,
    match m w with
    | (Return _, w') => length (requests w') <= length (requests w) + onReturn
    | (Throw _, w') => length (requests w') <= length (requests w) + onThrow
    end.

(** How a fresh attempt ends, starting from the world [w]: with the inline
    error block and the cache of [w], or with a text whose form without the
    digest has just been written to the cache. *)
Definition settles (cacheDir monthFile monthName : string) (w : world)
    (r : outcome string * world) : Prop :=
  (exists e w', r = (Return (errorBlock monthName e), w') /\ cache w' = cache w) \/
  (exists body one w1,
     r = (Return (withTldr monthName (heading monthName +:+ body) one),
          saved cacheDir monthFile (heading monthName +:+ body) w1)) \/
  (exists w1,
     r = (Return (placeholder monthName),
          saved cacheDir monthFile (placeholder monthName) w1)).

(** The cache of [w] holds the digest [one] of the month, valid when read at
    time [now]: its file parses to a record with a time stamp at most seven
    days before [now] and a digest that is not empty. *)
Definition digestCached (cacheDir monthFile : string) (w : world) (now : Z) (one : string)
    : Prop :=
  exists d stamp,
    cache w !! oneSentenceCachePath cacheDir monthFile = Some (Json d) /\
    timestamp d = Some stamp /\ (now - stamp <= maxAge)%Z /\
    oneSentenceSummary d = Some one /\ one <> "".

(** The first of the texts that is there and not empty, or [fallback]. *)
Definition firstTruthy (candidates : list (option string)) (fallback : string) : string :=
  hd fallback (List.filter truthy (omap (fun o => o) candidates)).

(** The months of [summary.md] after its header: each text followed by a
    blank line. *)
Fixpoint sections (summaries : list string) : string :=
  match summaries with
  | [] => ""
  | summary :: rest => summary +:+ nl +:+ nl +:+ sections rest
  end.

(** The files are monthly files and the cached summaries of the files, if
    any, begin with the headings of their months. *)
Definition ready (dateOf : string -> option (nat * nat)) (cacheDir : string)
    (files : list string) (w : world) : Prop :=
  forall f, f ∈ files ->
    Listing.monthlyPattern f = true /\
    wellFormedAt (getCacheFilePath cacheDir f) (monthNameOf dateOf f) w.

End Terms.
Export Terms.

(** ** Further sample worlds *)

Module Scenario.
Import JS Effects Summarizer.

(** The summary succeeds, the digest call fails. *)
Definition digestFails (k : nat) : response :=
  match k with
  | 0 => Content "The team said hello to each other."
  | _ => Failure "503 Service unavailable"
  end.

(** A summary, then a digest. *)
Definition summaryThenDigest (k : nat) : response :=
  match k with
  | 0 => Content "The team said hello to each other."
  | _ => Content " Greetings were exchanged. "
  end.

(** Too large whole; the first half fits, the second is refused for another
    reason. *)
Definition halfRateLimited (k : nat) : response :=
  match k with
  | 0 => Failure "Input tokens exceed the configured limit"
  | 1 => Content "First part."
  | _ => Failure "429 Rate limit reached"
  end.

(** Too large whole; the first half fits, the second does not; the quarters
    fit. *)
Definition worstCase (k : nat) : response :=
  match k with
  | 0 | 2 => Failure "Input tokens exceed the configured limit"
  | _ => Content "The team said hello to each other."
  end.

(** A cache that holds the summary of another month. *)
Definition marchCached : gmap string cacheFile :=
  {[ "cache/2021-03.json" :=
       Json {| timestamp := Some 0%Z; monthFile := "2021-03.md";
               summary := Some ("## March 2021" +:+ nl +:+ nl +:+ "A quiet month overall.");
               oneSentenceSummary := None; model := "gpt-5-mini" |} ]}.

(** A cache file of February 2021 that parses to a record without a time
    stamp. *)
Definition undated : gmap string cacheFile :=
  {[ "cache/2021-02.json" :=
       Json {| timestamp := None; monthFile := "2021-02.md";
               summary := Some ("## February 2021" +:+ nl +:+ nl +:+ "The team said hello.");
               oneSentenceSummary := None; model := "gpt-5-mini" |} ]}.

(** A cache that holds the summary and the digest of February 2021. *)
Definition bothCached : gmap string cacheFile :=
  <[ "cache/2021-02-onesentence.json" :=
       Json {| timestamp := Some 0%Z; monthFile := "2021-02.md"; summary := None;
               oneSentenceSummary := Some "Hello."; model := "gpt-5-mini" |} ]>
  Sample.februaryCached.

(** What [fs.readdirSync] lists for an output directory with the February
    document and two other files. *)
Definition listing : list string := ["notes.md"; "2021-02.md"; "2021-02.md.bak"].

Definition toISOString (now : Z) : string := "2021-03-01T00:00:00.000Z".

(** The run over all months in the directory [output], with the cache
    directory [cache]. *)
Definition main (listing : option (list string)) (answer : string)
    (summaryMd : option string) (w : world) : Orchestrator.report * world :=
  Orchestrator.main Sample.dateOf "PROMPT" "cache" "output" toISOString
    listing answer summaryMd w.

End Scenario.

(** * Properties *)

(** ** Strings and lines *)

Section StringFacts.
Import JS.

Lemma app_nil_l (b : string) : "" +:+ b = b.
Proof. reflexivity. Qed.

Lemma app_cons (c : ascii) (a b : string) : String c a +:+ b = String c (a +:+ b).
Proof. reflexivity. Qed.

Lemma append_assoc (a b c : string) : (a +:+ b) +:+ c = a +:+ b +:+ c.
Proof.
  induction a as [|x a IH]; [reflexivity|].
  rewrite !app_cons. now rewrite IH.
Qed.

Lemma prefix_append (p r : string) : String.prefix p (p +:+ r) = true.
Proof.
  induction p as [|x p IH].
  - now destruct r.
  - rewrite app_cons. simpl.
    destruct (Ascii.ascii_dec x x) as [_|ne]; [exact IH | now destruct ne].
Qed.

Lemma dropStr_append (p r : string) : dropStr (String.length p) (p +:+ r) = r.
Proof.
  induction p as [|x p IH]; [now destruct r|].
  rewrite app_cons. simpl. exact IH.
Qed.

Lemma split_lines_cons (s : string) : exists l ls, split_lines s = l :: ls.
Proof.
  induction s as [|c r IH]; simpl; [now eexists _, _|].
  destruct (Ascii.eqb c LF); [now eexists _, _|].
  destruct IH as (l & ls & ->). now eexists _, _.
Qed.

Lemma split_lines_length (s : string) : 1 <= length (split_lines s).
Proof. destruct (split_lines_cons s) as (l & ls & ->). simpl. lia. Qed.

Lemma join_cons_cons (sep x y : string) (r : list string) :
  join sep (x :: y :: r) = x +:+ sep +:+ join sep (y :: r).
Proof. reflexivity. Qed.

Lemma join_app (sep : string) (a b : list string) :
  a <> [] -> b <> [] -> join sep (a ++ b) = join sep a +:+ sep +:+ join sep b.
Proof.
  intros Ha Hb. induction a as [|x [|y a] IH]; [congruence| |].
  - destruct b as [|z b]; [congruence|]. reflexivity.
  - change ((x :: y :: a) ++ b) with (x :: y :: (a ++ b)).
    rewrite !join_cons_cons. change (y :: a ++ b) with ((y :: a) ++ b).
    rewrite IH by discriminate. now rewrite !append_assoc.
Qed.

(** Joining the lines of a text with line feeds gives the text back. *)
Lemma join_split_lines (s : string) : join nl (split_lines s) = s.
Proof.
  induction s as [|c r IH]; [reflexivity|].
  simpl. destruct (split_lines_cons r) as (l & ls & E). rewrite E in *.
  destruct (Ascii.eqb_spec c LF) as [->|ne].
  - rewrite join_cons_cons, IH. reflexivity.
  - destruct ls as [|l' ls].
    + rewrite <- IH. reflexivity.
    + rewrite join_cons_cons in *. rewrite <- IH. reflexivity.
Qed.

End StringFacts.

(** ** The splitter *)

Section SplitterFacts.
Import JS Splitter.

Lemma boundary_out (lines : list string) (j : nat) :
  length lines <= j -> boundary lines j = false.
Proof.
  intros H. unfold boundary. now rewrite (lookup_ge_None_2 _ _ H).
Qed.

(** Where the scanning loop breaks is the first boundary line of its range. *)
Lemma scan_Some (lines : list string) (fuel i k : nat) :
  scan lines i fuel = Some k ->
  i <= k < i + fuel /\ boundary lines k = true /\
  forall j, i <= j < k -> boundary lines j = false.
Proof.
  revert i. induction fuel as [|fuel IH]; intros i H; simpl in H; [discriminate|].
  destruct (lines !! i) as [l|] eqn:El; [|discriminate].
  destruct (startsWith l "## ") eqn:Es.
  - injection H as <-. repeat split; try lia.
    unfold boundary. now rewrite El.
  - destruct (IH _ H) as (Hk & Hb & Hj). repeat split; try lia; [exact Hb|].
    intros j Hij. destruct (decide (j = i)) as [->|ne].
    + unfold boundary. now rewrite El.
    + apply Hj. lia.
Qed.

(** When it does not break, its range holds no boundary line. *)
Lemma scan_None (lines : list string) (fuel i : nat) :
  scan lines i fuel = None ->
  forall j, i <= j < i + fuel -> boundary lines j = false.
Proof.
  revert i. induction fuel as [|fuel IH]; intros i H j Hj; [lia|].
  simpl in H. destruct (lines !! i) as [l|] eqn:El.
  - destruct (startsWith l "## ") eqn:Es; [discriminate|].
    destruct (decide (j = i)) as [->|ne].
    + unfold boundary. now rewrite El.
    + apply (IH _ H). lia.
  - apply boundary_out. apply lookup_ge_None_1 in El. lia.
Qed.

Lemma slice_drop {A} (a b : nat) (l : list A) :
  a <= b -> slice a b l ++ drop b l = drop a l.
Proof.
  intros H. unfold slice.
  rewrite <- (take_drop (b - a) (drop a l)) at 2.
  rewrite drop_drop. now replace (a + (b - a)) with b by lia.
Qed.

(** The split index of [splitMonthContent]: the first boundary line from the
    midpoint on, or the midpoint. *)
Lemma splitIndex_spec (lines : list string) :
  let mid := length lines / 2 in
  let k := splitIndex lines in
  (mid <= k < length lines /\ boundary lines k = true /\
   forall j, mid <= j < k -> boundary lines j = false)
  \/ (k = mid /\ forall j, mid <= j -> boundary lines j = false).
Proof.
  intros mid k. unfold k, splitIndex. fold mid.
  assert (Hmid : mid <= length lines).
  { unfold mid. apply Nat.Div0.div_le_upper_bound. lia. }
  destruct (scan lines mid (length lines - mid)) as [i|] eqn:E; simpl.
  - left. destruct (scan_Some _ _ _ _ E) as (Hk & Hb & Hj).
    repeat split; try lia; assumption.
  - right. split; [reflexivity|]. intros j Hj.
    destruct (decide (j < length lines)) as [lt|ge].
    + apply (scan_None _ _ _ E). lia.
    + apply boundary_out. lia.
Qed.

Lemma splitIndex_lt (lines : list string) :
  1 <= length lines -> splitIndex lines < length lines.
Proof.
  intros H. destruct (splitIndex_spec lines) as [(Hk & _)|(-> & _)]; [lia|].
  apply Nat.div_lt; lia.
Qed.

(** Each split point of [splitMonthContentIntoFour] lies in the quarter that
    starts at its target index. *)
Lemma splitPoint_range (lines : list string) (quarter : nat) :
  let quarterSize := length lines / 4 in
  let p := splitPoint lines quarterSize quarter in
  quarter * quarterSize <= p /\
  (p < quarter * quarterSize + quarterSize \/ p = quarter * quarterSize).
Proof.
  intros Q p. unfold p, splitPoint.
  destruct (scan lines (quarter * Q) _) as [i|] eqn:E; simpl.
  - destruct (scan_Some _ _ _ _ E) as (Hk & _). lia.
  - lia.
Qed.

End SplitterFacts.

(** C5. [splitMonthContent] cuts the lines of the document in two at the split
    index: the first half is the lines before it, the second half the lines
    from it on (each joined with line feeds), the two line sequences put
    together are the lines of the document, and the split index is the first
    line starting with ["## "] at or after the midpoint, or the midpoint when
    there is none. As texts: the two halves with a line feed between them are
    the document, unless the first half has no line, when the second half is
    the document. *)
Theorem splitMonthContent_partition (content : string) :
  let lines := JS.split_lines content in
  let mid := length lines / 2 in
  let k := Splitter.splitIndex lines in
  let parts := Splitter.splitMonthContent content in
  Splitter.firstHalf parts = JS.join JS.nl (take k lines) /\
  Splitter.secondHalf parts = JS.join JS.nl (drop k lines) /\
  take k lines ++ drop k lines = lines /\
  ((mid <= k < length lines /\ Splitter.boundary lines k = true /\
    forall j, mid <= j < k -> Splitter.boundary lines j = false)
   \/ (k = mid /\ forall j, mid <= j -> Splitter.boundary lines j = false)) /\
  JS.join JS.nl lines = content /\
  (0 < k ->
   Splitter.firstHalf parts +:+ JS.nl +:+ Splitter.secondHalf parts = content) /\
  (k = 0 -> Splitter.firstHalf parts = "" /\ Splitter.secondHalf parts = content).
Proof.
  intros lines mid k parts.
  assert (E1 : Splitter.firstHalf parts = JS.join JS.nl (take k lines)).
  { unfold parts, Splitter.splitMonthContent, JS.slice. simpl.
    now rewrite drop_0, Nat.sub_0_r. }
  assert (E2 : Splitter.secondHalf parts = JS.join JS.nl (drop k lines)) by reflexivity.
  pose proof (split_lines_length content) as Hlen. fold lines in Hlen.
  pose proof (splitIndex_lt lines Hlen) as Hk. fold k in Hk.
  split; [exact E1|]. split; [exact E2|]. split; [apply take_drop|].
  split; [apply splitIndex_spec|]. split; [apply join_split_lines|]. split.
  - intros Hpos. rewrite E1, E2, <- join_app.
    + rewrite take_drop. apply join_split_lines.
    + intros H. apply (f_equal length) in H. rewrite length_take in H. simpl in H. lia.
    + intros H. apply (f_equal length) in H. rewrite length_drop in H. simpl in H. lia.
  - intros H0. rewrite E1, E2, H0. split; [reflexivity|].
    rewrite drop_0. apply join_split_lines.
Qed.

(** C10. The split index of [splitMonthContent] is below the number of lines
    for every input, so the second half it returns always holds at least
    one line of the document: the line at the split index and the lines
    after it, joined with line feeds. The first half it returns holds the
    lines before the split index, as many as the split index, and none (it
    is the empty text) exactly when the document is one line. *)
Theorem splitMonthContent_second_nonempty (content : string) :
  let lines := JS.split_lines content in
  let k := Splitter.splitIndex lines in
  let parts := Splitter.splitMonthContent content in
  k < length lines /\
  (exists line rest,
     lines !! k = Some line /\
     JS.sliceFrom k lines = line :: rest /\
     Splitter.secondHalf parts = JS.join JS.nl (line :: rest)) /\
  Splitter.firstHalf parts = JS.join JS.nl (JS.slice 0 k lines) /\
  length (JS.slice 0 k lines) = k /\
  (k = 0 <-> length lines = 1) /\
  (k = 0 -> Splitter.firstHalf parts = "").
Proof.
  intros lines k parts.
  pose proof (split_lines_length content) as Hlen. fold lines in Hlen.
  pose proof (splitIndex_lt lines Hlen) as Hk. fold k in Hk.
  split; [exact Hk|]. split; [|split; [|split; [|split]]].
  - destruct (lookup_lt_is_Some_2 lines k Hk) as [line Hline].
    exists line, (drop (S k) lines). split; [exact Hline|].
    assert (Hd : JS.sliceFrom k lines = line :: drop (S k) lines)
      by (unfold JS.sliceFrom; now apply drop_S).
    split; [exact Hd|].
    unfold parts, Splitter.splitMonthContent. cbn [Splitter.secondHalf].
    fold lines. fold k. now rewrite Hd.
  - reflexivity.
  - unfold JS.slice. rewrite drop_0, Nat.sub_0_r, length_take. lia.
  - destruct (splitIndex_spec lines) as [(Hm & _)|(Hm & _)]; fold k in Hm.
    + split; intros H.
      * assert (length lines / 2 = 0) as Hd by lia.
        apply Nat.div_small_iff in Hd; lia.
      * assert (length lines / 2 = 0) as Hd by (rewrite H; reflexivity). lia.
    + rewrite Hm. split; intros H.
      * apply Nat.div_small_iff in H; lia.
      * rewrite H. reflexivity.
  - intros H0. unfold parts, Splitter.splitMonthContent. cbn [Splitter.firstHalf].
    fold lines. fold k. rewrite H0. reflexivity.
Qed.

(** C4. [splitMonthContentIntoFour] cuts the lines of the document at three
    split points that never decrease, into four segments (each joined with
    line feeds) whose line sequences put together are the lines of the
    document. *)
Theorem splitMonthContentIntoFour_partition (content : string) :
  let lines := JS.split_lines content in
  exists p0 p1 p2,
    Splitter.splitPoints lines = [p0; p1; p2] /\
    p0 <= p1 /\ p1 <= p2 /\ p2 <= length lines /\
    Splitter.splitMonthContentIntoFour content =
      [ JS.join JS.nl (JS.slice 0 p0 lines); JS.join JS.nl (JS.slice p0 p1 lines);
        JS.join JS.nl (JS.slice p1 p2 lines); JS.join JS.nl (JS.sliceFrom p2 lines) ] /\
    JS.slice 0 p0 lines ++ JS.slice p0 p1 lines ++ JS.slice p1 p2 lines ++
      JS.sliceFrom p2 lines = lines.
Proof.
  intros lines.
  pose proof (splitPoint_range lines 1) as (L1 & U1).
  pose proof (splitPoint_range lines 2) as (L2 & U2).
  pose proof (splitPoint_range lines 3) as (L3 & U3).
  pose proof (Nat.Div0.mul_div_le (length lines) 4) as H4.
  set (Q := length lines / 4) in *.
  set (p0 := Splitter.splitPoint lines Q 1) in *.
  set (p1 := Splitter.splitPoint lines Q 2) in *.
  set (p2 := Splitter.splitPoint lines Q 3) in *.
  assert (H01 : p0 <= p1) by lia.
  assert (H12 : p1 <= p2) by lia.
  exists p0, p1, p2. split; [reflexivity|].
  split; [exact H01|]. split; [exact H12|]. split; [lia|]. split; [reflexivity|].
  unfold JS.sliceFrom.
  rewrite (slice_drop p1 p2), (slice_drop p0 p1), (slice_drop 0 p0) by lia.
  apply drop_0.
Qed.

(** ** The cache store *)

Section CacheFacts.
Import JS Effects Summarizer.

Variable cacheDir : string.

(** [getCachedSummary] by cases on the cache file. *)
Lemma getCachedSummary_run (monthFile : string) (w : world) :
  getCachedSummary cacheDir monthFile w =
  match cache w !! getCacheFilePath cacheDir monthFile with
  | Some (Json d) => (Return (validSummary (clock w (ticks w)) d), tick w)
  | Some Corrupted => (Return None, w)
  | None => (Return None, w)
  end.
Proof.
  unfold getCachedSummary, bind, existsSync, tryCatch, readJson, Date_now.
  cbv beta zeta.
  destruct (cache w !! getCacheFilePath cacheDir monthFile) as [[|d]|] eqn:E;
    simpl; rewrite ?E; simpl.
  - reflexivity.
  - unfold validSummary.
    destruct (greater _ _); [reflexivity|].
    destruct (summary d) as [s|]; [|reflexivity]. simpl.
    unfold truthy. destruct (String.eqb_spec s "") as [->|ne]; [reflexivity|].
    simpl. destruct (String.length s <? 10); reflexivity.
  - reflexivity.
Qed.

Lemma validSummary_Some (now : Z) (d : cacheData) (s : string) :
  validSummary now d = Some s <->
  (forall t, timestamp d = Some t -> (now - t <= maxAge)%Z) /\
  summary d = Some s /\ 10 <= String.length s.
Proof.
  unfold validSummary.
  assert (Hage : greater (minus now (timestamp d)) maxAge = false <->
                 forall t, timestamp d = Some t -> (now - t <= maxAge)%Z).
  { destruct (timestamp d) as [t|]; cbn [minus greater].
    - destruct (Z.gtb_spec (now - t) maxAge) as [Hgt|Hle]; split; try congruence.
      intros Ht. specialize (Ht t eq_refl). lia.
    - split; [intros _ t; discriminate | reflexivity]. }
  destruct (greater (minus now (timestamp d)) maxAge).
  - split; [discriminate|]. intros (H & _). apply Hage in H. discriminate.
  - assert (Hok : forall t, timestamp d = Some t -> (now - t <= maxAge)%Z)
      by now apply Hage.
    clear Hage. destruct (summary d) as [t|]; [|split; [discriminate | intros (_ & ? & _); discriminate]].
    destruct (Nat.ltb_spec (String.length t) 10).
    + split; [discriminate|]. intros (_ & [= ->] & ?). lia.
    + split; [intros [= ->]; auto | intros (_ & [= ->] & _); reflexivity].
Qed.

(** A record with a time stamp. *)
Lemma validSummary_dated (now t : Z) (d : cacheData) (s : string) :
  timestamp d = Some t ->
  validSummary now d = Some s <->
  (now - t <= maxAge)%Z /\ summary d = Some s /\ 10 <= String.length s.
Proof.
  intros Ht. rewrite validSummary_Some. split.
  - intros (H & ? & ?). auto.
  - intros (H & ? & ?). repeat split; auto. intros t' E.
    rewrite Ht in E. now injection E as <-.
Qed.

Lemma cachedOneSentence_run (monthFile : string) (w : world) :
  cachedOneSentence cacheDir monthFile w =
  match cache w !! oneSentenceCachePath cacheDir monthFile with
  | Some (Json d) => (Return (validDigest (clock w (ticks w)) d), tick w)
  | Some Corrupted => (Return None, w)
  | None => (Return None, w)
  end.
Proof.
  unfold cachedOneSentence, bind, existsSync, tryCatch, readJson, Date_now.
  cbv beta zeta.
  destruct (cache w !! oneSentenceCachePath cacheDir monthFile) as [[|d]|] eqn:E;
    simpl; rewrite ?E; simpl.
  - reflexivity.
  - unfold validDigest.
    destruct (_ && _); reflexivity.
  - reflexivity.
Qed.

Lemma truthy_iff (s : string) : truthy s = true <-> s <> "".
Proof.
  unfold truthy. destruct (String.eqb_spec s ""); simpl; split; congruence.
Qed.

Lemma validDigest_Some (now : Z) (d : cacheData) (s : string) :
  validDigest now d = Some s <->
  (exists t, timestamp d = Some t /\ (now - t <= maxAge)%Z) /\
  oneSentenceSummary d = Some s /\ s <> "".
Proof.
  unfold validDigest.
  assert (Hage : atMost (minus now (timestamp d)) maxAge = true <->
                 exists t, timestamp d = Some t /\ (now - t <= maxAge)%Z).
  { destruct (timestamp d) as [t|]; cbn [minus atMost].
    - destruct (Z.leb_spec (now - t) maxAge) as [Hle|Hgt]; split; try congruence.
      + intros _. now exists t.
      + intros (t' & [= <-] & H'). lia.
    - split; [discriminate | intros (t & E & _); discriminate]. }
  destruct (atMost (minus now (timestamp d)) maxAge); simpl.
  - assert (Hok : exists t, timestamp d = Some t /\ (now - t <= maxAge)%Z)
      by now apply Hage.
    clear Hage. destruct (oneSentenceSummary d) as [t|]; simpl.
    + destruct (truthy t) eqn:Et.
      * apply truthy_iff in Et. split; [intros [= ->]; auto | intros (_ & [= ->] & _); reflexivity].
      * split; [discriminate|]. intros (_ & [= ->] & Hs).
        apply truthy_iff in Hs. congruence.
    + split; [discriminate | intros (_ & ? & _); discriminate].
  - split; [discriminate|]. intros (H & _). apply Hage in H. discriminate.
Qed.

Lemma validDigest_dated (now t : Z) (d : cacheData) (s : string) :
  timestamp d = Some t ->
  validDigest now d = Some s <->
  (now - t <= maxAge)%Z /\ oneSentenceSummary d = Some s /\ s <> "".
Proof.
  intros Ht. rewrite validDigest_Some. split.
  - intros ((t' & E & H) & ? & ?). rewrite Ht in E. injection E as <-. auto.
  - intros (H & ? & ?). repeat split; auto. now exists t.
Qed.

(** [generateOneSentenceSummary] by cases on its cache check and on the answer
    of the service. *)
Lemma generateOneSentenceSummary_run (monthFile fullSummary : string) (w : world) :
  generateOneSentenceSummary cacheDir monthFile fullSummary w =
  match cachedOneSentence cacheDir monthFile w with
  | (Return (Some s), w1) => (Return s, w1)
  | (Return None, w1) =>
      let w2 := sent (oneSentenceRequest fullSummary) w1 in
      match llm w1 (length (requests w1)) with
      | Content text =>
          (Return (trim text),
           stored (oneSentenceCachePath cacheDir monthFile)
             (Json {| timestamp := Some (clock w2 (ticks w2)); monthFile := monthFile;
                      summary := None; oneSentenceSummary := Some (trim text);
                      model := "gpt-5-mini" |})
             (tick w2))
      | Failure e => (Return "Unable to generate summary.", w2)
      end
  | (Throw e, w1) => (Throw e, w1)
  end.
Proof.
  unfold generateOneSentenceSummary, bind at 1.
  destruct (cachedOneSentence cacheDir monthFile w) as [[[s|]|e] w1]; try reflexivity.
  unfold tryCatch, bind, create, Date_now, writeJson, ret.
  destruct (llm w1 (length (requests w1))); reflexivity.
Qed.

End CacheFacts.

(** What [getCachedSummary] returns: the cached summary text exactly when
    the cache file exists, parses, is not older than seven days (an age equal
    to [maxAge] included; a record without a time stamp has no age and is
    never older) and holds a summary of at least ten characters; in every
    other case [null].  It never throws. *)
Lemma getCachedSummary_valid_iff (cacheDir monthFile : string) (w : Effects.world) :
  let path := Summarizer.getCacheFilePath cacheDir monthFile in
  let now := Effects.clock w (Effects.ticks w) in
  let result := fst (Summarizer.getCachedSummary cacheDir monthFile w) in
  (forall s,
     result = Effects.Return (Some s) <->
     exists d, Effects.cache w !! path = Some (Effects.Json d) /\
               (forall t, Effects.timestamp d = Some t ->
                          (now - t <= Summarizer.maxAge)%Z) /\
               Effects.summary d = Some s /\
               10 <= String.length s) /\
  (result = Effects.Return None \/ exists s, result = Effects.Return (Some s)).
Proof.
  intros path now result. unfold result. rewrite getCachedSummary_run.
  fold path. destruct (Effects.cache w !! path) as [[|d]|]; simpl.
  - split; [|now left]. intros s. split; [discriminate|].
    intros (d & [=] & _).
  - fold now. split.
    + intros s. split.
      * intros [= H]. exists d. split; [reflexivity|]. now apply validSummary_Some.
      * intros (d' & [= <-] & H). f_equal. now apply validSummary_Some.
    + destruct (validSummary now d) as [s|]; [right; now exists s | now left].
  - split; [|now left]. intros s. split; [discriminate|].
    intros (d & [=] & _).
Qed.

(** C3. The claim fails on a cache file that parses to a record without a
    time stamp: its age is [NaN], the test [cacheAge > maxAge] is false, and
    [getCachedSummary] returns its summary of ten characters or more at
    every reading of the clock: such an entry never expires.  (The cache
    check of the digest tests [cacheAge <= maxAge] and rejects such a
    record.) *)
Theorem getCachedSummary_without_timestamp
    (cacheDir monthFile s : string) (d : Effects.cacheData) (w : Effects.world) :
  Effects.cache w !! Summarizer.getCacheFilePath cacheDir monthFile =
    Some (Effects.Json d) ->
  Effects.timestamp d = None ->
  Effects.summary d = Some s ->
  10 <= String.length s ->
  fst (Summarizer.getCachedSummary cacheDir monthFile w) = Effects.Return (Some s) /\
  validDigest (Effects.clock w (Effects.ticks w)) d = None.
Proof.
  intros Hfile Ht Hs Hlen. split.
  - rewrite getCachedSummary_run, Hfile. cbn [fst]. f_equal.
    apply validSummary_Some. rewrite Ht. repeat split; auto. discriminate.
  - unfold validDigest. now rewrite Ht.
Qed.

Lemma getCachedSummary_without_timestamp_witness :
  fst (Summarizer.getCachedSummary "cache" "2021-02.md"
         (Sample.world Scenario.undated 1000000000000 Sample.greets)) =
  Effects.Return (Some ("## February 2021" +:+ JS.nl +:+ JS.nl +:+ "The team said hello.")).
Proof.
  apply (getCachedSummary_without_timestamp "cache" "2021-02.md"
           ("## February 2021" +:+ JS.nl +:+ JS.nl +:+ "The team said hello.")
           {| Effects.timestamp := None; Effects.monthFile := "2021-02.md";
              Effects.summary :=
                Some ("## February 2021" +:+ JS.nl +:+ JS.nl +:+ "The team said hello.");
              Effects.oneSentenceSummary := None; Effects.model := "gpt-5-mini" |}
           (Sample.world Scenario.undated 1000000000000 Sample.greets)
           ltac:(reflexivity) ltac:(reflexivity) ltac:(reflexivity)
           ltac:(vm_compute; lia)).
Defined.

(** C9, as the code has it. The cached digest, stored under the cache path of
    the document with [".json"] replaced by ["-onesentence.json"], is reused
    (returned with no call to the service) exactly when its file parses, is at
    most seven days old and holds a non-empty digest text; no minimal length
    is asked of it. Otherwise the digest is generated again with one call. *)
Theorem generateOneSentenceSummary_reuse_iff
    (cacheDir monthFile fullSummary : string) (w : Effects.world) :
  let path := Summarizer.oneSentenceCachePath cacheDir monthFile in
  let now := Effects.clock w (Effects.ticks w) in
  let run := Summarizer.generateOneSentenceSummary cacheDir monthFile fullSummary w in
  let valid s :=
    exists d stamp, Effects.cache w !! path = Some (Effects.Json d) /\
                    Effects.timestamp d = Some stamp /\
                    (now - stamp <= Summarizer.maxAge)%Z /\
                    Effects.oneSentenceSummary d = Some s /\
                    s <> "" in
  (forall s,
     (fst run = Effects.Return s /\ Effects.requests (snd run) = Effects.requests w)
     <-> valid s) /\
  ((forall s, ~ valid s) ->
   Effects.requests (snd run) =
   Effects.requests w ++ [Summarizer.oneSentenceRequest fullSummary]).
Proof.
  intros path now run valid.
  assert (Hv : forall s,
             valid s <->
             exists d, Effects.cache w !! path = Some (Effects.Json d) /\
                       validDigest now d = Some s).
  { intros s. unfold valid. split.
    - intros (d & t & Hf & Ht & Hage & Hs & Hne). exists d. split; [exact Hf|].
      apply validDigest_Some. eauto.
    - intros (d & Hf & H). apply validDigest_Some in H as ((t & Ht & Hage) & Hs & Hne).
      exists d, t. auto. }
  unfold run.
  rewrite generateOneSentenceSummary_run, cachedOneSentence_run. fold path.
  assert (Hneq : forall (l : list Effects.request) r, l ++ [r] <> l).
  { intros l r H. apply (f_equal length) in H. rewrite length_app in H. simpl in H. lia. }
  destruct (Effects.cache w !! path) as [[|d]|] eqn:E.
  - split.
    + intros s. rewrite Hv. split.
      * intros [_ H]. destruct (Effects.llm w _); simpl in H; now apply Hneq in H.
      * intros (d & [=] & _).
    + intros _. destruct (Effects.llm w _); reflexivity.
  - fold now. destruct (validDigest now d) as [t|] eqn:Ev.
    + split.
      * intros s. rewrite Hv. simpl. split.
        -- intros [[= <-] _]. now exists d.
        -- intros (d' & [= <-] & H). rewrite Ev in H. injection H as <-.
           split; reflexivity.
      * intros H. destruct (H t). apply Hv. now exists d.
    + split.
      * intros s. rewrite Hv. split.
        -- intros [_ H]. destruct (Effects.llm _ _); simpl in H; now apply Hneq in H.
        -- intros (d' & [= <-] & H). congruence.
      * intros _. destruct (Effects.llm _ _); reflexivity.
  - split.
    + intros s. rewrite Hv. split.
      * intros [_ H]. destruct (Effects.llm w _); simpl in H; now apply Hneq in H.
      * intros (d & [=] & _).
    + intros _. destruct (Effects.llm w _); reflexivity.
Qed.

(** ** The escalation, stage by stage *)

Section StageFacts.
Import JS Splitter Effects Summarizer.

Variable dateOf : string -> option (nat * nat).
Variable systemPrompt : string.
Variable cacheDir : string.

(** The digest step always returns. *)
Lemma generateOneSentenceSummary_returns (monthFile fullSummary : string) (w : world) :
  exists one w1,
    generateOneSentenceSummary cacheDir monthFile fullSummary w = (Return one, w1) /\
    llm w1 = llm w /\
    (requests w1 = requests w \/
     requests w1 = requests w ++ [oneSentenceRequest fullSummary]).
Proof.
  rewrite generateOneSentenceSummary_run, cachedOneSentence_run.
  destruct (cache w !! oneSentenceCachePath cacheDir monthFile) as [[|d]|].
  - destruct (llm w (length (requests w))); simpl; eauto 6.
  - destruct (validDigest _ d); [simpl; eauto 6|].
    destruct (llm (tick w) (length (requests (tick w)))); simpl; eauto 6.
  - destruct (llm w (length (requests w))); simpl; eauto 6.
Qed.

(** The digest step by cases: a valid cached digest is returned with no
    call; without one the service is called once and the digest is its
    trimmed answer, or the fixed text when the call fails. *)
Lemma generateOneSentenceSummary_cases (monthFile fullSummary : string) (w : world) :
  let run := generateOneSentenceSummary cacheDir monthFile fullSummary w in
  let now := clock w (ticks w) in
  (forall one, digestCached cacheDir monthFile w now one ->
               run = (Return one, tick w)) /\
  ((forall one, ~ digestCached cacheDir monthFile w now one) ->
   fst run =
     Return match llm w (length (requests w)) with
            | Content answer => trim answer
            | Failure _ => "Unable to generate summary."
            end /\
   requests (snd run) = requests w ++ [oneSentenceRequest fullSummary]).
Proof.
  intros run now. unfold run.
  rewrite generateOneSentenceSummary_run, cachedOneSentence_run. fold now.
  assert (Hv : forall d one,
             cache w !! oneSentenceCachePath cacheDir monthFile = Some (Json d) ->
             (validDigest now d = Some one <-> digestCached cacheDir monthFile w now one)).
  { intros d one Hf. rewrite validDigest_Some. unfold digestCached. split.
    - intros ((t & Ht & Hage) & Hs & Hne). exists d, t. auto.
    - intros (d' & t & Hf' & Ht & Hage & Hs & Hne). rewrite Hf in Hf'.
      injection Hf' as <-. eauto. }
  destruct (cache w !! oneSentenceCachePath cacheDir monthFile) as [[|d]|] eqn:E.
  - split.
    + intros one (d0 & t & Hf & _). rewrite E in Hf. discriminate.
    + intros _. destruct (llm w (length (requests w))); split; reflexivity.
  - destruct (validDigest now d) as [t|] eqn:Ev.
    + split.
      * intros one H. apply (Hv d one eq_refl) in H. rewrite Ev in H.
        now injection H as <-.
      * intros H. destruct (H t). now apply (Hv d t eq_refl).
    + split.
      * intros one H. apply (Hv d one eq_refl) in H. congruence.
      * intros _. cbn [requests tick llm ticks].
        destruct (llm w (length (requests w))); split; reflexivity.
  - split.
    + intros one (d0 & t & Hf & _). rewrite E in Hf. discriminate.
    + intros _. destruct (llm w (length (requests w))); split; reflexivity.
Qed.

Lemma saveToCache_run (monthFile text : string) (w : world) :
  saveToCache cacheDir monthFile text w = (Return tt, saved cacheDir monthFile text w).
Proof. reflexivity. Qed.

(** The closing steps of a successful attempt: the digest, then the cache
    write; the text returned has the digest spliced in. *)
Lemma finish_run (monthFile monthName formatted : string) (w : world) :
  exists one w1,
    generateOneSentenceSummary cacheDir monthFile formatted w = (Return one, w1) /\
    finish cacheDir monthFile monthName formatted w =
      (Return (withTldr monthName formatted one), saved cacheDir monthFile formatted w1).
Proof.
  destruct (generateOneSentenceSummary_returns monthFile formatted w)
    as (one & w1 & E & _).
  exists one, w1. split; [exact E|].
  unfold finish, bind. rewrite E. reflexivity.
Qed.

(** A [try] block that returns is not affected by its [catch]. *)
Lemma tryCatch_Return {A} (m : M A) (h : string -> M A) (w w' : world) (a : A) :
  m w = (Return a, w') -> tryCatch m h w = (Return a, w').
Proof. intros E. unfold tryCatch. now rewrite E. Qed.

Lemma tryCatch_Throw {A} (m : M A) (h : string -> M A) (w w' : world) (e : string) :
  m w = (Throw e, w') -> tryCatch m h w = h e w'.
Proof. intros E. unfold tryCatch. now rewrite E. Qed.

Lemma bind_Return {A B} (m : M A) (k : A -> M B) (w w' : world) (a : A) :
  m w = (Return a, w') -> bind m k w = k a w'.
Proof. intros E. unfold bind. now rewrite E. Qed.

Lemma bind_Throw {A B} (m : M A) (k : A -> M B) (w w' : world) (e : string) :
  m w = (Throw e, w') -> bind m k w = (Throw e, w').
Proof. intros E. unfold bind. now rewrite E. Qed.

Lemma create_Content (r : request) (w : world) (text : string) :
  llm w (length (requests w)) = Content text -> create r w = (Return text, sent r w).
Proof. intros E. unfold create. now rewrite E. Qed.

Lemma create_Failure (r : request) (w : world) (e : string) :
  llm w (length (requests w)) = Failure e -> create r w = (Throw e, sent r w).
Proof. intros E. unfold create. now rewrite E. Qed.

(** *** The whole document *)

Lemma summarizeWhole_failure (monthFile monthName content e : string) (w : world) :
  llm w (length (requests w)) = Failure e ->
  summarizeWhole systemPrompt cacheDir monthFile monthName content w =
  if isTokenLimit e
  then summarizeInTwo systemPrompt cacheDir monthFile monthName content
         (sent (wholeRequest systemPrompt monthName content) w)
  else (Return (errorBlock monthName e),
        sent (wholeRequest systemPrompt monthName content) w).
Proof.
  intros E. unfold summarizeWhole, tryCatch, bind.
  rewrite (create_Failure _ _ _ E).
  destruct (isTokenLimit e); reflexivity.
Qed.

Lemma short_test (s : string) :
  negb (truthy s) || (String.length s <? 10) = (String.length s <? 10).
Proof.
  unfold truthy. destruct (String.eqb_spec s "") as [->|ne]; reflexivity.
Qed.

Lemma summarizeWhole_trivial (monthFile monthName content text : string) (w : world) :
  llm w (length (requests w)) = Content text ->
  String.length (trim text) < 10 ->
  summarizeWhole systemPrompt cacheDir monthFile monthName content w =
  (Return (placeholder monthName),
   saved cacheDir monthFile (placeholder monthName)
     (sent (wholeRequest systemPrompt monthName content) w)).
Proof.
  intros E Hlen. unfold summarizeWhole.
  apply tryCatch_Return. rewrite (bind_Return _ _ _ _ _ (create_Content _ _ _ E)).
  cbv zeta. rewrite short_test.
  destruct (Nat.ltb_spec (String.length (trim text)) 10); [reflexivity | lia].
Qed.

Lemma summarizeWhole_success (monthFile monthName content text : string) (w : world) :
  llm w (length (requests w)) = Content text ->
  10 <= String.length (trim text) ->
  summarizeWhole systemPrompt cacheDir monthFile monthName content w =
  finish cacheDir monthFile monthName (heading monthName +:+ trim text)
    (sent (wholeRequest systemPrompt monthName content) w).
Proof.
  intros E Hlen. unfold summarizeWhole.
  destruct (finish_run monthFile monthName (heading monthName +:+ trim text)
              (sent (wholeRequest systemPrompt monthName content) w))
    as (one & w1 & _ & F).
  rewrite F. apply tryCatch_Return.
  rewrite (bind_Return _ _ _ _ _ (create_Content _ _ _ E)).
  cbv zeta. rewrite short_test.
  destruct (Nat.ltb_spec (String.length (trim text)) 10); [lia | exact F].
Qed.

End StageFacts.

Section SplitStageFacts.
Import JS Splitter Effects Summarizer.

Variable systemPrompt : string.
Variable cacheDir : string.

Lemma sentAll_world (rs : list request) (w : world) :
  requests (sentAll rs w) = requests w ++ rs /\
  llm (sentAll rs w) = llm w /\
  cache (sentAll rs w) = cache w /\
  documents (sentAll rs w) = documents w /\
  clock (sentAll rs w) = clock w /\
  ticks (sentAll rs w) = ticks w.
Proof.
  revert w. induction rs as [|r rs IH]; intros w.
  - simpl. now rewrite app_nil_r.
  - change (sentAll (r :: rs) w) with (sentAll rs (sent r w)).
    destruct (IH (sent r w)) as (-> & -> & -> & -> & -> & ->). simpl.
    now rewrite <- app_assoc.
Qed.

(** *** The quarters *)

(** When the service answers every quarter, the loop returns the trimmed
    answers in order. *)
Lemma summarizeQuarters_success (monthName : string) (rest : list string) :
  forall (i : nat) (acc texts : list string) (w : world),
    length texts = length rest ->
    i + length rest <= length quarterNames ->
    (forall j t, texts !! j = Some t ->
                 llm w (length (requests w) + j) = Content t) ->
    summarizeQuarters systemPrompt monthName rest i acc w =
    (Return (acc ++ map trim texts),
     sentAll (quarterRequests systemPrompt monthName i rest) w).
Proof.
  induction rest as [|quarter rest IH]; intros i acc texts w Hlen Hi Hllm.
  - destruct texts; [|discriminate]. simpl. rewrite app_nil_r.
    unfold quarterRequests. now rewrite zip_with_nil_r.
  - destruct texts as [|t texts]; [discriminate|]. simpl in Hlen, Hi.
    assert (Hq : i < length quarterNames) by (simpl in *; lia).
    destruct (lookup_lt_is_Some_2 quarterNames i Hq) as [name En].
    cbn [summarizeQuarters]. rewrite En.
    assert (E0 : llm w (length (requests w)) = Content t).
    { rewrite <- (Hllm 0 t eq_refl). f_equal. lia. }
    unfold bind. unfold create at 1. rewrite E0.
    rewrite (IH (S i) (acc ++ [trim t]) texts).
    + unfold quarterRequests. rewrite (drop_S _ _ _ En). simpl.
      now rewrite <- app_assoc.
    + lia.
    + simpl in *; lia.
    + intros j t' Hj. rewrite <- (Hllm (S j) t' Hj). simpl.
      rewrite length_app. simpl. f_equal. lia.
Qed.

(** When call [k] of the loop fails after [k] answers, the loop throws its
    error; nothing was written to the cache. *)
Lemma summarizeQuarters_failure (monthName : string) (rest : list string) :
  forall (i k : nat) (acc : list string) (e : string) (w : world),
    k < length rest ->
    i + length rest <= length quarterNames ->
    (forall j, j < k -> exists t, llm w (length (requests w) + j) = Content t) ->
    llm w (length (requests w) + k) = Failure e ->
    summarizeQuarters systemPrompt monthName rest i acc w =
    (Throw e, sentAll (take (S k) (quarterRequests systemPrompt monthName i rest)) w).
Proof.
  induction rest as [|quarter rest IH]; intros i k acc e w Hk Hi Hok Hfail.
  - simpl in Hk. lia.
  - simpl in Hk, Hi.
    assert (Hq : i < length quarterNames) by (simpl in *; lia).
    destruct (lookup_lt_is_Some_2 quarterNames i Hq) as [name En].
    cbn [summarizeQuarters]. rewrite En. unfold bind. unfold create at 1.
    unfold quarterRequests. rewrite (drop_S _ _ _ En).
    destruct k as [|k].
    + replace (length (requests w) + 0) with (length (requests w)) in Hfail by lia.
      rewrite Hfail. reflexivity.
    + destruct (Hok 0 ltac:(lia)) as [t Et].
      replace (length (requests w) + 0) with (length (requests w)) in Et by lia.
      rewrite Et. rewrite (IH (S i) k _ e).
      * reflexivity.
      * lia.
      * simpl in *; lia.
      * intros j Hj. destruct (Hok (S j) ltac:(lia)) as [t' Et']. exists t'.
        rewrite <- Et'. simpl. rewrite length_app. simpl. f_equal. lia.
      * rewrite <- Hfail. simpl. rewrite length_app. simpl. f_equal. lia.
Qed.

(** [combineFourSummaries] never throws: the answer of the service trimmed, or
    the summaries joined by blank lines. *)
Lemma combineFourSummaries_run (summaries : list string) (monthName : string) (w : world) :
  combineFourSummaries summaries monthName w =
  (Return match llm w (length (requests w)) with
          | Content text => trim text
          | Failure _ => join (nl +:+ nl) summaries
          end,
   sent (combineFourRequest summaries monthName) w).
Proof.
  unfold combineFourSummaries, tryCatch, bind, create.
  destruct (llm w (length (requests w))); reflexivity.
Qed.

End SplitStageFacts.

Section EscalationFacts.
Import JS Splitter Effects Summarizer.

Variable dateOf : string -> option (nat * nat).
Variable systemPrompt : string.
Variable cacheDir : string.

(** *** Four parts *)

Lemma summarizeInFour_success (monthFile monthName content : string)
    (texts : list string) (w : world) :
  length texts = 4 ->
  (forall j t, texts !! j = Some t -> llm w (length (requests w) + j) = Content t) ->
  let summaries := map trim texts in
  let combined :=
    match llm w (length (requests w) + 4) with
    | Content text => trim text
    | Failure _ => join (nl +:+ nl) summaries
    end in
  summarizeInFour systemPrompt cacheDir monthFile monthName content w =
  finish cacheDir monthFile monthName (heading monthName +:+ combined)
    (sent (combineFourRequest summaries monthName)
       (sentAll (quarterRequests systemPrompt monthName 0
                   (splitMonthContentIntoFour content)) w)).
Proof.
  intros Hlen Hllm summaries combined.
  set (w4 := sentAll _ w).
  destruct (finish_run cacheDir monthFile monthName (heading monthName +:+ combined)
              (sent (combineFourRequest summaries monthName) w4)) as (one & w5 & _ & F).
  rewrite F. unfold summarizeInFour. apply tryCatch_Return. cbv zeta.
  rewrite (bind_Return _ _ _ _ _
             (summarizeQuarters_success systemPrompt monthName
                (splitMonthContentIntoFour content) 0 [] texts w
                Hlen ltac:(simpl; lia) Hllm)).
  fold w4. rewrite (bind_Return _ _ _ _ _ (combineFourSummaries_run _ _ _)).
  fold summaries. rewrite <- F. f_equal. f_equal.
  unfold combined, w4.
  destruct (sentAll_world (quarterRequests systemPrompt monthName 0
                             (splitMonthContentIntoFour content)) w) as (-> & -> & _).
  rewrite length_app. reflexivity.
Qed.

Lemma summarizeInFour_failure (monthFile monthName content e : string)
    (k : nat) (w : world) :
  k < 4 ->
  (forall j, j < k -> exists t, llm w (length (requests w) + j) = Content t) ->
  llm w (length (requests w) + k) = Failure e ->
  summarizeInFour systemPrompt cacheDir monthFile monthName content w =
  (Return (errorBlock monthName e),
   sentAll (take (S k) (quarterRequests systemPrompt monthName 0
                          (splitMonthContentIntoFour content))) w).
Proof.
  intros Hk Hok Hfail. unfold summarizeInFour. cbv zeta.
  erewrite tryCatch_Throw; [reflexivity|].
  apply bind_Throw.
  apply summarizeQuarters_failure; try assumption. simpl. lia.
Qed.

(** *** Two parts *)

(** What the [catch] of the two-part attempt does with the error [e]. *)
Lemma summarizeInTwo_first_fails (monthFile monthName content e : string) (w : world) :
  llm w (length (requests w)) = Failure e ->
  summarizeInTwo systemPrompt cacheDir monthFile monthName content w =
  let w1 := sent (firstRequest systemPrompt monthName content) w in
  if isTokenLimit e
  then summarizeInFour systemPrompt cacheDir monthFile monthName content w1
  else (Return (errorBlock monthName e), w1).
Proof.
  intros E. unfold summarizeInTwo, tryCatch, bind. cbv zeta.
  rewrite (create_Failure _ _ _ E).
  destruct (isTokenLimit e); reflexivity.
Qed.

Lemma summarizeInTwo_second_fails (monthFile monthName content text e : string) (w : world) :
  llm w (length (requests w)) = Content text ->
  llm w (length (requests w) + 1) = Failure e ->
  summarizeInTwo systemPrompt cacheDir monthFile monthName content w =
  let w2 := sent (secondRequest systemPrompt monthName content) (sent (firstRequest systemPrompt monthName content) w) in
  if isTokenLimit e
  then summarizeInFour systemPrompt cacheDir monthFile monthName content w2
  else (Return (errorBlock monthName e), w2).
Proof.
  intros E1 E2. unfold summarizeInTwo, tryCatch, bind. cbv zeta.
  rewrite (create_Content _ _ _ E1).
  rewrite (create_Failure _ (sent _ w) e).
  - destruct (isTokenLimit e); reflexivity.
  - rewrite <- E2. simpl. rewrite length_app. reflexivity.
Qed.

Lemma summarizeInTwo_success (monthFile monthName content text1 text2 : string) (w : world) :
  llm w (length (requests w)) = Content text1 ->
  llm w (length (requests w) + 1) = Content text2 ->
  summarizeInTwo systemPrompt cacheDir monthFile monthName content w =
  finish cacheDir monthFile monthName (heading monthName +:+ trim text1 +:+ trim text2)
    (sent (secondRequest systemPrompt monthName content) (sent (firstRequest systemPrompt monthName content) w)).
Proof.
  intros E1 E2.
  set (w2 := sent _ (sent _ w)).
  destruct (finish_run cacheDir monthFile monthName
              (heading monthName +:+ trim text1 +:+ trim text2) w2) as (one & w3 & _ & F).
  rewrite F. unfold summarizeInTwo. apply tryCatch_Return. cbv zeta.
  rewrite (bind_Return _ _ _ _ _ (create_Content _ _ _ E1)).
  rewrite (bind_Return _ _ (sent _ w) w2 text2).
  - exact F.
  - apply create_Content. rewrite <- E2. simpl. rewrite length_app. reflexivity.
Qed.

(** *** The cache check at the start *)

Lemma getCachedSummary_world (monthFile : string) (w : world) :
  let w1 := snd (getCachedSummary cacheDir monthFile w) in
  (w1 = w \/ w1 = tick w) /\
  requests w1 = requests w /\ llm w1 = llm w /\ cache w1 = cache w /\
  documents w1 = documents w /\ clock w1 = clock w.
Proof.
  rewrite getCachedSummary_run.
  destruct (cache w !! getCacheFilePath cacheDir monthFile) as [[|d]|]; simpl; auto 10.
Qed.

Lemma getCachedSummary_returns (monthFile : string) (w : world) :
  exists o, fst (getCachedSummary cacheDir monthFile w) = Return o.
Proof.
  rewrite getCachedSummary_run.
  destruct (cache w !! getCacheFilePath cacheDir monthFile) as [[|d]|]; simpl; eauto.
Qed.

Lemma generateMonthSummary_miss (monthFile outputDir content : string) (w : world) :
  documents w !! path_join outputDir monthFile = Some content ->
  fst (getCachedSummary cacheDir monthFile w) = Return None ->
  generateMonthSummary dateOf systemPrompt cacheDir monthFile outputDir w =
  summarizeWhole systemPrompt cacheDir monthFile (monthNameOf dateOf monthFile) content
    (snd (getCachedSummary cacheDir monthFile w)).
Proof.
  intros Hdoc Hmiss. unfold generateMonthSummary, bind at 1, readFileSync.
  rewrite Hdoc. unfold bind.
  destruct (getCachedSummary cacheDir monthFile w) as [o w1]. simpl in *.
  now rewrite Hmiss.
Qed.

Lemma generateMonthSummary_hit (monthFile outputDir content cached : string) (w : world) :
  documents w !! path_join outputDir monthFile = Some content ->
  fst (getCachedSummary cacheDir monthFile w) = Return (Some cached) ->
  exists one w1,
    generateOneSentenceSummary cacheDir monthFile cached (tick w) = (Return one, w1) /\
    generateMonthSummary dateOf systemPrompt cacheDir monthFile outputDir w =
    (Return (withTldr (monthNameOf dateOf monthFile) cached one), w1).
Proof.
  intros Hdoc Hhit.
  assert (Hw : snd (getCachedSummary cacheDir monthFile w) = tick w /\
               10 <= String.length cached).
  { revert Hhit. rewrite getCachedSummary_run.
    destruct (cache w !! getCacheFilePath cacheDir monthFile) as [[|d]|];
      simpl; try discriminate.
    intros [= H]. apply validSummary_Some in H. split; [reflexivity | lia]. }
  destruct Hw as [Hw Hlen].
  destruct (generateOneSentenceSummary_returns cacheDir monthFile cached (tick w))
    as (one & w1 & E & _).
  exists one, w1. split; [exact E|].
  unfold generateMonthSummary, bind at 1, readFileSync.
  rewrite Hdoc. unfold bind at 1.
  destruct (getCachedSummary cacheDir monthFile w) as [o w0]. simpl in *.
  subst o w0. simpl.
  replace (truthy cached) with true.
  - unfold bind. rewrite E. reflexivity.
  - symmetry. apply truthy_iff. intros ->. simpl in Hlen. lia.
Qed.

End EscalationFacts.

(** ** The state machine of [generateMonthSummary] *)

(** C7. When the call for the whole document fails with an error that is not
    a size-limit error, [generateMonthSummary] returns the heading of the
    month followed by ["Error generating summary: "] and the message of the
    error; the cache is left as it was and no other call is made. *)
Theorem generateMonthSummary_service_error
    (dateOf : string -> option (nat * nat))
    (systemPrompt cacheDir monthFile outputDir content e : string) (w : Effects.world) :
  Effects.documents w !! Effects.path_join outputDir monthFile = Some content ->
  fst (Summarizer.getCachedSummary cacheDir monthFile w) = Effects.Return None ->
  Effects.llm w (length (Effects.requests w)) = Effects.Failure e ->
  Summarizer.isTokenLimit e = false ->
  let monthName := Summarizer.monthNameOf dateOf monthFile in
  let run := Summarizer.generateMonthSummary dateOf systemPrompt cacheDir
               monthFile outputDir w in
  fst run = Effects.Return
              (Summarizer.heading monthName +:+ "Error generating summary: " +:+ e) /\
  Effects.cache (snd run) = Effects.cache w /\
  Effects.requests (snd run) =
    Effects.requests w ++ [Summarizer.wholeRequest systemPrompt monthName content].
Proof.
  intros Hdoc Hmiss Hllm He monthName run. unfold run.
  rewrite (generateMonthSummary_miss _ _ _ _ _ _ _ Hdoc Hmiss).
  destruct (getCachedSummary_world cacheDir monthFile w) as (_ & Hr & Hl & Hc & _).
  rewrite (summarizeWhole_failure _ _ _ _ _ e).
  - rewrite He. simpl. rewrite Hr, Hc. auto.
  - rewrite Hl, Hr. exact Hllm.
Qed.

Lemma generateMonthSummary_service_error_witness :
  fst (Sample.run (Sample.world ∅ 1000 Sample.rateLimited)) =
    Effects.Return
      (Summarizer.heading "February 2021" +:+ "Error generating summary: " +:+
       "429 Rate limit reached") /\
  Effects.cache (snd (Sample.run (Sample.world ∅ 1000 Sample.rateLimited))) = ∅ /\
  Effects.requests (snd (Sample.run (Sample.world ∅ 1000 Sample.rateLimited))) =
    [Summarizer.wholeRequest "PROMPT" "February 2021" Sample.document].
Proof.
  apply (generateMonthSummary_service_error Sample.dateOf "PROMPT" "cache"
           "2021-02.md" "output" Sample.document "429 Rate limit reached"
           (Sample.world ∅ 1000 Sample.rateLimited)); reflexivity.
Defined.

Lemma length_append (a b : string) :
  String.length (a +:+ b) = String.length a + String.length b.
Proof.
  induction a as [|c a IH]; [reflexivity|].
  rewrite app_cons. simpl. now rewrite IH.
Qed.

Lemma placeholder_length (monthName : string) :
  10 <= String.length (Summarizer.placeholder monthName).
Proof.
  unfold Summarizer.placeholder. rewrite length_append. simpl. lia.
Qed.




(** C1, as the code has it. When the call for the whole document fails with a
    size-limit error and the two-part attempt fails with a size-limit error
    too (at its first or at its second call), [generateMonthSummary] splits
    the content of the whole document in four and asks for a summary of each
    quarter in order.
    - If the four calls succeed, it combines the four trimmed summaries with
      one more call, taking instead the four summaries joined by blank lines
      when that call fails; it caches the heading followed by the combined
      text, and returns that text with the digest spliced in after the
      heading.
    - If one of the four calls fails, it returns the inline error block with
      the message of that error and writes nothing to the cache. *)
Theorem generateMonthSummary_four_parts
    (dateOf : string -> option (nat * nat))
    (systemPrompt cacheDir monthFile outputDir content e0 e1 : string)
    (halfCalls : list Effects.request) (w : Effects.world) :
  let monthName := Summarizer.monthNameOf dateOf monthFile in
  let n := length (Effects.requests w) in
  let whole := Summarizer.wholeRequest systemPrompt monthName content in
  let quarters := Splitter.splitMonthContentIntoFour content in
  let quarterCalls :=
    zip_with (Summarizer.partRequest systemPrompt monthName)
      ["First Quarter"; "Second Quarter"; "Third Quarter"; "Fourth Quarter"] quarters in
  let m := n + 1 + length halfCalls in
  let generate :=
    Summarizer.generateMonthSummary dateOf systemPrompt cacheDir monthFile outputDir in
  Effects.documents w !! Effects.path_join outputDir monthFile = Some content ->
  fst (Summarizer.getCachedSummary cacheDir monthFile w) = Effects.Return None ->
  Effects.llm w n = Effects.Failure e0 ->
  Summarizer.isTokenLimit e0 = true ->
  (halfCalls = [firstRequest systemPrompt monthName content] /\
   Effects.llm w (n + 1) = Effects.Failure e1
   \/
   halfCalls = [firstRequest systemPrompt monthName content;
                secondRequest systemPrompt monthName content] /\
   (exists t, Effects.llm w (n + 1) = Effects.Content t) /\
   Effects.llm w (n + 2) = Effects.Failure e1) ->
  Summarizer.isTokenLimit e1 = true ->
  (forall texts : list string,
     length texts = 4 ->
     (forall j t, texts !! j = Some t -> Effects.llm w (m + j) = Effects.Content t) ->
     let summaries := map JS.trim texts in
     let combined :=
       match Effects.llm w (m + 4) with
       | Effects.Content t => JS.trim t
       | Effects.Failure _ => JS.join (JS.nl +:+ JS.nl) summaries
       end in
     let formatted := Summarizer.heading monthName +:+ combined in
     let calls :=
       Effects.requests w ++ [whole] ++ halfCalls ++ quarterCalls ++
       [Summarizer.combineFourRequest summaries monthName] in
     exists one stamp,
       fst (generate w) = Effects.Return (Summarizer.withTldr monthName formatted one) /\
       Effects.cache (snd (generate w)) !! Summarizer.getCacheFilePath cacheDir monthFile =
         Some (Effects.Json (summaryRecord stamp monthFile formatted)) /\
       (Effects.requests (snd (generate w)) = calls \/
        Effects.requests (snd (generate w)) =
          calls ++ [Summarizer.oneSentenceRequest formatted]))
  /\
  (forall (k : nat) (e : string),
     k < 4 ->
     (forall j, j < k -> exists t, Effects.llm w (m + j) = Effects.Content t) ->
     Effects.llm w (m + k) = Effects.Failure e ->
     fst (generate w) =
       Effects.Return (Summarizer.heading monthName +:+ "Error generating summary: " +:+ e) /\
     Effects.cache (snd (generate w)) = Effects.cache w /\
     Effects.requests (snd (generate w)) =
       Effects.requests w ++ [whole] ++ halfCalls ++ take (S k) quarterCalls).
Proof.
  intros monthName n whole quarters quarterCalls m generate Hdoc Hmiss H0 He0 Hhalves He1.
  destruct (getCachedSummary_world cacheDir monthFile w) as (_ & Hr & Hl & Hc & _).
  set (w1 := snd (Summarizer.getCachedSummary cacheDir monthFile w)) in *.
  set (wh := sentAll halfCalls (Effects.sent whole w1)).
  assert (Hwh : Effects.requests wh = Effects.requests w ++ [whole] ++ halfCalls /\
                Effects.llm wh = Effects.llm w /\ Effects.cache wh = Effects.cache w).
  { unfold wh. destruct (sentAll_world halfCalls (Effects.sent whole w1))
      as (-> & -> & -> & _). simpl. now rewrite Hr, Hl, Hc, <- app_assoc. }
  destruct Hwh as (Hrh & Hlh & Hch).
  assert (Hm : length (Effects.requests wh) = m).
  { rewrite Hrh, !length_app. simpl. unfold m, n. lia. }
  assert (Hgen : generate w =
                 Summarizer.summarizeInFour systemPrompt cacheDir monthFile monthName content wh).
  { unfold generate. rewrite (generateMonthSummary_miss _ _ _ _ _ _ _ Hdoc Hmiss).
    fold w1 monthName. rewrite (summarizeWhole_failure _ _ _ _ _ e0), He0
      by (rewrite Hl, Hr; exact H0).
    fold whole.
    assert (Hn1 : length (Effects.requests (Effects.sent whole w1)) = n + 1).
    { simpl. rewrite length_app, Hr. reflexivity. }
    destruct Hhalves as [(-> & H1) | (-> & (t & H1) & H2)].
    - rewrite (summarizeInTwo_first_fails _ _ _ _ _ e1), He1; [reflexivity|].
      rewrite Hn1. simpl. rewrite Hl. exact H1.
    - rewrite (summarizeInTwo_second_fails _ _ _ _ _ t e1), He1; [reflexivity| |].
      + rewrite Hn1. simpl. rewrite Hl. exact H1.
      + rewrite Hn1. simpl. rewrite Hl. rewrite <- H2. f_equal. lia. }
  change quarterCalls with (quarterRequests systemPrompt monthName 0 quarters).
  split.
  - intros texts Hlen Htexts summaries combined formatted calls.
    rewrite Hgen.
    rewrite (summarizeInFour_success _ _ _ _ _ texts) by
      (try exact Hlen; intros j t Hj; rewrite Hm, Hlh; now apply Htexts).
    rewrite Hm, Hlh. fold summaries combined formatted quarters.
    set (w5 := Effects.sent _ (sentAll _ wh)).
    destruct (finish_run cacheDir monthFile monthName formatted w5) as (one & w6 & Ed & ->).
    destruct (generateOneSentenceSummary_returns cacheDir monthFile formatted w5)
      as (one' & w6' & Ed' & _ & Hreq).
    rewrite Ed in Ed'. injection Ed' as <- <-.
    exists one, (Effects.clock w6 (Effects.ticks w6)). simpl.
    split; [reflexivity|]. split; [apply lookup_insert_eq|].
    assert (Hr5 : Effects.requests w5 = calls).
    { unfold w5, calls.
      change (Effects.requests (Effects.sent ?r ?x)) with (Effects.requests x ++ [r]).
      destruct (sentAll_world (quarterRequests systemPrompt monthName 0 quarters) wh)
        as (-> & _). rewrite Hrh. now rewrite <- !app_assoc. }
    rewrite <- Hr5. exact Hreq.
  - intros k e Hk Hok Hfail. rewrite Hgen.
    rewrite (summarizeInFour_failure _ _ _ _ _ e k) by
      (try exact Hk; try (intros j Hj; rewrite Hm, Hlh; now apply Hok);
       rewrite Hm, Hlh; exact Hfail).
    cbn [fst snd]. fold quarters. split; [reflexivity|].
    destruct (sentAll_world (take (S k) (quarterRequests systemPrompt monthName 0 quarters))
                wh) as (-> & _ & -> & _).
    rewrite Hch, Hrh. split; [reflexivity|]. now rewrite <- !app_assoc.
Qed.

Lemma generateMonthSummary_four_parts_witness :
  let formatted :=
    Summarizer.heading "February 2021" +:+ "The team said hello to each other." in
  exists one stamp,
    fst (Sample.run (Sample.world ∅ 1000 Sample.quartersFit)) =
      Effects.Return (Summarizer.withTldr "February 2021" formatted one) /\
    Effects.cache (snd (Sample.run (Sample.world ∅ 1000 Sample.quartersFit)))
      !! "cache/2021-02.json" =
      Some (Effects.Json (summaryRecord stamp "2021-02.md" formatted)).
Proof.
  pose (text := "The team said hello to each other.").
  assert (Htexts : forall j t, [text; text; text; text] !! j = Some t ->
            Effects.llm (Sample.world ∅ 1000 Sample.quartersFit)
              (length (Effects.requests (Sample.world ∅ 1000 Sample.quartersFit)) + 1 + 1 + j)
            = Effects.Content t).
  { intros [|[|[|[|j]]]] t [= <-]; reflexivity. }
  destruct (proj1 (generateMonthSummary_four_parts Sample.dateOf "PROMPT" "cache"
                     "2021-02.md" "output" Sample.document
                     "Input tokens exceed the configured limit"
                     "Input tokens exceed the configured limit"
                     [firstRequest "PROMPT" "February 2021" Sample.document]
                     (Sample.world ∅ 1000 Sample.quartersFit)
                     ltac:(reflexivity) ltac:(reflexivity) ltac:(reflexivity)
                     ltac:(reflexivity) ltac:(left; split; reflexivity) ltac:(reflexivity))
              [text; text; text; text] ltac:(reflexivity) Htexts)
    as (one & stamp & Hret & Hcache & _).
  exists one, stamp. split; [exact Hret | exact Hcache].
Defined.

(** A document too large even in quarters: the four-part attempt ends with
    the error block and the cache stays empty. *)
Lemma four_parts_quarter_too_large :
  let w := Sample.world ∅ 1000 Sample.alwaysTooLarge in
  Effects.llm w 0 = Effects.Failure "Input tokens exceed the configured limit" /\
  Effects.llm w 1 = Effects.Failure "Input tokens exceed the configured limit" /\
  Summarizer.isTokenLimit "Input tokens exceed the configured limit" = true /\
  fst (Sample.run w) =
    Effects.Return (Summarizer.errorBlock "February 2021"
                      "Input tokens exceed the configured limit") /\
  Effects.cache (snd (Sample.run w)) = ∅ /\
  length (Effects.requests (snd (Sample.run w))) = 3.
Proof. vm_compute. repeat split; reflexivity. Qed.

(** A cached digest of six characters is reused, with no call. *)
Lemma short_digest_is_reused :
  let w := Sample.world Sample.shortDigest 1000 Sample.greets in
  fst (Summarizer.generateOneSentenceSummary "cache" "2021-02.md" "any summary" w) =
    Effects.Return "Quiet." /\
  Effects.requests
    (snd (Summarizer.generateOneSentenceSummary "cache" "2021-02.md" "any summary" w)) = [] /\
  String.length "Quiet." = 6 /\
  (Effects.clock w (Effects.ticks w) - 0 <= Summarizer.maxAge)%Z.
Proof. vm_compute. repeat split; try reflexivity. discriminate. Qed.

(** Without a cached digest, the digest is generated with one call. *)
Lemma generateOneSentenceSummary_reuse_iff_witness :
  Effects.requests
    (snd (Summarizer.generateOneSentenceSummary "cache" "2021-02.md" "any summary"
            (Sample.world ∅ 1000 Sample.greets))) =
  [Summarizer.oneSentenceRequest "any summary"].
Proof.
  apply (proj2 (generateOneSentenceSummary_reuse_iff "cache" "2021-02.md" "any summary"
                  (Sample.world ∅ 1000 Sample.greets))).
  intros s (d & stamp & Hd & _). vm_compute in Hd. discriminate.
Defined.

(** A document too large whole whose halves fit: the two trimmed summaries
    are concatenated under the heading and cached, the digest is spliced in,
    and four calls were made (the whole, the halves, the digest). *)
Example halves_fit :
  let r := Sample.run (Sample.world ∅ 1000 Sample.halvesFit) in
  fst r = Effects.Return
            ("## February 2021" +:+ JS.nl +:+ JS.nl +:+ "**tl;dr:** A digest." +:+
             JS.nl +:+ JS.nl +:+ "First part.Second part.") /\
  Effects.cache (snd r) !! "cache/2021-02.json" =
    Some (Effects.Json
            (summaryRecord 1001 "2021-02.md"
               ("## February 2021" +:+ JS.nl +:+ JS.nl +:+ "First part.Second part."))) /\
  length (Effects.requests (snd r)) = 4.
Proof. vm_compute. repeat split; reflexivity. Qed.

(** The two cache paths of a month. *)
Example cache_paths :
  Summarizer.getCacheFilePath "cache" "2021-02.md" = "cache/2021-02.json" /\
  Summarizer.oneSentenceCachePath "cache" "2021-02.md" = "cache/2021-02-onesentence.json".
Proof. split; reflexivity. Qed.

(** ** The text returned *)

Section OutputFacts.
Import JS Splitter Effects Summarizer.

Lemma search_prefix (pat s : string) :
  String.prefix pat s = true ->
  search pat s = Some ("", dropStr (String.length pat) s).
Proof. intros H. destruct s; cbn [search]; rewrite H; reflexivity. Qed.

Lemma dollarFree_app (a b : string) :
  dollarFree (a +:+ b) = dollarFree a && dollarFree b.
Proof.
  induction a as [|c a IH]; [reflexivity|].
  rewrite app_cons. simpl. rewrite IH. now rewrite andb_assoc.
Qed.

(** [replace] copies a replacement text without [$] as it is. *)
Lemma getSubstitution_dollarFree_app (matched pre post a b : string) :
  dollarFree a = true ->
  getSubstitution matched pre post (a +:+ b) = a +:+ getSubstitution matched pre post b.
Proof.
  induction a as [|c a IH]; intros H; [reflexivity|].
  simpl in H. apply andb_true_iff in H as [Hc Ha].
  rewrite !app_cons. simpl.
  destruct (Ascii.eqb c "$"); [discriminate|].
  now rewrite (IH Ha).
Qed.

Lemma getSubstitution_dollarFree (matched pre post a : string) :
  dollarFree a = true -> getSubstitution matched pre post a = a.
Proof.
  induction a as [|c a IH]; intros H; [reflexivity|].
  simpl in H. apply andb_true_iff in H as [Hc Ha]. simpl.
  destruct (Ascii.eqb c "$"); [discriminate|].
  now rewrite (IH Ha).
Qed.

Lemma heading_dollarFree (monthName : string) :
  dollarFree monthName = true -> dollarFree (heading monthName) = true.
Proof.
  intros H. unfold heading. rewrite !dollarFree_app, H. reflexivity.
Qed.

(** Splicing the digest into a text that begins with the heading: the heading
    stays in front, the [tl;dr] paragraph follows, then the rest. *)
Lemma withTldr_headed (monthName body one : string) :
  dollarFree monthName = true ->
  withTldr monthName (heading monthName +:+ body) one =
  heading monthName +:+ "**tl;dr:** " +:+
  getSubstitution (heading monthName) "" body (one +:+ nl +:+ nl) +:+ body.
Proof.
  intros H. unfold withTldr, replace.
  rewrite (search_prefix _ _ (prefix_append _ _)), dropStr_append.
  rewrite app_nil_l.
  rewrite (getSubstitution_dollarFree_app _ _ _ _ _ (heading_dollarFree _ H)).
  rewrite (getSubstitution_dollarFree_app _ _ _ "**tl;dr:** " _ eq_refl).
  now rewrite !append_assoc.
Qed.

Lemma string_of_uint_dollarFree (d : Decimal.uint) :
  dollarFree (NilEmpty.string_of_uint d) = true.
Proof. induction d; simpl; auto. Qed.

(** The name of a month holds no [$]. *)
Lemma monthNameOf_dollarFree (dateOf : string -> option (nat * nat)) (monthFile : string) :
  dollarFree (monthNameOf dateOf monthFile) = true.
Proof.
  unfold monthNameOf, toLocaleDateString.
  destruct (dateOf monthFile) as [[month year]|]; [|reflexivity].
  rewrite !dollarFree_app, string_of_uint_dollarFree, andb_true_r.
  assert (H : forall i, dollarFree (nth i monthNames "") = true).
  { intros i. do 13 (destruct i as [|i]; [reflexivity|]). now destruct i. }
  apply H.
Qed.

(** With a digest that holds no [$] either, the digest is spliced in as it is. *)
Lemma withTldr_plain (dateOf : string -> option (nat * nat)) (monthFile body one : string) :
  dollarFree one = true ->
  let monthName := monthNameOf dateOf monthFile in
  withTldr monthName (heading monthName +:+ body) one =
  heading monthName +:+ "**tl;dr:** " +:+ one +:+ nl +:+ nl +:+ body.
Proof.
  intros H monthName.
  rewrite (withTldr_headed _ _ _ (monthNameOf_dollarFree dateOf monthFile)).
  rewrite getSubstitution_dollarFree; [now rewrite !append_assoc|].
  now rewrite dollarFree_app, H.
Qed.

Lemma heading_nonempty (monthName rest : string) : heading monthName +:+ rest <> "".
Proof. discriminate. Qed.

(** Every kind of output begins with the heading of the month. *)
Lemma outputShape_headed (monthName text : string) :
  dollarFree monthName = true ->
  outputShape monthName text -> headed monthName text /\ text <> "".
Proof.
  intros H [body one| |e].
  - rewrite (withTldr_headed _ _ _ H). split; [eexists; reflexivity|].
    apply heading_nonempty.
  - split; [eexists; reflexivity | apply heading_nonempty].
  - split; [eexists; reflexivity | apply heading_nonempty].
Qed.

Variable systemPrompt : string.
Variable cacheDir : string.

Lemma finish_shape (monthFile monthName body : string) :
  returns (outputShape monthName)
    (finish cacheDir monthFile monthName (heading monthName +:+ body)).
Proof.
  intros w. destruct (finish_run cacheDir monthFile monthName
                        (heading monthName +:+ body) w) as (one & w1 & _ & ->).
  eexists _, _. split; [reflexivity | constructor].
Qed.

Lemma summarizeInFour_shape (monthFile monthName content : string) :
  returns (outputShape monthName)
    (summarizeInFour systemPrompt cacheDir monthFile monthName content).
Proof.
  intros w. unfold summarizeInFour, tryCatch, bind. cbv zeta.
  destruct (summarizeQuarters _ _ _ _ _ w) as [[summaries|e] w1].
  - rewrite combineFourSummaries_run.
    destruct (finish_shape monthFile monthName
                match llm w1 (length (requests w1)) with
                | Content text => trim text
                | Failure _ => join (nl +:+ nl) summaries
                end (sent (combineFourRequest summaries monthName) w1))
      as (a & w' & -> & Ha).
    now exists a, w'.
  - eexists _, _. split; [reflexivity | constructor].
Qed.

Lemma summarizeInTwo_shape (monthFile monthName content : string) :
  returns (outputShape monthName)
    (summarizeInTwo systemPrompt cacheDir monthFile monthName content).
Proof.
  intros w. unfold summarizeInTwo, tryCatch, bind. cbv zeta.
  assert (Hcatch : forall e w', exists a w'',
            (if isTokenLimit e
             then summarizeInFour systemPrompt cacheDir monthFile monthName content
             else ret (errorBlock monthName e)) w' = (Return a, w'') /\
            outputShape monthName a).
  { intros e w'. destruct (isTokenLimit e).
    - apply summarizeInFour_shape.
    - eexists _, _. split; [reflexivity | constructor]. }
  destruct (create _ w) as [[text1|e] w1]; [|apply Hcatch].
  destruct (create _ w1) as [[text2|e] w2]; [|apply Hcatch].
  destruct (finish_shape monthFile monthName (trim text1 +:+ trim text2) w2)
    as (a & w' & -> & Ha).
  now exists a, w'.
Qed.

Lemma summarizeWhole_shape (monthFile monthName content : string) :
  returns (outputShape monthName)
    (summarizeWhole systemPrompt cacheDir monthFile monthName content).
Proof.
  intros w. unfold summarizeWhole, tryCatch, bind. cbv zeta.
  destruct (create _ w) as [[text|e] w1].
  - destruct (negb (truthy (trim text)) || (String.length (trim text) <? 10)).
    + rewrite saveToCache_run. eexists _, _. split; [reflexivity | constructor].
    + destruct (finish_shape monthFile monthName (trim text) w1) as (a & w' & -> & Ha).
      now exists a, w'.
  - destruct (isTokenLimit e).
    + apply summarizeInTwo_shape.
    + eexists _, _. split; [reflexivity | constructor].
Qed.

End OutputFacts.

(** Without the content file, [generateMonthSummary] throws: the first read is
    outside every [try]. *)
Lemma generateMonthSummary_missing_document
    (dateOf : string -> option (nat * nat))
    (systemPrompt cacheDir monthFile outputDir : string) (w : Effects.world) :
  Effects.documents w !! Effects.path_join outputDir monthFile = None ->
  Summarizer.generateMonthSummary dateOf systemPrompt cacheDir monthFile outputDir w =
  (Effects.Throw (Effects.noSuchFile (Effects.path_join outputDir monthFile)), w).
Proof.
  intros H. unfold Summarizer.generateMonthSummary, Effects.bind at 1, Effects.readFileSync.
  now rewrite H.
Qed.

(** C2. For a month file whose content file exists and whose cached summary,
    if any, begins with the heading of the month (as every entry written by
    [saveToCache] does), [generateMonthSummary] returns, in every branch, and
    never throws: the text is not empty, begins with ["## <month name>"] and a
    blank line, and is a summary with its digest spliced in, the no-activity
    placeholder or the inline error block. *)
Theorem generateMonthSummary_output
    (dateOf : string -> option (nat * nat))
    (systemPrompt cacheDir monthFile outputDir : string) (w : Effects.world) :
  let monthName := Summarizer.monthNameOf dateOf monthFile in
  is_Some (Effects.documents w !! Effects.path_join outputDir monthFile) ->
  (forall d s,
     Effects.cache w !! Summarizer.getCacheFilePath cacheDir monthFile =
       Some (Effects.Json d) ->
     Effects.summary d = Some s -> headed monthName s) ->
  exists text w',
    Summarizer.generateMonthSummary dateOf systemPrompt cacheDir monthFile outputDir w =
      (Effects.Return text, w') /\
    text <> "" /\
    (exists rest, text = "## " +:+ monthName +:+ JS.nl +:+ JS.nl +:+ rest) /\
    outputShape monthName text.
Proof.
  intros monthName [content Hdoc] Hwf.
  assert (Hshape : exists text w',
            Summarizer.generateMonthSummary dateOf systemPrompt cacheDir
              monthFile outputDir w = (Effects.Return text, w') /\
            outputShape monthName text).
  { destruct (getCachedSummary_returns cacheDir monthFile w) as [[cached|] Hc].
    - destruct (generateMonthSummary_hit dateOf systemPrompt cacheDir monthFile
                  outputDir content cached w Hdoc Hc) as (one & w1 & _ & ->).
      assert (Hh : headed monthName cached).
      { revert Hc. rewrite getCachedSummary_run.
        destruct (Effects.cache w !! Summarizer.getCacheFilePath cacheDir monthFile)
          as [[|d]|] eqn:E; simpl; try discriminate.
        intros [= Hv]. apply validSummary_Some in Hv as (_ & Hs & _).
        exact (Hwf d cached eq_refl Hs). }
      destruct Hh as [body ->]. eexists _, _. split; [reflexivity | constructor].
    - rewrite (generateMonthSummary_miss _ _ _ _ _ _ _ Hdoc Hc).
      apply summarizeWhole_shape. }
  destruct Hshape as (text & w' & E & Hs).
  exists text, w'. split; [exact E|].
  destruct (outputShape_headed monthName text
              (monthNameOf_dollarFree dateOf monthFile) Hs) as [[rest Hr] Hne].
  split; [exact Hne|]. split; [|exact Hs].
  exists rest. rewrite Hr. unfold Summarizer.heading. now rewrite !append_assoc.
Qed.

Lemma generateMonthSummary_output_witness :
  exists text w',
    Sample.run (Sample.world Sample.februaryCached 1000 Sample.greets) =
      (Effects.Return text, w') /\
    text <> "" /\
    (exists rest, text = "## February 2021" +:+ JS.nl +:+ JS.nl +:+ rest).
Proof.
  destruct (generateMonthSummary_output Sample.dateOf "PROMPT" "cache"
              "2021-02.md" "output"
              (Sample.world Sample.februaryCached 1000 Sample.greets))
    as (text & w' & E & Hne & Hh & _).
  - eexists. reflexivity.
  - intros d s Hd Hs. vm_compute in Hd. injection Hd as <-.
    injection Hs as <-. exists "The team said hello.". reflexivity.
  - exists text, w'. split; [exact E|]. split; [exact Hne | exact Hh].
Defined.

(** ** A corrupted cache file and no cache file *)

Section CorruptedFacts.
Import JS Splitter Effects Summarizer.

Variable path : string.

Lemma alike_tick (w1 w2 : world) : alike path w1 w2 -> alike path (tick w1) (tick w2).
Proof. intros [->|[H ->]]; [now left | right; split; [exact H | reflexivity]]. Qed.

Lemma alike_sent (r : request) (w1 w2 : world) :
  alike path w1 w2 -> alike path (sent r w1) (sent r w2).
Proof. intros [->|[H ->]]; [now left | right; split; [exact H | reflexivity]]. Qed.

Lemma alike_stored (q : string) (f : cacheFile) (w1 w2 : world) :
  alike path w1 w2 -> alike path (stored q f w1) (stored q f w2).
Proof.
  intros [->|[H ->]]; [now left|].
  destruct (decide (q = path)) as [->|ne].
  - left. unfold stored, removed. simpl. now rewrite insert_delete_eq.
  - right. split.
    + simpl. now rewrite lookup_insert_ne.
    + unfold stored, removed. simpl. now rewrite delete_insert_ne.
Qed.

Lemma alike_fields (w1 w2 : world) :
  alike path w1 w2 ->
  documents w1 = documents w2 /\ clock w1 = clock w2 /\ ticks w1 = ticks w2 /\
  llm w1 = llm w2 /\ requests w1 = requests w2.
Proof. intros [->|[_ ->]]; simpl; auto. Qed.

(** Reading a cache file gives the same parsed record in both worlds, or
    fails to give one in both. *)
Lemma alike_lookup (q : string) (w1 w2 : world) :
  alike path w1 w2 ->
  cache w1 !! q = cache w2 !! q \/
  (cache w1 !! q = Some Corrupted /\ cache w2 !! q = None).
Proof.
  intros [->|[H ->]]; [now left|].
  destruct (decide (q = path)) as [->|ne].
  - right. split; [exact H|]. simpl. apply lookup_delete_eq.
  - left. simpl. now rewrite lookup_delete_ne.
Qed.

Lemma blind_ret {A} (a : A) : blind path (ret a).
Proof. intros w1 w2 H. simpl. auto. Qed.

Lemma blind_bind {A B} (m : M A) (k : A -> M B) :
  blind path m -> (forall a, blind path (k a)) -> blind path (bind m k).
Proof.
  intros Hm Hk w1 w2 H. unfold bind.
  destruct (Hm w1 w2 H) as [Hv Hw].
  destruct (m w1) as [[a|e] w1'], (m w2) as [[a'|e'] w2']; simpl in *;
    try discriminate.
  - injection Hv as <-. now apply Hk.
  - injection Hv as <-. auto.
Qed.

Lemma blind_tryCatch {A} (m : M A) (h : string -> M A) :
  blind path m -> (forall e, blind path (h e)) -> blind path (tryCatch m h).
Proof.
  intros Hm Hh w1 w2 H. unfold tryCatch.
  destruct (Hm w1 w2 H) as [Hv Hw].
  destruct (m w1) as [[a|e] w1'], (m w2) as [[a'|e'] w2']; simpl in *;
    try discriminate.
  - auto.
  - injection Hv as <-. now apply Hh.
Qed.

Lemma blind_Date_now : blind path Date_now.
Proof.
  intros w1 w2 H. destruct (alike_fields _ _ H) as (_ & Hc & Ht & _).
  unfold Date_now. simpl. rewrite Hc, Ht. split; [reflexivity | now apply alike_tick].
Qed.

Lemma blind_create (r : request) : blind path (create r).
Proof.
  intros w1 w2 H. destruct (alike_fields _ _ H) as (_ & _ & _ & Hl & Hr).
  unfold create. rewrite Hl, Hr.
  destruct (llm w2 (length (requests w2))); simpl;
    (split; [reflexivity | now apply alike_sent]).
Qed.

Lemma blind_writeJson (q : string) (d : cacheData) : blind path (writeJson q d).
Proof.
  intros w1 w2 H. unfold writeJson. simpl.
  split; [reflexivity | now apply alike_stored].
Qed.

Lemma blind_readFileSync (q : string) : blind path (readFileSync q).
Proof.
  intros w1 w2 H. destruct (alike_fields _ _ H) as (Hd & _).
  unfold readFileSync. rewrite Hd. destruct (documents w2 !! q); simpl; auto.
Qed.

Variable dateOf : string -> option (nat * nat).
Variable systemPrompt : string.
Variable cacheDir : string.

Lemma blind_getCachedSummary (monthFile : string) :
  blind path (getCachedSummary cacheDir monthFile).
Proof.
  intros w1 w2 H. rewrite !getCachedSummary_run.
  destruct (alike_fields _ _ H) as (_ & Hc & Ht & _).
  destruct (alike_lookup (getCacheFilePath cacheDir monthFile) _ _ H) as [E|[E1 E2]].
  - rewrite E, Hc, Ht.
    destruct (cache w2 !! getCacheFilePath cacheDir monthFile) as [[|d]|]; simpl;
      auto using alike_tick.
  - rewrite E1, E2. simpl. auto.
Qed.

Lemma blind_cachedOneSentence (monthFile : string) :
  blind path (cachedOneSentence cacheDir monthFile).
Proof.
  intros w1 w2 H. rewrite !cachedOneSentence_run.
  destruct (alike_fields _ _ H) as (_ & Hc & Ht & _).
  destruct (alike_lookup (oneSentenceCachePath cacheDir monthFile) _ _ H) as [E|[E1 E2]].
  - rewrite E, Hc, Ht.
    destruct (cache w2 !! oneSentenceCachePath cacheDir monthFile) as [[|d]|]; simpl;
      auto using alike_tick.
  - rewrite E1, E2. simpl. auto.
Qed.

Local Ltac blind_step :=
  first
    [ apply blind_ret
    | apply blind_Date_now
    | apply blind_create
    | apply blind_writeJson
    | apply blind_readFileSync
    | apply blind_getCachedSummary
    | apply blind_cachedOneSentence
    | apply blind_bind; [|intros ?]
    | apply blind_tryCatch; [|intros ?] ].

Lemma blind_generateOneSentenceSummary (monthFile fullSummary : string) :
  blind path (generateOneSentenceSummary cacheDir monthFile fullSummary).
Proof.
  unfold generateOneSentenceSummary.
  apply blind_bind; [apply blind_cachedOneSentence|]. intros [s|]; repeat blind_step.
Qed.

Lemma blind_finish (monthFile monthName formatted : string) :
  blind path (finish cacheDir monthFile monthName formatted).
Proof.
  unfold finish, saveToCache.
  apply blind_bind; [apply blind_generateOneSentenceSummary|]. intros one.
  repeat blind_step.
Qed.

Lemma blind_summarizeQuarters (monthName : string) (rest : list string) :
  forall i acc, blind path (summarizeQuarters systemPrompt monthName rest i acc).
Proof.
  induction rest as [|quarter rest IH]; intros i acc; cbn [summarizeQuarters].
  - apply blind_ret.
  - destruct (quarterNames !! i).
    + apply blind_bind; [apply blind_create|]. intros completion. apply IH.
    + intros w1 w2 H. simpl. auto.
Qed.

Lemma blind_summarizeInFour (monthFile monthName content : string) :
  blind path (summarizeInFour systemPrompt cacheDir monthFile monthName content).
Proof.
  unfold summarizeInFour, combineFourSummaries. cbv zeta.
  apply blind_tryCatch; [|intros e; apply blind_ret].
  apply blind_bind; [apply blind_summarizeQuarters|]. intros summaries.
  apply blind_bind; [repeat blind_step|]. intros combined. apply blind_finish.
Qed.

Lemma blind_summarizeInTwo (monthFile monthName content : string) :
  blind path (summarizeInTwo systemPrompt cacheDir monthFile monthName content).
Proof.
  unfold summarizeInTwo. cbv zeta. apply blind_tryCatch.
  - apply blind_bind; [apply blind_create|]. intros c1.
    apply blind_bind; [apply blind_create|]. intros c2. apply blind_finish.
  - intros e. destruct (isTokenLimit e); [apply blind_summarizeInFour | apply blind_ret].
Qed.

Lemma blind_summarizeWhole (monthFile monthName content : string) :
  blind path (summarizeWhole systemPrompt cacheDir monthFile monthName content).
Proof.
  unfold summarizeWhole. cbv zeta. apply blind_tryCatch.
  - apply blind_bind; [apply blind_create|]. intros c.
    destruct (_ || _).
    + unfold saveToCache. repeat blind_step.
    + apply blind_finish.
  - intros e. destruct (isTokenLimit e); [apply blind_summarizeInTwo | apply blind_ret].
Qed.

Lemma blind_generateMonthSummary (monthFile outputDir : string) :
  blind path (generateMonthSummary dateOf systemPrompt cacheDir monthFile outputDir).
Proof.
  unfold generateMonthSummary. cbv zeta.
  apply blind_bind; [apply blind_readFileSync|]. intros content.
  apply blind_bind; [apply blind_getCachedSummary|]. intros cached.
  destruct (truthy_opt cached); [|apply blind_summarizeWhole].
  destruct cached as [c|]; [|apply blind_ret].
  apply blind_bind; [apply blind_generateOneSentenceSummary|]. intros one.
  apply blind_ret.
Qed.

End CorruptedFacts.

(** C8. When the cache file of a month does not parse, [getCachedSummary]
    does not throw and returns [null], leaving the world as it is; and
    [generateMonthSummary] then does what it does in the world without that
    file: it returns the same, makes the same calls and leaves the same
    world, up to the corrupted file itself when nothing was written over it. *)
Theorem getCachedSummary_corrupted
    (dateOf : string -> option (nat * nat))
    (systemPrompt cacheDir monthFile outputDir : string) (w : Effects.world) :
  let path := Summarizer.getCacheFilePath cacheDir monthFile in
  let generate :=
    Summarizer.generateMonthSummary dateOf systemPrompt cacheDir monthFile outputDir in
  Effects.cache w !! path = Some Effects.Corrupted ->
  Summarizer.getCachedSummary cacheDir monthFile w = (Effects.Return None, w) /\
  Summarizer.getCachedSummary cacheDir monthFile (removed path w) =
    (Effects.Return None, removed path w) /\
  fst (generate w) = fst (generate (removed path w)) /\
  Effects.requests (snd (generate w)) = Effects.requests (snd (generate (removed path w))) /\
  (snd (generate (removed path w)) = snd (generate w) \/
   Effects.cache (snd (generate w)) !! path = Some Effects.Corrupted /\
   snd (generate (removed path w)) = removed path (snd (generate w))).
Proof.
  intros path generate H.
  split; [|split].
  - rewrite getCachedSummary_run. fold path. now rewrite H.
  - rewrite getCachedSummary_run. fold path. simpl. now rewrite lookup_delete_eq.
  - destruct (blind_generateMonthSummary path dateOf systemPrompt cacheDir
                monthFile outputDir w (removed path w)) as [Hv Hw].
    { right. split; [exact H | reflexivity]. }
    fold generate in Hv, Hw. split; [exact Hv|].
    split; [now apply alike_fields in Hw|].
    destruct Hw as [->|[Hc ->]]; [now left | right; now split].
Qed.

Lemma getCachedSummary_corrupted_witness :
  Summarizer.getCachedSummary "cache" "2021-02.md"
    (Sample.world Sample.corruptedCache 1000 Sample.greets) =
    (Effects.Return None, Sample.world Sample.corruptedCache 1000 Sample.greets) /\
  fst (Sample.run (Sample.world Sample.corruptedCache 1000 Sample.greets)) =
  fst (Sample.run (removed "cache/2021-02.json"
                     (Sample.world Sample.corruptedCache 1000 Sample.greets))).
Proof.
  destruct (getCachedSummary_corrupted Sample.dateOf "PROMPT" "cache"
              "2021-02.md" "output"
              (Sample.world Sample.corruptedCache 1000 Sample.greets)
              ltac:(reflexivity)) as (H1 & _ & H2 & _).
  split; [exact H1 | exact H2].
Defined.

(** An entry whose age is exactly [maxAge] is served; one millisecond later
    it is not. *)
Example getCachedSummary_at_maxAge :
  fst (Summarizer.getCachedSummary "cache" "2021-02.md" Sample.atMaxAge) =
    Effects.Return (Some ("## February 2021" +:+ JS.nl +:+ JS.nl +:+ "The team said hello.")) /\
  fst (Summarizer.getCachedSummary "cache" "2021-02.md" Sample.pastMaxAge) =
    Effects.Return None.
Proof. split; reflexivity. Qed.

(** ** What the cache holds after a run *)

Section InvariantFacts.
Import JS Splitter Effects Summarizer.

Variable I : world -> Prop.
Hypothesis I_tick : forall w, I w -> I (tick w).
Hypothesis I_sent : forall r w, I w -> I (sent r w).

Lemma keeps_ret {A} (a : A) : keeps I (ret a).
Proof. intros w H. exact H. Qed.

Lemma keeps_bind {A B} (m : M A) (k : A -> M B) :
  keeps I m -> (forall a, keeps I (k a)) -> keeps I (bind m k).
Proof.
  intros Hm Hk w H. unfold bind. specialize (Hm w H).
  destruct (m w) as [[a|e] w']; simpl in *; [now apply Hk | exact Hm].
Qed.

Lemma keeps_tryCatch {A} (m : M A) (h : string -> M A) :
  keeps I m -> (forall e, keeps I (h e)) -> keeps I (tryCatch m h).
Proof.
  intros Hm Hh w H. unfold tryCatch. specialize (Hm w H).
  destruct (m w) as [[a|e] w']; simpl in *; [exact Hm | now apply Hh].
Qed.

Lemma keeps_Date_now : keeps I Date_now.
Proof. intros w H. now apply I_tick. Qed.

Lemma keeps_create (r : request) : keeps I (create r).
Proof.
  intros w H. unfold create.
  destruct (llm w (length (requests w))); simpl; now apply I_sent.
Qed.

Lemma keeps_existsSync (q : string) : keeps I (existsSync q).
Proof. intros w H. exact H. Qed.

Lemma keeps_readJson (q : string) : keeps I (readJson q).
Proof. intros w H. unfold readJson. now destruct (cache w !! q) as [[|d]|]. Qed.

Lemma keeps_readFileSync (q : string) : keeps I (readFileSync q).
Proof. intros w H. unfold readFileSync. now destruct (documents w !! q). Qed.

End InvariantFacts.

Section WellFormedFacts.
Import JS Splitter Effects Summarizer.

Variable dateOf : string -> option (nat * nat).
Variable systemPrompt : string.
Variable cacheDir : string.
Variable monthFile : string.

Local Abbreviation path := (getCacheFilePath cacheDir monthFile).
Local Abbreviation monthName := (monthNameOf dateOf monthFile).
Local Abbreviation I := (wellFormedAt path monthName).

Lemma wellFormed_tick (w : world) : I w -> I (tick w).
Proof. intros H. exact H. Qed.

Lemma wellFormed_sent (r : request) (w : world) : I w -> I (sent r w).
Proof. intros H. exact H. Qed.

(** Writing a record whose summary, if any, begins with the heading. *)
Lemma wellFormed_writeJson (q : string) (d : cacheData) :
  (forall s, summary d = Some s -> headed monthName s) ->
  keeps I (writeJson q d).
Proof.
  intros Hd w H d' s. unfold writeJson. simpl.
  destruct (decide (q = path)) as [->|ne].
  - rewrite lookup_insert_eq. intros [= <-]. apply Hd.
  - rewrite lookup_insert_ne by exact ne. apply H.
Qed.

Lemma wellFormed_getCachedSummary : keeps I (getCachedSummary cacheDir monthFile).
Proof.
  intros w H. destruct (getCachedSummary_world cacheDir monthFile w) as ([->| ->] & _);
    exact H.
Qed.

Lemma wellFormed_generateOneSentenceSummary (fullSummary : string) :
  keeps I (generateOneSentenceSummary cacheDir monthFile fullSummary).
Proof.
  unfold generateOneSentenceSummary, cachedOneSentence.
  apply keeps_bind.
  - apply keeps_bind; [apply keeps_existsSync|]. intros [|]; [|apply keeps_ret].
    apply keeps_tryCatch; [|intros e; apply keeps_ret].
    apply keeps_bind; [apply keeps_readJson|]. intros d.
    apply keeps_bind; [apply keeps_Date_now; exact wellFormed_tick|]. intros now.
    destruct (_ && _); apply keeps_ret.
  - intros [s|]; [apply keeps_ret|].
    apply keeps_tryCatch; [|intros e; apply keeps_ret].
    apply keeps_bind; [apply keeps_create; exact wellFormed_sent|]. intros c.
    apply keeps_bind; [apply keeps_Date_now; exact wellFormed_tick|]. intros now.
    apply keeps_bind; [|intros ?; apply keeps_ret].
    apply wellFormed_writeJson. discriminate.
Qed.

Lemma wellFormed_saveToCache (body : string) :
  keeps I (saveToCache cacheDir monthFile (heading monthName +:+ body)).
Proof.
  unfold saveToCache. cbv zeta.
  apply keeps_bind; [apply keeps_Date_now; exact wellFormed_tick|]. intros now.
  apply wellFormed_writeJson. intros s [= <-]. now exists body.
Qed.

Lemma wellFormed_finish (body : string) :
  keeps I (finish cacheDir monthFile monthName (heading monthName +:+ body)).
Proof.
  unfold finish.
  apply keeps_bind; [apply wellFormed_generateOneSentenceSummary|]. intros one.
  apply keeps_bind; [apply wellFormed_saveToCache | intros ?; apply keeps_ret].
Qed.

Lemma wellFormed_summarizeQuarters (rest : list string) :
  forall i acc, keeps I (summarizeQuarters systemPrompt monthName rest i acc).
Proof.
  induction rest as [|quarter rest IH]; intros i acc; cbn [summarizeQuarters].
  - apply keeps_ret.
  - destruct (quarterNames !! i).
    + apply keeps_bind; [apply keeps_create; exact wellFormed_sent|]. intros c. apply IH.
    + intros w H. exact H.
Qed.

Lemma wellFormed_summarizeInFour (content : string) :
  keeps I (summarizeInFour systemPrompt cacheDir monthFile monthName content).
Proof.
  unfold summarizeInFour, combineFourSummaries. cbv zeta.
  apply keeps_tryCatch; [|intros e; apply keeps_ret].
  apply keeps_bind; [apply wellFormed_summarizeQuarters|]. intros summaries.
  apply keeps_bind; [|intros combined; apply wellFormed_finish].
  apply keeps_tryCatch; [|intros e; apply keeps_ret].
  apply keeps_bind; [apply keeps_create; exact wellFormed_sent | intros c; apply keeps_ret].
Qed.

Lemma wellFormed_summarizeInTwo (content : string) :
  keeps I (summarizeInTwo systemPrompt cacheDir monthFile monthName content).
Proof.
  unfold summarizeInTwo. cbv zeta. apply keeps_tryCatch.
  - apply keeps_bind; [apply keeps_create; exact wellFormed_sent|]. intros c1.
    apply keeps_bind; [apply keeps_create; exact wellFormed_sent|]. intros c2.
    apply wellFormed_finish.
  - intros e. destruct (isTokenLimit e); [apply wellFormed_summarizeInFour | apply keeps_ret].
Qed.

Lemma wellFormed_summarizeWhole (content : string) :
  keeps I (summarizeWhole systemPrompt cacheDir monthFile monthName content).
Proof.
  unfold summarizeWhole. cbv zeta. apply keeps_tryCatch.
  - apply keeps_bind; [apply keeps_create; exact wellFormed_sent|]. intros c.
    destruct (_ || _).
    + apply keeps_bind; [apply wellFormed_saveToCache | intros ?; apply keeps_ret].
    + apply wellFormed_finish.
  - intros e. destruct (isTokenLimit e); [apply wellFormed_summarizeInTwo | apply keeps_ret].
Qed.

(** Every summary [generateMonthSummary] caches for a month begins with the
    heading of that month: a cache that is well formed for the month stays
    so, run after run. The empty cache is well formed. *)
Lemma generateMonthSummary_keeps_wellFormed (outputDir : string) :
  keeps I (generateMonthSummary dateOf systemPrompt cacheDir monthFile outputDir).
Proof.
  unfold generateMonthSummary. cbv zeta.
  apply keeps_bind; [apply keeps_readFileSync|]. intros content.
  apply keeps_bind; [apply wellFormed_getCachedSummary|]. intros cached.
  destruct (truthy_opt cached); [|apply wellFormed_summarizeWhole].
  destruct cached as [c|]; [|apply keeps_ret].
  apply keeps_bind; [apply wellFormed_generateOneSentenceSummary|]. intros one.
  apply keeps_ret.
Qed.

End WellFormedFacts.

(** * Further properties *)

(** ** Searching and replacing *)

Section SearchFacts.
Import JS.

(** What [search] finds is an occurrence of the pattern. *)
Lemma search_sound (pat s pre post : string) :
  search pat s = Some (pre, post) -> s = pre +:+ pat +:+ post.
Proof.
  revert pre post. induction s as [|c r IH]; intros pre post H; cbn [search] in H.
  - destruct (String.prefix pat "") eqn:E; [|discriminate].
    injection H as <- <-. destruct pat; [reflexivity | discriminate].
  - destruct (String.prefix pat (String c r)) eqn:E.
    + injection H as <- <-. rewrite app_nil_l.
      clear IH. revert c r E. set (n := String.length pat).
      intros c r E. generalize (String c r) E. clear c r E. subst n.
      induction pat as [|p pat IHp]; intros s E; [reflexivity|].
      destruct s as [|y s]; simpl in E; [discriminate|].
      destruct (Ascii.ascii_dec p y) as [->|]; [|discriminate].
      rewrite app_cons. simpl. f_equal. now apply IHp.
    + destruct (search pat r) as [[pre' post']|]; [|discriminate].
      injection H as <- <-. rewrite app_cons. f_equal. now apply IH.
Qed.

(** A text that holds the pattern is one in which [search] finds it. *)
Lemma search_complete (pat a b : string) :
  exists pre post, search pat (a +:+ pat +:+ b) = Some (pre, post).
Proof.
  induction a as [|c a (pre & post & IH)].
  - rewrite app_nil_l, (search_prefix _ _ (prefix_append _ _)). eauto.
  - rewrite app_cons. cbn [search].
    destruct (String.prefix pat _); [eauto|]. rewrite IH. eauto.
Qed.

Lemma includes_search (s pat : string) :
  includes s pat = true -> exists pre post, search pat s = Some (pre, post).
Proof.
  induction s as [|c r IH]; cbn [includes search]; intros H.
  - rewrite orb_false_r in H. rewrite H. eauto.
  - destruct (String.prefix pat (String c r)); [eauto|].
    destruct (IH H) as (pre & post & ->). eauto.
Qed.

(** A pattern cannot begin inside [s] and run over a character it does not
    hold. *)
Lemma prefix_over_separator (c : ascii) (pat s b : string) :
  Terms.occurs c pat = false ->
  String.prefix pat (s +:+ String c b) = true -> String.prefix pat s = true.
Proof.
  revert s. induction pat as [|p pat IH]; intros s Hc H; [now destruct s|].
  simpl in Hc. apply orb_false_iff in Hc as [Hp Hc].
  destruct s as [|y s].
  - rewrite app_nil_l in H. simpl in H.
    destruct (Ascii.ascii_dec p c) as [->|]; [|discriminate].
    now rewrite Ascii.eqb_refl in Hp.
  - rewrite app_cons in H. simpl in *.
    destruct (Ascii.ascii_dec p y); [|discriminate]. now apply IH.
Qed.

Lemma includes_false_cons (c : ascii) (r pat : string) :
  includes (String c r) pat = false ->
  String.prefix pat (String c r) = false /\ includes r pat = false.
Proof. cbn [includes]. apply orb_false_iff. Qed.

(** In a text without the pattern followed by a character the pattern does
    not hold, the first occurrence lies after that character. *)
Lemma search_after_separator (c p : ascii) (pat a b : string) :
  Terms.occurs c (String p pat) = false ->
  includes a (String p pat) = false ->
  search (String p pat) (a +:+ String c b) =
  match search (String p pat) b with
  | Some (pre, post) => Some (a +:+ String c pre, post)
  | None => None
  end.
Proof.
  intros Hc. induction a as [|x a IH]; intros Ha.
  - rewrite app_nil_l. cbn [search].
    replace (String.prefix (String p pat) (String c b)) with false.
    + destruct (search (String p pat) b) as [[pre post]|]; reflexivity.
    + simpl. destruct (Ascii.ascii_dec p c) as [->|]; [|reflexivity].
      simpl in Hc. now rewrite Ascii.eqb_refl in Hc.
  - apply includes_false_cons in Ha as [Hx Ha].
    rewrite app_cons. cbn [search].
    replace (String.prefix (String p pat) (String x (a +:+ String c b))) with false.
    + rewrite (IH Ha).
      destruct (search (String p pat) b) as [[pre post]|]; [|reflexivity].
      now rewrite app_cons.
    + symmetry. apply not_true_is_false. intros H.
      rewrite <- app_cons in H. apply (prefix_over_separator c) in H; [|exact Hc].
      congruence.
Qed.

(** In a text whose beginning does not hold the first character of the
    pattern, the first occurrence cannot begin there. *)
Lemma search_after_plain (p : ascii) (pat a b : string) :
  Terms.occurs p a = false ->
  search (String p pat) (a +:+ String p pat +:+ b) = Some (a, b).
Proof.
  induction a as [|x a IH]; intros Ha.
  - rewrite app_nil_l.
    now rewrite (search_prefix _ _ (prefix_append _ _)), dropStr_append.
  - simpl in Ha. apply orb_false_iff in Ha as [Hx Ha].
    rewrite app_cons. cbn [search].
    replace (String.prefix (String p pat) (String x (a +:+ String p pat +:+ b)))
      with false.
    + now rewrite (IH Ha).
    + simpl. destruct (Ascii.ascii_dec p x) as [->|]; [|reflexivity].
      now rewrite Ascii.eqb_refl in Hx.
Qed.

End SearchFacts.

(** ** The two cache files of a month *)

Section PathFacts.
Import JS Effects Summarizer.

Lemma replace_found (s pat repl pre post : string) :
  search pat s = Some (pre, post) ->
  dollarFree repl = true ->
  replace s pat repl = pre +:+ repl +:+ post.
Proof.
  intros H Hr. unfold replace. rewrite H. now rewrite getSubstitution_dollarFree.
Qed.

(** A file name that holds [".md"] has a digest path other than its summary
    path. *)
Lemma digest_path_differs (cacheDir monthFile : string) :
  includes monthFile ".md" = true ->
  oneSentenceCachePath cacheDir monthFile <> getCacheFilePath cacheDir monthFile.
Proof.
  intros H. destruct (includes_search _ _ H) as (pre & post & Hs).
  unfold oneSentenceCachePath, getCacheFilePath, getCacheDir, path_join.
  rewrite (replace_found _ _ ".json" _ _ Hs eq_refl).
  set (s := cacheDir +:+ "/" +:+ pre +:+ ".json" +:+ post).
  assert (Hj : exists pre' post', search ".json" s = Some (pre', post')).
  { replace s with ((cacheDir +:+ "/" +:+ pre) +:+ ".json" +:+ post)
      by (unfold s; now rewrite !append_assoc).
    apply search_complete. }
  destruct Hj as (pre' & post' & Hj).
  rewrite (replace_found _ _ "-onesentence.json" _ _ Hj eq_refl).
  pose proof (search_sound _ _ _ _ Hj) as Hs2. intros E.
  assert (E2 : pre' +:+ "-onesentence.json" +:+ post' = pre' +:+ ".json" +:+ post')
    by congruence.
  apply String.app_inj in E2. discriminate.
Qed.

End PathFacts.

(** ** Runs served from the cache and runs that fill it *)

Section HitFacts.
Import JS Splitter Effects Summarizer.

Variable dateOf : string -> option (nat * nat).
Variable systemPrompt : string.
Variable cacheDir : string.

(** A run that finds a valid summary and a valid digest. *)
Lemma generateMonthSummary_full_hit_run
    (monthFile outputDir content text one : string) (dS dD : cacheData)
    (stampS stampD : Z) (w : world) :
  documents w !! path_join outputDir monthFile = Some content ->
  cache w !! getCacheFilePath cacheDir monthFile = Some (Json dS) ->
  summary dS = Some text ->
  10 <= String.length text ->
  timestamp dS = Some stampS ->
  (clock w (ticks w) - stampS <= maxAge)%Z ->
  cache w !! oneSentenceCachePath cacheDir monthFile = Some (Json dD) ->
  oneSentenceSummary dD = Some one ->
  one <> "" ->
  timestamp dD = Some stampD ->
  (clock w (S (ticks w)) - stampD <= maxAge)%Z ->
  generateMonthSummary dateOf systemPrompt cacheDir monthFile outputDir w =
  (Return (withTldr (monthNameOf dateOf monthFile) text one), tick (tick w)).
Proof.
  intros Hdoc HS Htext Hlen HtS HageS HD Hone Hne HtD HageD.
  assert (Hhit : fst (getCachedSummary cacheDir monthFile w) = Return (Some text)).
  { rewrite getCachedSummary_run, HS. simpl. f_equal.
    apply (validSummary_dated _ stampS); auto. }
  destruct (generateMonthSummary_hit dateOf systemPrompt cacheDir monthFile outputDir
              content text w Hdoc Hhit) as (one' & w1 & Ed & ->).
  rewrite generateOneSentenceSummary_run, cachedOneSentence_run in Ed.
  change (cache (tick w)) with (cache w) in Ed. rewrite HD in Ed.
  replace (validDigest (clock (tick w) (ticks (tick w))) dD) with (Some one) in Ed.
  - now injection Ed as <- <-.
  - symmetry. apply (validDigest_dated _ stampD); auto.
Qed.

End HitFacts.

(** X1. A run that finds in the cache a summary of at least ten characters
    and a non-empty digest, both at most seven days old when they are read,
    returns the cached summary with the cached digest spliced in; it makes no
    call to the service, writes no file and only reads the clock twice. *)
Theorem generateMonthSummary_full_hit
    (dateOf : string -> option (nat * nat))
    (systemPrompt cacheDir monthFile outputDir content text one : string)
    (dS dD : Effects.cacheData) (stampS stampD : Z) (w : Effects.world) :
  Effects.documents w !! Effects.path_join outputDir monthFile = Some content ->
  Effects.cache w !! Summarizer.getCacheFilePath cacheDir monthFile =
    Some (Effects.Json dS) ->
  Effects.summary dS = Some text ->
  10 <= String.length text ->
  Effects.timestamp dS = Some stampS ->
  (Effects.clock w (Effects.ticks w) - stampS <= Summarizer.maxAge)%Z ->
  Effects.cache w !! Summarizer.oneSentenceCachePath cacheDir monthFile =
    Some (Effects.Json dD) ->
  Effects.oneSentenceSummary dD = Some one ->
  one <> "" ->
  Effects.timestamp dD = Some stampD ->
  (Effects.clock w (S (Effects.ticks w)) - stampD <= Summarizer.maxAge)%Z ->
  let run := Summarizer.generateMonthSummary dateOf systemPrompt cacheDir
               monthFile outputDir w in
  fst run = Effects.Return
              (Summarizer.withTldr (Summarizer.monthNameOf dateOf monthFile) text one) /\
  Effects.requests (snd run) = Effects.requests w /\
  Effects.cache (snd run) = Effects.cache w /\
  Effects.ticks (snd run) = 2 + Effects.ticks w.
Proof.
  intros Hdoc HS Htext Hlen HtS HageS HD Hone Hne HtD HageD run. unfold run.
  rewrite (generateMonthSummary_full_hit_run dateOf systemPrompt cacheDir monthFile
             outputDir content text one dS dD stampS stampD w); auto.
Qed.

Lemma generateMonthSummary_full_hit_witness :
  fst (Sample.run (Sample.world Scenario.bothCached 1000 Sample.greets)) =
  Effects.Return
    (Summarizer.withTldr "February 2021"
       ("## February 2021" +:+ JS.nl +:+ JS.nl +:+ "The team said hello.") "Hello.").
Proof.
  apply (generateMonthSummary_full_hit Sample.dateOf "PROMPT" "cache" "2021-02.md" "output"
           Sample.document
           ("## February 2021" +:+ JS.nl +:+ JS.nl +:+ "The team said hello.") "Hello."
           {| Effects.timestamp := Some 0%Z; Effects.monthFile := "2021-02.md";
              Effects.summary :=
                Some ("## February 2021" +:+ JS.nl +:+ JS.nl +:+ "The team said hello.");
              Effects.oneSentenceSummary := None; Effects.model := "gpt-5-mini" |}
           {| Effects.timestamp := Some 0%Z; Effects.monthFile := "2021-02.md";
              Effects.summary := None;
              Effects.oneSentenceSummary := Some "Hello."; Effects.model := "gpt-5-mini" |}
           0%Z 0%Z
           (Sample.world Scenario.bothCached 1000 Sample.greets)
           ltac:(reflexivity) ltac:(reflexivity) ltac:(reflexivity)
           ltac:(vm_compute; lia) ltac:(reflexivity) ltac:(vm_compute; discriminate)
           ltac:(reflexivity) ltac:(reflexivity) ltac:(discriminate)
           ltac:(reflexivity) ltac:(vm_compute; discriminate)).
Defined.

Section FreshFacts.
Import JS Splitter Effects Summarizer.

Variable dateOf : string -> option (nat * nat).
Variable systemPrompt : string.
Variable cacheDir : string.

(** [generateOneSentenceSummary] when no digest file exists. *)
Lemma generateOneSentenceSummary_fresh (monthFile fullSummary : string) (w : world) :
  cache w !! oneSentenceCachePath cacheDir monthFile = None ->
  generateOneSentenceSummary cacheDir monthFile fullSummary w =
  let w1 := sent (oneSentenceRequest fullSummary) w in
  match llm w (length (requests w)) with
  | Content text =>
      (Return (trim text),
       stored (oneSentenceCachePath cacheDir monthFile)
         (Json (digestRecord (clock w (ticks w)) monthFile (trim text))) (tick w1))
  | Failure e => (Return "Unable to generate summary.", w1)
  end.
Proof.
  intros H. rewrite generateOneSentenceSummary_run, cachedOneSentence_run, H.
  destruct (llm w (length (requests w))); reflexivity.
Qed.

(** The fresh run whose first call succeeds with a summary of ten characters
    or more, as one equation. *)
Lemma generateMonthSummary_whole_run
    (monthFile outputDir content text : string) (w : world) :
  documents w !! path_join outputDir monthFile = Some content ->
  fst (getCachedSummary cacheDir monthFile w) = Return None ->
  llm w (length (requests w)) = Content text ->
  10 <= String.length (trim text) ->
  let monthName := monthNameOf dateOf monthFile in
  let formatted := heading monthName +:+ trim text in
  generateMonthSummary dateOf systemPrompt cacheDir monthFile outputDir w =
  finish cacheDir monthFile monthName formatted
    (sent (wholeRequest systemPrompt monthName content)
       (snd (getCachedSummary cacheDir monthFile w))).
Proof.
  intros Hdoc Hmiss Hllm Hlen monthName formatted.
  destruct (getCachedSummary_world cacheDir monthFile w) as (_ & Hr & Hl & _).
  rewrite (generateMonthSummary_miss _ _ _ _ _ _ _ Hdoc Hmiss).
  apply summarizeWhole_success; [|exact Hlen].
  rewrite Hl, Hr. exact Hllm.
Qed.

End FreshFacts.



Section SpliceFacts.
Import JS Effects Summarizer.

(** Splicing a digest without [$] into a text that begins with the heading. *)
Lemma withTldr_spliced (dateOf : string -> option (nat * nat)) (monthFile body one : string) :
  dollarFree one = true ->
  withTldr (monthNameOf dateOf monthFile)
    (heading (monthNameOf dateOf monthFile) +:+ body) one =
  heading (monthNameOf dateOf monthFile) +:+ "**tl;dr:** " +:+ one +:+ nl +:+ nl +:+ body.
Proof.
  intros H.
  rewrite (withTldr_headed _ _ _ (monthNameOf_dollarFree dateOf monthFile)).
  rewrite getSubstitution_dollarFree; [now rewrite !append_assoc|].
  now rewrite dollarFree_app, H.
Qed.

End SpliceFacts.

(** X3. A failure of the digest call does not fail the document: when the
    call for the whole document succeeds with ten characters or more, no
    digest file exists and the digest call fails, [generateMonthSummary]
    returns the summary with ["Unable to generate summary."] as its digest,
    caches the summary and caches no digest. *)
Theorem generateMonthSummary_digest_failure
    (dateOf : string -> option (nat * nat))
    (systemPrompt cacheDir monthFile outputDir content text e : string) (w : Effects.world) :
  Effects.documents w !! Effects.path_join outputDir monthFile = Some content ->
  fst (Summarizer.getCachedSummary cacheDir monthFile w) = Effects.Return None ->
  Effects.cache w !! Summarizer.oneSentenceCachePath cacheDir monthFile = None ->
  Effects.llm w (length (Effects.requests w)) = Effects.Content text ->
  10 <= String.length (JS.trim text) ->
  Effects.llm w (length (Effects.requests w) + 1) = Effects.Failure e ->
  let monthName := Summarizer.monthNameOf dateOf monthFile in
  let formatted := Summarizer.heading monthName +:+ JS.trim text in
  let run := Summarizer.generateMonthSummary dateOf systemPrompt cacheDir
               monthFile outputDir w in
  exists stamp,
    fst run = Effects.Return
                (Summarizer.heading monthName +:+ "**tl;dr:** " +:+
                 "Unable to generate summary." +:+ JS.nl +:+ JS.nl +:+ JS.trim text) /\
    Effects.cache (snd run) =
      <[Summarizer.getCacheFilePath cacheDir monthFile :=
          Effects.Json (summaryRecord stamp monthFile formatted)]> (Effects.cache w) /\
    Effects.requests (snd run) =
      Effects.requests w ++
      [Summarizer.wholeRequest systemPrompt monthName content;
       Summarizer.oneSentenceRequest formatted].
Proof.
  intros Hdoc Hmiss Hop Hllm Hlen Hfail monthName formatted run. unfold run.
  rewrite (generateMonthSummary_whole_run dateOf systemPrompt cacheDir monthFile
             outputDir content text w Hdoc Hmiss Hllm Hlen).
  fold monthName formatted.
  destruct (getCachedSummary_world cacheDir monthFile w) as (_ & Hr & Hl & Hc & _).
  set (w1 := Effects.sent _ _).
  assert (Ed : Summarizer.generateOneSentenceSummary cacheDir monthFile formatted w1 =
               (Effects.Return "Unable to generate summary.",
                Effects.sent (Summarizer.oneSentenceRequest formatted) w1)).
  { rewrite generateOneSentenceSummary_fresh
      by (unfold w1; cbn [Effects.sent Effects.cache]; now rewrite Hc).
    replace (Effects.llm w1 (length (Effects.requests w1))) with (Effects.Failure e);
      [reflexivity|].
    rewrite <- Hfail. unfold w1. cbn [Effects.sent Effects.llm Effects.requests].
    now rewrite Hl, length_app, Hr. }
  unfold Summarizer.finish, Effects.bind. rewrite Ed, saveToCache_run.
  unfold Effects.ret. eexists. cbn [fst snd]. split; [|split].
  - unfold formatted, monthName. now rewrite withTldr_spliced.
  - unfold saved, w1. cbn [Effects.stored Effects.cache Effects.tick Effects.sent].
    rewrite Hc. reflexivity.
  - unfold saved, w1.
    cbn [Effects.stored Effects.requests Effects.tick Effects.sent].
    now rewrite Hr, <- app_assoc.
Qed.

Lemma generateMonthSummary_digest_failure_witness :
  fst (Sample.run (Sample.world ∅ 1000 Scenario.digestFails)) =
    Effects.Return
      (Summarizer.heading "February 2021" +:+ "**tl;dr:** " +:+
       "Unable to generate summary." +:+ JS.nl +:+ JS.nl +:+
       "The team said hello to each other.").
Proof.
  destruct (generateMonthSummary_digest_failure Sample.dateOf "PROMPT" "cache"
              "2021-02.md" "output" Sample.document
              "The team said hello to each other." "503 Service unavailable"
              (Sample.world ∅ 1000 Scenario.digestFails)
              ltac:(reflexivity) ltac:(reflexivity) ltac:(reflexivity)
              ltac:(reflexivity) ltac:(vm_compute; lia) ltac:(reflexivity))
    as (stamp & H & _).
  exact H.
Defined.

(** ** The two-part attempt *)

Section TwoPartFacts.
Import JS Splitter Effects Summarizer.

Variable dateOf : string -> option (nat * nat).
Variable systemPrompt : string.
Variable cacheDir : string.

(** After a size-limit failure of the whole document, the run goes on with
    the two-part attempt. *)
Lemma generateMonthSummary_escalates
    (monthFile outputDir content e : string) (w : world) :
  documents w !! path_join outputDir monthFile = Some content ->
  fst (getCachedSummary cacheDir monthFile w) = Return None ->
  llm w (length (requests w)) = Failure e ->
  isTokenLimit e = true ->
  let monthName := monthNameOf dateOf monthFile in
  let w1 := sent (wholeRequest systemPrompt monthName content)
              (snd (getCachedSummary cacheDir monthFile w)) in
  generateMonthSummary dateOf systemPrompt cacheDir monthFile outputDir w =
    summarizeInTwo systemPrompt cacheDir monthFile monthName content w1 /\
  requests w1 = requests w ++ [wholeRequest systemPrompt monthName content] /\
  llm w1 = llm w /\ cache w1 = cache w.
Proof.
  intros Hdoc Hmiss Hllm He monthName w1.
  destruct (getCachedSummary_world cacheDir monthFile w) as (_ & Hr & Hl & Hc & _).
  split; [|unfold w1; cbn [sent requests llm cache]; now rewrite Hr, Hl, Hc].
  rewrite (generateMonthSummary_miss _ _ _ _ _ _ _ Hdoc Hmiss).
  rewrite (summarizeWhole_failure _ _ _ _ _ e) by (rewrite Hl, Hr; exact Hllm).
  now rewrite He.
Qed.

End TwoPartFacts.

(** X5. When the call for the whole document fails with a size-limit error
    and the calls for the two halves succeed, [generateMonthSummary] caches
    the heading followed by the two trimmed answers put end to end (nothing
    between them) and returns that text with the digest spliced in; it calls
    the service for the whole, the first half, the second half and, unless a
    valid digest is cached, the digest: no quarter is ever asked for. *)
Theorem generateMonthSummary_two_parts
    (dateOf : string -> option (nat * nat))
    (systemPrompt cacheDir monthFile outputDir content e text1 text2 : string)
    (w : Effects.world) :
  Effects.documents w !! Effects.path_join outputDir monthFile = Some content ->
  fst (Summarizer.getCachedSummary cacheDir monthFile w) = Effects.Return None ->
  Effects.llm w (length (Effects.requests w)) = Effects.Failure e ->
  Summarizer.isTokenLimit e = true ->
  Effects.llm w (length (Effects.requests w) + 1) = Effects.Content text1 ->
  Effects.llm w (length (Effects.requests w) + 2) = Effects.Content text2 ->
  let monthName := Summarizer.monthNameOf dateOf monthFile in
  let formatted := Summarizer.heading monthName +:+ JS.trim text1 +:+ JS.trim text2 in
  let made :=
    Effects.requests w ++
    [Summarizer.wholeRequest systemPrompt monthName content;
     firstRequest systemPrompt monthName content;
     secondRequest systemPrompt monthName content] in
  let run := Summarizer.generateMonthSummary dateOf systemPrompt cacheDir
               monthFile outputDir w in
  exists one stamp,
    fst run = Effects.Return (Summarizer.withTldr monthName formatted one) /\
    Effects.cache (snd run) !! Summarizer.getCacheFilePath cacheDir monthFile =
      Some (Effects.Json (summaryRecord stamp monthFile formatted)) /\
    (Effects.requests (snd run) = made \/
     Effects.requests (snd run) = made ++ [Summarizer.oneSentenceRequest formatted]).
Proof.
  intros Hdoc Hmiss Hllm He H1 H2 monthName formatted made run. unfold run.
  destruct (generateMonthSummary_escalates dateOf systemPrompt cacheDir monthFile
              outputDir content e w Hdoc Hmiss Hllm He) as (-> & Hr & Hl & _).
  fold monthName in Hr, Hl |- *.
  set (w1 := Effects.sent _ _) in *.
  assert (Hn : length (Effects.requests w1) = length (Effects.requests w) + 1).
  { rewrite Hr, length_app. reflexivity. }
  rewrite (summarizeInTwo_success _ _ _ _ _ text1 text2)
    by (rewrite Hl, Hn; first [exact H1 | rewrite <- H2; f_equal; lia]).
  fold formatted.
  set (w3 := Effects.sent _ (Effects.sent _ w1)).
  destruct (finish_run cacheDir monthFile monthName formatted w3) as (one & w4 & Ed & ->).
  destruct (generateOneSentenceSummary_returns cacheDir monthFile formatted w3)
    as (one' & w4' & Ed' & _ & Hreq).
  rewrite Ed in Ed'. injection Ed' as <- <-.
  exists one, (Effects.clock w4 (Effects.ticks w4)).
  split; [reflexivity|]. split; [apply lookup_insert_eq|].
  cbn [snd saved Effects.stored Effects.requests Effects.tick].
  assert (H3 : Effects.requests w3 = made).
  { unfold w3, made. cbn [Effects.sent Effects.requests]. rewrite Hr.
    now rewrite <- !app_assoc. }
  rewrite <- H3. exact Hreq.
Qed.

Lemma generateMonthSummary_two_parts_witness :
  exists one stamp,
    fst (Sample.run (Sample.world ∅ 1000 Sample.halvesFit)) =
      Effects.Return
        (Summarizer.withTldr "February 2021"
           (Summarizer.heading "February 2021" +:+ "First part." +:+ "Second part.") one) /\
    Effects.cache (snd (Sample.run (Sample.world ∅ 1000 Sample.halvesFit)))
      !! "cache/2021-02.json" =
      Some (Effects.Json
              (summaryRecord stamp "2021-02.md"
                 (Summarizer.heading "February 2021" +:+ "First part." +:+ "Second part."))).
Proof.
  destruct (generateMonthSummary_two_parts Sample.dateOf "PROMPT" "cache"
              "2021-02.md" "output" Sample.document
              "This model's token limit was exceeded" "First part. " " Second part."
              (Sample.world ∅ 1000 Sample.halvesFit)
              ltac:(reflexivity) ltac:(reflexivity) ltac:(reflexivity)
              ltac:(reflexivity) ltac:(reflexivity) ltac:(reflexivity))
    as (one & stamp & H1 & H2 & _).
  exists one, stamp. split; [exact H1 | exact H2].
Defined.

(** X6. When the call for the whole document fails with a size-limit error
    and the two-part attempt fails with an error that is not a size-limit
    error (at its first or at its second call), [generateMonthSummary] does
    not try four parts: it returns the inline error block with the message of
    that error and leaves the cache as it was. *)
Theorem generateMonthSummary_two_parts_service_error
    (dateOf : string -> option (nat * nat))
    (systemPrompt cacheDir monthFile outputDir content e0 e : string)
    (halfCalls : list Effects.request) (w : Effects.world) :
  let monthName := Summarizer.monthNameOf dateOf monthFile in
  let n := length (Effects.requests w) in
  Effects.documents w !! Effects.path_join outputDir monthFile = Some content ->
  fst (Summarizer.getCachedSummary cacheDir monthFile w) = Effects.Return None ->
  Effects.llm w n = Effects.Failure e0 ->
  Summarizer.isTokenLimit e0 = true ->
  (halfCalls = [firstRequest systemPrompt monthName content] /\
   Effects.llm w (n + 1) = Effects.Failure e
   \/
   halfCalls = [firstRequest systemPrompt monthName content;
                secondRequest systemPrompt monthName content] /\
   (exists t, Effects.llm w (n + 1) = Effects.Content t) /\
   Effects.llm w (n + 2) = Effects.Failure e) ->
  Summarizer.isTokenLimit e = false ->
  let run := Summarizer.generateMonthSummary dateOf systemPrompt cacheDir
               monthFile outputDir w in
  fst run = Effects.Return
              (Summarizer.heading monthName +:+ "Error generating summary: " +:+ e) /\
  Effects.cache (snd run) = Effects.cache w /\
  Effects.requests (snd run) =
    Effects.requests w ++
    [Summarizer.wholeRequest systemPrompt monthName content] ++ halfCalls.
Proof.
  intros monthName n Hdoc Hmiss Hllm He0 Hhalves He run. unfold run.
  destruct (generateMonthSummary_escalates dateOf systemPrompt cacheDir monthFile
              outputDir content e0 w Hdoc Hmiss Hllm He0) as (-> & Hr & Hl & Hc).
  fold monthName in Hr, Hl, Hc |- *.
  set (w1 := Effects.sent _ _) in *.
  assert (Hn : length (Effects.requests w1) = n + 1).
  { rewrite Hr, length_app. reflexivity. }
  destruct Hhalves as [(-> & H1) | (-> & (t & H1) & H2)].
  - rewrite (summarizeInTwo_first_fails _ _ _ _ _ e), He by (rewrite Hl, Hn; exact H1).
    cbn [fst snd Effects.sent Effects.cache Effects.requests].
    rewrite Hc, Hr. split; [reflexivity|]. split; [reflexivity|].
    now rewrite <- app_assoc.
  - rewrite (summarizeInTwo_second_fails _ _ _ _ _ t e), He
      by (rewrite Hl, Hn; first [exact H1 | rewrite <- H2; f_equal; lia]).
    cbn [fst snd Effects.sent Effects.cache Effects.requests].
    rewrite Hc, Hr. split; [reflexivity|]. split; [reflexivity|].
    now rewrite <- !app_assoc.
Qed.

Lemma generateMonthSummary_two_parts_service_error_witness :
  fst (Sample.run (Sample.world ∅ 1000 Scenario.halfRateLimited)) =
    Effects.Return
      (Summarizer.heading "February 2021" +:+ "Error generating summary: " +:+
       "429 Rate limit reached") /\
  Effects.cache (snd (Sample.run (Sample.world ∅ 1000 Scenario.halfRateLimited))) = ∅.
Proof.
  destruct (generateMonthSummary_two_parts_service_error Sample.dateOf "PROMPT" "cache"
              "2021-02.md" "output" Sample.document
              "Input tokens exceed the configured limit" "429 Rate limit reached"
              [firstRequest "PROMPT" "February 2021" Sample.document;
               secondRequest "PROMPT" "February 2021" Sample.document]
              (Sample.world ∅ 1000 Scenario.halfRateLimited)
              ltac:(reflexivity) ltac:(reflexivity) ltac:(reflexivity)
              ltac:(reflexivity)
              ltac:(right; split; [reflexivity | split; [eexists; reflexivity | reflexivity]])
              ltac:(reflexivity))
    as (H1 & H2 & _).
  split; [exact H1 | exact H2].
Defined.

(** ** Counting the calls to the service *)

Section CallFacts.
Import JS Splitter Effects Summarizer.

Lemma calls_weaken {A} (r t r' t' : nat) (m : M A) :
  calls r t m -> r <= r' -> t <= t' -> calls r' t' m.
Proof.
  intros H Hr Ht w. specialize (H w). destruct (m w) as [[a|e] w']; lia.
Qed.

Lemma calls_ret {A} (a : A) : calls 0 0 (ret a).
Proof. intros w. simpl. lia. Qed.

Lemma calls_throw {A} (e : string) : calls 0 0 (throw (A := A) e).
Proof. intros w. simpl. lia. Qed.

Lemma calls_bind {A B} (r1 t1 r2 t2 : nat) (m : M A) (k : A -> M B) :
  calls r1 t1 m -> (forall a, calls r2 t2 (k a)) ->
  calls (r1 + r2) (Nat.max t1 (r1 + t2)) (bind m k).
Proof.
  intros Hm Hk w. unfold bind. specialize (Hm w).
  destruct (m w) as [[a|e] w1]; [|lia].
  specialize (Hk a w1). destruct (k a w1) as [[b|e] w2]; lia.
Qed.

Lemma calls_tryCatch {A} (r1 t1 r2 t2 : nat) (m : M A) (h : string -> M A) :
  calls r1 t1 m -> (forall e, calls r2 t2 (h e)) ->
  calls (Nat.max r1 (t1 + r2)) (t1 + t2) (tryCatch m h).
Proof.
  intros Hm Hh w. unfold tryCatch. specialize (Hm w).
  destruct (m w) as [[a|e] w1]; [lia|].
  specialize (Hh e w1). destruct (h e w1) as [[b|e'] w2]; lia.
Qed.

Lemma calls_create (r : request) : calls 1 1 (create r).
Proof.
  intros w. unfold create.
  destruct (llm w (length (requests w))); simpl; rewrite length_app; simpl; lia.
Qed.

Lemma calls_Date_now : calls 0 0 Date_now.
Proof. intros w. simpl. lia. Qed.

Lemma calls_writeJson (q : string) (d : cacheData) : calls 0 0 (writeJson q d).
Proof. intros w. simpl. lia. Qed.

Lemma calls_readFileSync (q : string) : calls 0 0 (readFileSync q).
Proof. intros w. unfold readFileSync. destruct (documents w !! q); simpl; lia. Qed.

Variable dateOf : string -> option (nat * nat).
Variable systemPrompt : string.
Variable cacheDir : string.

Lemma calls_getCachedSummary (monthFile : string) :
  calls 0 0 (getCachedSummary cacheDir monthFile).
Proof.
  intros w. destruct (getCachedSummary_world cacheDir monthFile w) as (_ & Hr & _).
  destruct (getCachedSummary cacheDir monthFile w) as [[o|e] w1]; simpl in *;
    rewrite Hr; lia.
Qed.

Lemma calls_saveToCache (monthFile text : string) :
  calls 0 0 (saveToCache cacheDir monthFile text).
Proof. intros w. rewrite saveToCache_run. simpl. lia. Qed.

Lemma calls_generateOneSentenceSummary (monthFile fullSummary : string) :
  calls 1 0 (generateOneSentenceSummary cacheDir monthFile fullSummary).
Proof.
  intros w.
  destruct (generateOneSentenceSummary_returns cacheDir monthFile fullSummary w)
    as (one & w1 & -> & _ & [-> | ->]); [lia|].
  rewrite length_app. simpl. lia.
Qed.

(** A computation that always returns adds nothing when it throws. *)
Lemma calls_sure {A} (Q : A -> Prop) (r t : nat) (m : M A) :
  returns Q m -> calls r t m -> calls r 0 m.
Proof.
  intros Hs H w. specialize (H w). destruct (Hs w) as (a & w' & E & _).
  rewrite E in *. exact H.
Qed.

Lemma calls_finish (monthFile monthName formatted : string) :
  calls 1 0 (finish cacheDir monthFile monthName formatted).
Proof.
  apply (calls_sure (fun _ => True) 1 1).
  - intros w. destruct (finish_run cacheDir monthFile monthName formatted w)
      as (one & w1 & _ & ->). eauto.
  - unfold finish. eapply calls_weaken.
    + apply calls_bind; [apply calls_generateOneSentenceSummary|]. intros one.
      apply calls_bind; [apply calls_saveToCache | intros ?; apply calls_ret].
    + simpl. lia.
    + simpl. lia.
Qed.

Lemma calls_summarizeQuarters (monthName : string) (rest : list string) :
  forall i acc,
    calls (length rest) (length rest) (summarizeQuarters systemPrompt monthName rest i acc).
Proof.
  induction rest as [|quarter rest IH]; intros i acc; cbn [summarizeQuarters].
  - apply calls_ret.
  - destruct (quarterNames !! i).
    + eapply calls_weaken.
      * apply calls_bind; [apply calls_create | intros c; apply IH].
      * simpl. lia.
      * simpl. lia.
    + eapply calls_weaken; [apply calls_throw | lia | lia].
Qed.

Lemma calls_combineFourSummaries (summaries : list string) (monthName : string) :
  calls 1 0 (combineFourSummaries summaries monthName).
Proof.
  intros w. rewrite combineFourSummaries_run. simpl. rewrite length_app. simpl. lia.
Qed.

Lemma calls_combine_finish (monthFile monthName : string) (summaries : list string) :
  calls 2 0
    (bind (combineFourSummaries summaries monthName)
       (fun combined =>
          finish cacheDir monthFile monthName (heading monthName +:+ combined))).
Proof.
  apply (calls_sure (fun _ => True) 2 1).
  - intros w. unfold bind. rewrite combineFourSummaries_run.
    destruct (finish_run cacheDir monthFile monthName
                (heading monthName +:+
                 match llm w (length (requests w)) with
                 | Content text => trim text
                 | Failure _ => join (nl +:+ nl) summaries
                 end)
                (sent (combineFourRequest summaries monthName) w))
      as (one & w1 & _ & ->). eauto.
  - eapply calls_weaken.
    + apply calls_bind; [apply calls_combineFourSummaries|]. intros c.
      apply calls_finish.
    + simpl. lia.
    + simpl. lia.
Qed.

Lemma calls_summarizeInFour (monthFile monthName content : string) :
  calls 6 0 (summarizeInFour systemPrompt cacheDir monthFile monthName content).
Proof.
  apply (calls_sure (outputShape monthName) 6 4); [apply summarizeInFour_shape|].
  unfold summarizeInFour. cbv zeta. eapply calls_weaken.
  - apply (calls_tryCatch 6 4 0 0); [|intros e; apply calls_ret].
    eapply calls_weaken.
    + apply (calls_bind 4 4 2 0); [apply calls_summarizeQuarters|]. intros summaries.
      apply calls_combine_finish.
    + simpl. lia.
    + simpl. lia.
  - simpl. lia.
  - simpl. lia.
Qed.

Lemma calls_summarizeInTwo (monthFile monthName content : string) :
  calls 8 0 (summarizeInTwo systemPrompt cacheDir monthFile monthName content).
Proof.
  apply (calls_sure (outputShape monthName) 8 2); [apply summarizeInTwo_shape|].
  unfold summarizeInTwo. cbv zeta. eapply calls_weaken.
  - apply (calls_tryCatch 3 2 6 0).
    + eapply calls_weaken.
      * apply (calls_bind 1 1 2 1); [apply calls_create|]. intros c1.
        eapply calls_weaken.
        -- apply (calls_bind 1 1 1 0); [apply calls_create|]. intros c2.
           apply calls_finish.
        -- simpl. lia.
        -- simpl. lia.
      * simpl. lia.
      * simpl. lia.
    + intros e. destruct (isTokenLimit e).
      * apply calls_summarizeInFour.
      * eapply calls_weaken; [apply calls_ret | lia | lia].
  - simpl. lia.
  - simpl. lia.
Qed.

Lemma calls_summarizeWhole (monthFile monthName content : string) :
  calls 9 0 (summarizeWhole systemPrompt cacheDir monthFile monthName content).
Proof.
  apply (calls_sure (outputShape monthName) 9 1); [apply summarizeWhole_shape|].
  unfold summarizeWhole. cbv zeta. eapply calls_weaken.
  - apply (calls_tryCatch 2 1 8 0).
    + eapply calls_weaken.
      * apply (calls_bind 1 1 1 0); [apply calls_create|]. intros c.
        destruct (_ || _).
        -- eapply calls_weaken.
           ++ apply calls_bind; [apply calls_saveToCache | intros ?; apply calls_ret].
           ++ simpl. lia.
           ++ simpl. lia.
        -- apply calls_finish.
      * simpl. lia.
      * simpl. lia.
    + intros e. destruct (isTokenLimit e).
      * apply calls_summarizeInTwo.
      * eapply calls_weaken; [apply calls_ret | lia | lia].
  - simpl. lia.
  - simpl. lia.
Qed.

Lemma calls_generateMonthSummary (monthFile outputDir : string) :
  calls 9 1 (generateMonthSummary dateOf systemPrompt cacheDir monthFile outputDir).
Proof.
  unfold generateMonthSummary. cbv zeta. eapply calls_weaken.
  - apply (calls_bind 0 0 9 1); [apply calls_readFileSync|]. intros content.
    apply (calls_bind 0 0 9 1); [apply calls_getCachedSummary|]. intros cached.
    destruct (truthy_opt cached);
      [|eapply calls_weaken; [apply calls_summarizeWhole | lia | lia]].
    destruct cached as [c|]; [|eapply calls_weaken; [apply calls_ret | lia | lia]].
    eapply calls_weaken.
    + apply calls_bind; [apply calls_generateOneSentenceSummary|].
      intros one. apply calls_ret.
    + simpl. lia.
    + simpl. lia.
  - simpl. lia.
  - simpl. lia.
Qed.

End CallFacts.

(** X7. The escalation is bounded: one run of [generateMonthSummary] never
    makes more than nine calls to the service (the whole, two halves, four
    quarters, the combination, the digest), whatever the service answers, and
    a run served from the cache makes at most one. *)
Theorem generateMonthSummary_call_bound
    (dateOf : string -> option (nat * nat))
    (systemPrompt cacheDir monthFile outputDir : string) (w : Effects.world) :
  let run := Summarizer.generateMonthSummary dateOf systemPrompt cacheDir
               monthFile outputDir w in
  length (Effects.requests (snd run)) <= length (Effects.requests w) + 9 /\
  (forall cached,
     fst (Summarizer.getCachedSummary cacheDir monthFile w) = Effects.Return (Some cached) ->
     length (Effects.requests (snd run)) <= length (Effects.requests w) + 1).
Proof.
  intros run. split.
  - pose proof (calls_generateMonthSummary dateOf systemPrompt cacheDir monthFile
                  outputDir w) as H.
    fold run in H. destruct run as [[a|e] w']; simpl; lia.
  - intros cached Hhit. unfold run.
    destruct (Effects.documents w !! Effects.path_join outputDir monthFile)
      as [content|] eqn:Hdoc.
    + destruct (generateMonthSummary_hit dateOf systemPrompt cacheDir monthFile
                  outputDir content cached w Hdoc Hhit) as (one & w1 & Ed & ->).
      pose proof (calls_generateOneSentenceSummary cacheDir monthFile cached
                    (Effects.tick w)) as H.
      rewrite Ed in H. exact H.
    + unfold Summarizer.generateMonthSummary, Effects.bind at 1, Effects.readFileSync.
      rewrite Hdoc. simpl. lia.
Qed.

(** The bound of nine calls is reached. *)
Example nine_calls :
  length (Effects.requests (snd (Sample.run (Sample.world ∅ 1000 Scenario.worstCase)))) = 9.
Proof. reflexivity. Qed.

Lemma generateMonthSummary_call_bound_witness :
  length (Effects.requests
            (snd (Sample.run (Sample.world Sample.februaryCached 1000 Sample.greets)))) <= 1.
Proof.
  apply (proj2 (generateMonthSummary_call_bound Sample.dateOf "PROMPT" "cache"
                  "2021-02.md" "output"
                  (Sample.world Sample.februaryCached 1000 Sample.greets))
           ("## February 2021" +:+ JS.nl +:+ JS.nl +:+ "The team said hello.")).
  reflexivity.
Defined.

(** ** A failed document is not cached, any other is *)

Section SettleFacts.
Import JS Splitter Effects Summarizer.

Variable dateOf : string -> option (nat * nat).
Variable systemPrompt : string.
Variable cacheDir : string.

Lemma summarizeQuarters_cache (monthName : string) (rest : list string)
    (i : nat) (acc : list string) (w : world) :
  cache (snd (summarizeQuarters systemPrompt monthName rest i acc w)) = cache w.
Proof.
  revert i acc w. induction rest as [|quarter rest IH]; intros i acc w;
    cbn [summarizeQuarters]; [reflexivity|].
  destruct (quarterNames !! i); [|reflexivity].
  unfold bind, create.
  destruct (llm w (length (requests w))); [|reflexivity].
  now rewrite IH.
Qed.

Local Ltac settle_finish :=
  match goal with
  | |- context [finish ?a ?b ?c ?d ?w] =>
      let one := fresh "one" in
      let w2 := fresh "w" in
      let E := fresh "E" in
      destruct (finish_run a b c d w) as (one & w2 & _ & E);
      rewrite E; right; left; eauto
  end.

Lemma settles_error (monthFile monthName e : string) (w0 w : world) :
  cache w = cache w0 ->
  settles cacheDir monthFile monthName w0 (Return (errorBlock monthName e), w).
Proof. intros H. left. eauto. Qed.

Lemma settles_summarizeInFour (monthFile monthName content : string) (w0 w : world) :
  cache w = cache w0 ->
  settles cacheDir monthFile monthName w0
    (summarizeInFour systemPrompt cacheDir monthFile monthName content w).
Proof.
  intros Hc. unfold summarizeInFour, tryCatch, bind. cbv zeta.
  pose proof (summarizeQuarters_cache monthName (splitMonthContentIntoFour content)
                0 [] w) as Hq.
  destruct (summarizeQuarters _ _ _ _ _ w) as [[summaries|e] w1]; simpl in Hq.
  - rewrite combineFourSummaries_run. settle_finish.
  - apply settles_error. congruence.
Qed.

Lemma settles_summarizeInTwo (monthFile monthName content : string) (w0 w : world) :
  cache w = cache w0 ->
  settles cacheDir monthFile monthName w0
    (summarizeInTwo systemPrompt cacheDir monthFile monthName content w).
Proof.
  intros Hc. unfold summarizeInTwo, tryCatch, bind. cbv zeta.
  assert (Hcatch : forall e w', cache w' = cache w0 ->
            settles cacheDir monthFile monthName w0
              ((if isTokenLimit e
                then summarizeInFour systemPrompt cacheDir monthFile monthName content
                else ret (errorBlock monthName e)) w')).
  { intros e w' Hw'. destruct (isTokenLimit e).
    - now apply settles_summarizeInFour.
    - now apply settles_error. }
  unfold create at 1. destruct (llm w (length (requests w))) as [text1|e];
    [|apply Hcatch; exact Hc].
  unfold create at 1.
  destruct (llm (sent _ w) (length (requests (sent _ w)))) as [text2|e];
    [|apply Hcatch; exact Hc].
  settle_finish.
Qed.

Lemma settles_summarizeWhole (monthFile monthName content : string) (w0 w : world) :
  cache w = cache w0 ->
  settles cacheDir monthFile monthName w0
    (summarizeWhole systemPrompt cacheDir monthFile monthName content w).
Proof.
  intros Hc. unfold summarizeWhole, tryCatch, bind. cbv zeta.
  unfold create at 1. destruct (llm w (length (requests w))) as [text|e].
  - destruct (negb (truthy (trim text)) || (String.length (trim text) <? 10)).
    + rewrite saveToCache_run. right. right. eauto.
    + settle_finish.
  - destruct (isTokenLimit e).
    + now apply settles_summarizeInTwo.
    + now apply settles_error.
Qed.

(** The three kinds of text are told apart by what follows the heading. *)
Lemma errorBlock_not_summary (monthFile e body one : string) :
  errorBlock (monthNameOf dateOf monthFile) e <>
  withTldr (monthNameOf dateOf monthFile)
    (heading (monthNameOf dateOf monthFile) +:+ body) one.
Proof.
  rewrite (withTldr_headed _ _ _ (monthNameOf_dollarFree dateOf monthFile)).
  unfold errorBlock. intros E. apply String.app_inj in E. discriminate.
Qed.

Lemma errorBlock_not_placeholder (monthName e : string) :
  errorBlock monthName e <> placeholder monthName.
Proof.
  unfold errorBlock, placeholder. intros E. apply String.app_inj in E. discriminate.
Qed.

End SettleFacts.

(** X8. On a cache miss, [generateMonthSummary] either fails and leaves the
    cache as it was, so that the next run tries again, or caches what it
    returns: it returns the inline error block exactly when it wrote nothing,
    and otherwise the cache holds, under the path of the month, the returned
    text without its digest. *)
Theorem generateMonthSummary_fails_or_caches
    (dateOf : string -> option (nat * nat))
    (systemPrompt cacheDir monthFile outputDir content : string) (w : Effects.world) :
  Effects.documents w !! Effects.path_join outputDir monthFile = Some content ->
  fst (Summarizer.getCachedSummary cacheDir monthFile w) = Effects.Return None ->
  let monthName := Summarizer.monthNameOf dateOf monthFile in
  let path := Summarizer.getCacheFilePath cacheDir monthFile in
  exists text w',
    Summarizer.generateMonthSummary dateOf systemPrompt cacheDir monthFile outputDir w =
      (Effects.Return text, w') /\
    ((exists e, text = Summarizer.errorBlock monthName e) ->
     Effects.cache w' = Effects.cache w) /\
    ((forall e, text <> Summarizer.errorBlock monthName e) ->
     exists body stamp,
       Effects.cache w' !! path =
         Some (Effects.Json
                 (summaryRecord stamp monthFile (Summarizer.heading monthName +:+ body))) /\
       (text = Summarizer.heading monthName +:+ body \/
        exists one,
          text = Summarizer.withTldr monthName (Summarizer.heading monthName +:+ body) one)).
Proof.
  intros Hdoc Hmiss monthName path. subst monthName path.
  rewrite (generateMonthSummary_miss _ _ _ _ _ _ _ Hdoc Hmiss).
  destruct (getCachedSummary_world cacheDir monthFile w) as (_ & _ & _ & Hc & _).
  destruct (settles_summarizeWhole systemPrompt cacheDir monthFile
              (Summarizer.monthNameOf dateOf monthFile) content w
              _ Hc) as [(e & w' & -> & Hw') | [(body & one & w1 & ->) | (w1 & ->)]].
  - eexists _, _. split; [reflexivity|]. split; [intros _; exact Hw'|].
    intros H. now destruct (H e).
  - eexists _, _. split; [reflexivity|]. split.
    + intros [e E]. symmetry in E. now apply errorBlock_not_summary in E.
    + intros _. exists body, (Effects.clock w1 (Effects.ticks w1)).
      split; [apply lookup_insert_eq | right; now exists one].
  - eexists _, _. split; [reflexivity|]. split.
    + intros [e E]. symmetry in E. now apply errorBlock_not_placeholder in E.
    + intros _.
      exists "No significant activity recorded for this month.",
             (Effects.clock w1 (Effects.ticks w1)).
      split; [apply lookup_insert_eq | now left].
Qed.

Lemma generateMonthSummary_fails_or_caches_witness :
  exists text w',
    Sample.run (Sample.world ∅ 1000 Sample.rateLimited) = (Effects.Return text, w') /\
    ((exists e, text = Summarizer.errorBlock "February 2021" e) -> Effects.cache w' = ∅).
Proof.
  destruct (generateMonthSummary_fails_or_caches Sample.dateOf "PROMPT" "cache"
              "2021-02.md" "output" Sample.document
              (Sample.world ∅ 1000 Sample.rateLimited)
              ltac:(reflexivity) ltac:(reflexivity))
    as (text & w' & E & Hfail & _).
  exists text, w'. split; [exact E | exact Hfail].
Defined.

(** ** What a run leaves alone *)

Section StageInvariant.
Import JS Splitter Effects Summarizer.

Variable I : world -> Prop.
Variable dateOf : string -> option (nat * nat).
Variable systemPrompt : string.
Variable cacheDir : string.
Variable monthFile : string.

Hypothesis I_tick : forall w, I w -> I (tick w).
Hypothesis I_sent : forall r w, I w -> I (sent r w).
Hypothesis I_summary :
  forall d w, I w -> I (stored (getCacheFilePath cacheDir monthFile) (Json d) w).
Hypothesis I_digest :
  forall d w, I w -> I (stored (oneSentenceCachePath cacheDir monthFile) (Json d) w).

Lemma inv_getCachedSummary : keeps I (getCachedSummary cacheDir monthFile).
Proof.
  intros w H. destruct (getCachedSummary_world cacheDir monthFile w) as ([->| ->] & _);
    auto.
Qed.

Lemma inv_generateOneSentenceSummary (fullSummary : string) :
  keeps I (generateOneSentenceSummary cacheDir monthFile fullSummary).
Proof.
  intros w H. rewrite generateOneSentenceSummary_run, cachedOneSentence_run.
  destruct (cache w !! oneSentenceCachePath cacheDir monthFile) as [[|d]|].
  - destruct (llm w (length (requests w))); simpl; auto.
  - destruct (validDigest _ d); simpl; [auto|].
    destruct (llm w (length (requests w))); simpl; auto.
  - destruct (llm w (length (requests w))); simpl; auto.
Qed.

Lemma inv_saveToCache (text : string) : keeps I (saveToCache cacheDir monthFile text).
Proof. intros w H. rewrite saveToCache_run. simpl. unfold saved. auto. Qed.

Lemma inv_finish (monthName formatted : string) :
  keeps I (finish cacheDir monthFile monthName formatted).
Proof.
  unfold finish.
  apply keeps_bind; [apply inv_generateOneSentenceSummary|]. intros one.
  apply keeps_bind; [apply inv_saveToCache | intros ?; apply keeps_ret].
Qed.

Lemma inv_summarizeQuarters (monthName : string) (rest : list string) :
  forall i acc, keeps I (summarizeQuarters systemPrompt monthName rest i acc).
Proof.
  induction rest as [|quarter rest IH]; intros i acc; cbn [summarizeQuarters].
  - apply keeps_ret.
  - destruct (quarterNames !! i).
    + apply keeps_bind; [now apply keeps_create|]. intros c. apply IH.
    + intros w H. exact H.
Qed.

Lemma inv_summarizeInFour (monthName content : string) :
  keeps I (summarizeInFour systemPrompt cacheDir monthFile monthName content).
Proof.
  unfold summarizeInFour, combineFourSummaries. cbv zeta.
  apply keeps_tryCatch; [|intros e; apply keeps_ret].
  apply keeps_bind; [apply inv_summarizeQuarters|]. intros summaries.
  apply keeps_bind; [|intros combined; apply inv_finish].
  apply keeps_tryCatch; [|intros e; apply keeps_ret].
  apply keeps_bind; [now apply keeps_create | intros c; apply keeps_ret].
Qed.

Lemma inv_summarizeInTwo (monthName content : string) :
  keeps I (summarizeInTwo systemPrompt cacheDir monthFile monthName content).
Proof.
  unfold summarizeInTwo. cbv zeta. apply keeps_tryCatch.
  - apply keeps_bind; [now apply keeps_create|]. intros c1.
    apply keeps_bind; [now apply keeps_create|]. intros c2.
    apply inv_finish.
  - intros e. destruct (isTokenLimit e); [apply inv_summarizeInFour | apply keeps_ret].
Qed.

Lemma inv_summarizeWhole (monthName content : string) :
  keeps I (summarizeWhole systemPrompt cacheDir monthFile monthName content).
Proof.
  unfold summarizeWhole. cbv zeta. apply keeps_tryCatch.
  - apply keeps_bind; [now apply keeps_create|]. intros c.
    destruct (_ || _).
    + apply keeps_bind; [apply inv_saveToCache | intros ?; apply keeps_ret].
    + apply inv_finish.
  - intros e. destruct (isTokenLimit e); [apply inv_summarizeInTwo | apply keeps_ret].
Qed.

Lemma inv_generateMonthSummary (outputDir : string) :
  keeps I (generateMonthSummary dateOf systemPrompt cacheDir monthFile outputDir).
Proof.
  unfold generateMonthSummary. cbv zeta.
  apply keeps_bind; [apply keeps_readFileSync|]. intros content.
  apply keeps_bind; [apply inv_getCachedSummary|]. intros cached.
  destruct (truthy_opt cached); [|apply inv_summarizeWhole].
  destruct cached as [c|]; [|apply keeps_ret].
  apply keeps_bind; [apply inv_generateOneSentenceSummary|]. intros one.
  apply keeps_ret.
Qed.

End StageInvariant.

Section FrameFacts.
Import JS Splitter Effects Summarizer.

Variable dateOf : string -> option (nat * nat).
Variable systemPrompt : string.
Variable cacheDir : string.

(** A run for a month changes no cache file but the two of that month. *)
Lemma generateMonthSummary_frame (monthFile outputDir q : string) (w : world) :
  q <> getCacheFilePath cacheDir monthFile ->
  q <> oneSentenceCachePath cacheDir monthFile ->
  cache (snd (generateMonthSummary dateOf systemPrompt cacheDir monthFile outputDir w)) !! q
  = cache w !! q.
Proof.
  intros H1 H2.
  apply (inv_generateMonthSummary (fun w' => cache w' !! q = cache w !! q)
           dateOf systemPrompt cacheDir monthFile); auto.
  - intros d w' H. simpl. now rewrite lookup_insert_ne.
  - intros d w' H. simpl. now rewrite lookup_insert_ne.
Qed.

(** A run deletes no cache file. *)
Lemma generateMonthSummary_keeps_files (monthFile outputDir q : string) (w : world) :
  is_Some (cache w !! q) ->
  is_Some (cache (snd (generateMonthSummary dateOf systemPrompt cacheDir monthFile
                         outputDir w)) !! q).
Proof.
  apply (inv_generateMonthSummary (fun w' => is_Some (cache w' !! q))
           dateOf systemPrompt cacheDir monthFile); auto.
  - intros d w' H. simpl. destruct (decide (getCacheFilePath cacheDir monthFile = q)) as [->|ne].
    + rewrite lookup_insert_eq. eauto.
    + now rewrite lookup_insert_ne.
  - intros d w' H. simpl.
    destruct (decide (oneSentenceCachePath cacheDir monthFile = q)) as [->|ne].
    + rewrite lookup_insert_eq. eauto.
    + now rewrite lookup_insert_ne.
Qed.

(** A run changes no monthly document. *)
Lemma generateMonthSummary_documents (monthFile outputDir : string) (w : world) :
  documents (snd (generateMonthSummary dateOf systemPrompt cacheDir monthFile outputDir w))
  = documents w.
Proof.
  apply (inv_generateMonthSummary (fun w' => documents w' = documents w)
           dateOf systemPrompt cacheDir monthFile); auto.
Qed.

End FrameFacts.

(** X9. A run of [generateMonthSummary] for a month touches nothing but the
    two cache files of that month: every other cache file is as it was, no
    cache file is deleted and the monthly documents are not changed. *)
Theorem generateMonthSummary_touches_only_its_files
    (dateOf : string -> option (nat * nat))
    (systemPrompt cacheDir monthFile outputDir : string) (w : Effects.world) :
  let after :=
    snd (Summarizer.generateMonthSummary dateOf systemPrompt cacheDir monthFile outputDir w) in
  (forall q,
     q <> Summarizer.getCacheFilePath cacheDir monthFile ->
     q <> Summarizer.oneSentenceCachePath cacheDir monthFile ->
     Effects.cache after !! q = Effects.cache w !! q) /\
  (forall q, is_Some (Effects.cache w !! q) -> is_Some (Effects.cache after !! q)) /\
  Effects.documents after = Effects.documents w.
Proof.
  intros after. split; [|split].
  - intros q. apply generateMonthSummary_frame.
  - intros q. apply generateMonthSummary_keeps_files.
  - apply generateMonthSummary_documents.
Qed.

Lemma generateMonthSummary_touches_only_its_files_witness :
  Effects.cache (snd (Sample.run (Sample.world Scenario.marchCached 1000 Sample.greets)))
    !! "cache/2021-03.json" =
  Scenario.marchCached !! "cache/2021-03.json".
Proof.
  apply (proj1 (generateMonthSummary_touches_only_its_files Sample.dateOf "PROMPT"
                  "cache" "2021-02.md" "output"
                  (Sample.world Scenario.marchCached 1000 Sample.greets))
           "cache/2021-03.json"); vm_compute; discriminate.
Defined.

(** ** The monthly files *)

Section ListingFacts.
Import JS Listing.

Lemma monthlyPattern_inv (file : string) :
  monthlyPattern file = true ->
  exists y1 y2 y3 y4 m1 m2,
    file = String y1 (String y2 (String y3 (String y4
             (String "-" (String m1 (String m2 ".md")))))) /\
    isDigit y1 = true /\ isDigit y2 = true /\ isDigit y3 = true /\
    isDigit y4 = true /\ isDigit m1 = true /\ isDigit m2 = true.
Proof.
  unfold monthlyPattern.
  destruct file as [|c1 [|c2 [|c3 [|c4 [|c5 [|c6 [|c7 [|c8 [|c9 [|c10 [|c11 r]]]]]]]]]]];
    cbn [list_ascii_of_string]; try discriminate.
  intros H. rewrite !andb_true_iff, !Ascii.eqb_eq in H.
  destruct H as [[[[[[[[[H1 H2] H3] H4] ->] H6] H7] ->] ->] ->].
  exists c1, c2, c3, c4, c6, c7. repeat split; assumption.
Qed.

Lemma monthlyPattern_endsWith (file : string) :
  monthlyPattern file = true -> endsWith file ".md" = true.
Proof.
  intros H. destruct (monthlyPattern_inv _ H) as (y1 & y2 & y3 & y4 & m1 & m2 & -> & _).
  reflexivity.
Qed.

Lemma isDigit_range (c : ascii) :
  isDigit c = true -> 48 <= nat_of_ascii c <= 57.
Proof.
  unfold isDigit. intros H. apply andb_prop in H. destruct H as [H1 H2].
  apply Nat.leb_le in H1. apply Nat.leb_le in H2. lia.
Qed.

Lemma ascii_compare_nat (a b : ascii) :
  Ascii.compare a b = Nat.compare (nat_of_ascii a) (nat_of_ascii b).
Proof. unfold Ascii.compare, nat_of_ascii. apply N2Nat.inj_compare. Qed.

Lemma ascii_compare_refl (a : ascii) : Ascii.compare a a = Eq.
Proof. rewrite ascii_compare_nat. apply Nat.compare_refl. Qed.

Lemma isDigit_value (c : ascii) :
  isDigit c = true -> nat_of_ascii c = 48 + digitValue c /\ digitValue c <= 9.
Proof. intros H. apply isDigit_range in H. unfold digitValue. lia. Qed.

Local Ltac order_lt := cbv beta iota delta [Is_true]; split; [intros _; lia|tauto].
Local Ltac order_gt := cbv beta iota delta [Is_true]; split; [tauto|lia].

(** On monthly file names the order of [sort()] is the order of time. *)
Lemma monthly_le_iff (a b : string) :
  monthlyPattern a = true -> monthlyPattern b = true ->
  String.le a b <-> monthNumber a <= monthNumber b.
Proof.
  intros Ha Hb.
  destruct (monthlyPattern_inv _ Ha)
    as (a1 & a2 & a3 & a4 & a5 & a6 & -> & A1 & A2 & A3 & A4 & A5 & A6).
  destruct (monthlyPattern_inv _ Hb)
    as (b1 & b2 & b3 & b4 & b5 & b6 & -> & B1 & B2 & B3 & B4 & B5 & B6).
  apply isDigit_value in A1, A2, A3, A4, A5, A6, B1, B2, B3, B4, B5, B6.
  unfold String.le, String.leb, monthNumber.
  cbn [String.compare list_ascii_of_string].
  rewrite (ascii_compare_nat a1), (ascii_compare_nat a2), (ascii_compare_nat a3),
    (ascii_compare_nat a4), (ascii_compare_nat a5), (ascii_compare_nat a6).
  destruct A1 as [-> A1], A2 as [-> A2], A3 as [-> A3], A4 as [-> A4],
    A5 as [-> A5], A6 as [-> A6], B1 as [-> B1], B2 as [-> B2], B3 as [-> B3],
    B4 as [-> B4], B5 as [-> B5], B6 as [-> B6].
  set (x1 := digitValue a1) in *. set (x2 := digitValue a2) in *.
  set (x3 := digitValue a3) in *. set (x4 := digitValue a4) in *.
  set (x5 := digitValue a5) in *. set (x6 := digitValue a6) in *.
  set (y1 := digitValue b1) in *. set (y2 := digitValue b2) in *.
  set (y3 := digitValue b3) in *. set (y4 := digitValue b4) in *.
  set (y5 := digitValue b5) in *. set (y6 := digitValue b6) in *.
  clearbody x1 x2 x3 x4 x5 x6 y1 y2 y3 y4 y5 y6.
  rewrite !ascii_compare_refl.
  destruct (Nat.compare_spec (48 + x1) (48 + y1)); [|order_lt|order_gt].
  destruct (Nat.compare_spec (48 + x2) (48 + y2)); [|order_lt|order_gt].
  destruct (Nat.compare_spec (48 + x3) (48 + y3)); [|order_lt|order_gt].
  destruct (Nat.compare_spec (48 + x4) (48 + y4)); [|order_lt|order_gt].
  destruct (Nat.compare_spec (48 + x5) (48 + y5)); [|order_lt|order_gt].
  destruct (Nat.compare_spec (48 + x6) (48 + y6)); [|order_lt|order_gt].
  order_lt.
Qed.

Lemma getMonthlyFiles_elem (files : list string) (file : string) :
  file ∈ getMonthlyFiles files <-> file ∈ files /\ monthlyPattern file = true.
Proof.
  unfold getMonthlyFiles. rewrite merge_sort_Permutation.
  rewrite list_elem_of_In, filter_In, <- list_elem_of_In.
  split; intros [H1 H2]; split; auto.
  - apply andb_prop in H2. tauto.
  - rewrite H2, (monthlyPattern_endsWith _ H2). reflexivity.
Qed.

Lemma getMonthlyFiles_sorted (files : list string) :
  StronglySorted String.le (getMonthlyFiles files).
Proof. apply StronglySorted_merge_sort; apply _. Qed.

End ListingFacts.

(** X10. [getMonthlyFiles] keeps exactly the listed names of the form
    [YYYY-MM.md] (four digits, a dash, two digits, [.md]), each as often
    as it is listed; the [endsWith] test adds nothing to the pattern. *)
Theorem getMonthlyFiles_selects (files : list string) :
  (forall file,
     file ∈ Listing.getMonthlyFiles files <->
     file ∈ files /\ Listing.monthlyPattern file = true) /\
  Listing.getMonthlyFiles files ≡ₚ List.filter Listing.monthlyPattern files.
Proof.
  split.
  - intros file. apply getMonthlyFiles_elem.
  - unfold Listing.getMonthlyFiles. rewrite merge_sort_Permutation.
    induction files as [|f files IH]; [reflexivity|].
    cbn [List.filter]. destruct (Listing.monthlyPattern f) eqn:E.
    + rewrite (monthlyPattern_endsWith _ E). cbn [andb]. now constructor.
    + rewrite andb_false_r. exact IH.
Qed.

(** X11. The list [getMonthlyFiles] returns is in the order of time: a file
    never stands before the file of an earlier month, whatever the order of
    the directory listing. *)
Theorem getMonthlyFiles_chronological (files : list string) :
  StronglySorted (fun a b => monthNumber a <= monthNumber b)
    (Listing.getMonthlyFiles files).
Proof.
  assert (Hall : Forall (fun f => Listing.monthlyPattern f = true)
                   (Listing.getMonthlyFiles files)).
  { apply Forall_forall. intros f Hf.
    apply getMonthlyFiles_elem in Hf. tauto. }
  pose proof (getMonthlyFiles_sorted files) as Hs.
  induction Hs as [|a l Hs IH Ha]; [constructor|].
  apply Forall_cons in Hall. destruct Hall as [Pa Pl].
  constructor; [apply IH, Pl|].
  rewrite Forall_forall in *. intros b Hb.
  apply monthly_le_iff; auto.
Qed.

(** ** The cache files of the monthly documents *)

Section MonthlyPathFacts.
Import JS Effects Summarizer Listing.

(** The two cache files of a monthly document, when the path of the cache
    directory does not hold [".json"]. *)
Lemma monthly_paths (cacheDir file : string) :
  monthlyPattern file = true ->
  includes cacheDir ".json" = false ->
  getCacheFilePath cacheDir file = cacheDir +:+ "/" +:+ stem file +:+ ".json" /\
  oneSentenceCachePath cacheDir file =
    cacheDir +:+ "/" +:+ stem file +:+ "-onesentence.json".
Proof.
  intros Hf Hd.
  destruct (monthlyPattern_inv _ Hf)
    as (y1 & y2 & y3 & y4 & m1 & m2 & -> & D1 & D2 & D3 & D4 & D5 & D6).
  assert (Hdot : forall c, isDigit c = true -> Ascii.eqb c "." = false).
  { intros c Hc. apply isDigit_range in Hc. apply Ascii.eqb_neq. intros ->.
    vm_compute in Hc. lia. }
  set (st := String y1 (String y2 (String y3 (String y4 (String "-"
               (String m1 (String m2 ""))))))).
  assert (Hst : occurs "." st = false).
  { unfold st. cbn [occurs]. rewrite (Hdot y1), (Hdot y2), (Hdot y3), (Hdot y4), (Hdot m1), (Hdot m2)
      by assumption. reflexivity. }
  assert (Hpath : getCacheFilePath cacheDir
                    (String y1 (String y2 (String y3 (String y4 (String "-"
                       (String m1 (String m2 ".md")))))))
                  = cacheDir +:+ "/" +:+ st +:+ ".json").
  { unfold getCacheFilePath, getCacheDir, path_join. f_equal. f_equal.
    change (String y1 _) with (st +:+ ".md" +:+ "") at 1.
    rewrite (replace_found _ _ ".json" _ _ (search_after_plain "." "md" st "" Hst) eq_refl).
    reflexivity. }
  change (stem _) with st. split; [exact Hpath|].
  unfold oneSentenceCachePath. rewrite Hpath.
  assert (Hs : search ".json" (cacheDir +:+ "/" +:+ st +:+ ".json")
               = Some (cacheDir +:+ "/" +:+ st, "")).
  { change (cacheDir +:+ "/" +:+ st +:+ ".json")
      with (cacheDir +:+ String "/" (st +:+ ".json" +:+ "")).
    rewrite (search_after_separator "/" "." "json" cacheDir _ eq_refl Hd).
    now rewrite (search_after_plain "." "json" st "" Hst). }
  rewrite (replace_found _ _ "-onesentence.json" _ _ Hs eq_refl).
  rewrite !append_assoc. reflexivity.
Qed.

Lemma monthly_stem (file : string) :
  monthlyPattern file = true -> file = stem file +:+ ".md".
Proof.
  intros Hf.
  destruct (monthlyPattern_inv _ Hf) as (y1 & y2 & y3 & y4 & m1 & m2 & -> & _).
  reflexivity.
Qed.

Lemma append_inj_l (a b c : string) : a +:+ b = a +:+ c -> b = c.
Proof.
  induction a as [|x a IH]; [now rewrite !app_nil_l|].
  rewrite !app_cons. intros H. injection H as H. auto.
Qed.

Lemma stem_append (file b : string) :
  monthlyPattern file = true ->
  exists c1 c2 c3 c4 c5 c6 c7,
    stem file +:+ b = String c1 (String c2 (String c3 (String c4 (String c5
                        (String c6 (String c7 b)))))) /\
    stem file = String c1 (String c2 (String c3 (String c4 (String c5
                  (String c6 (String c7 "")))))).
Proof.
  intros Hf.
  destruct (monthlyPattern_inv _ Hf) as (y1 & y2 & y3 & y4 & m1 & m2 & -> & _).
  exists y1, y2, y3, y4, "-"%char, m1, m2. split; reflexivity.
Qed.

(** The cache files of two monthly documents are four files. *)
Lemma monthly_paths_apart (cacheDir f g : string) :
  monthlyPattern f = true -> monthlyPattern g = true ->
  includes cacheDir ".json" = false ->
  f <> g ->
  getCacheFilePath cacheDir g <> getCacheFilePath cacheDir f /\
  getCacheFilePath cacheDir g <> oneSentenceCachePath cacheDir f /\
  oneSentenceCachePath cacheDir g <> getCacheFilePath cacheDir f /\
  oneSentenceCachePath cacheDir g <> oneSentenceCachePath cacheDir f.
Proof.
  intros Hf Hg Hd Hne.
  destruct (monthly_paths cacheDir f Hf Hd) as [-> ->].
  destruct (monthly_paths cacheDir g Hg Hd) as [-> ->].
  assert (Hstem : stem g <> stem f).
  { intros E. apply Hne. now rewrite (monthly_stem f Hf), (monthly_stem g Hg), E. }
  destruct (stem_append f ".json" Hf) as (a1 & a2 & a3 & a4 & a5 & a6 & a7 & Ef & Sf).
  destruct (stem_append g ".json" Hg) as (b1 & b2 & b3 & b4 & b5 & b6 & b7 & Eg & Sg).
  destruct (stem_append f "-onesentence.json" Hf)
    as (p1 & p2 & p3 & p4 & p5 & p6 & p7 & Ef' & Sf').
  destruct (stem_append g "-onesentence.json" Hg)
    as (q1 & q2 & q3 & q4 & q5 & q6 & q7 & Eg' & Sg').
  rewrite Ef, Eg, Ef', Eg'.
  repeat split; intros E; apply append_inj_l, append_inj_l in E;
    try discriminate; apply Hstem; congruence.
Qed.

End MonthlyPathFacts.

(** X12. With a cache directory whose path does not hold [".json"], the
    summary of the document [YYYY-MM.md] is cached in [YYYY-MM.json] of that
    directory and its digest in [YYYY-MM-onesentence.json]; the cache files
    of another monthly document are other files. *)
Theorem monthly_cache_files (cacheDir file : string) :
  Listing.monthlyPattern file = true ->
  JS.includes cacheDir ".json" = false ->
  Summarizer.getCacheFilePath cacheDir file = cacheDir +:+ "/" +:+ stem file +:+ ".json" /\
  Summarizer.oneSentenceCachePath cacheDir file =
    cacheDir +:+ "/" +:+ stem file +:+ "-onesentence.json" /\
  forall other,
    Listing.monthlyPattern other = true -> other <> file ->
    ~ In (Summarizer.getCacheFilePath cacheDir other)
        [Summarizer.getCacheFilePath cacheDir file;
         Summarizer.oneSentenceCachePath cacheDir file] /\
    ~ In (Summarizer.oneSentenceCachePath cacheDir other)
        [Summarizer.getCacheFilePath cacheDir file;
         Summarizer.oneSentenceCachePath cacheDir file].
Proof.
  intros Hf Hd. destruct (monthly_paths cacheDir file Hf Hd) as [E1 E2].
  split; [exact E1|]. split; [exact E2|].
  intros other Ho Hne.
  destruct (monthly_paths_apart cacheDir file other Hf Ho Hd (not_eq_sym Hne))
    as (N1 & N2 & N3 & N4).
  split; intros [H|[H|[]]]; congruence.
Qed.

Lemma monthly_cache_files_witness :
  Summarizer.getCacheFilePath ".cache" "2021-02.md" = ".cache/2021-02.json" /\
  Summarizer.oneSentenceCachePath ".cache" "2021-02.md" = ".cache/2021-02-onesentence.json".
Proof.
  destruct (monthly_cache_files ".cache" "2021-02.md" ltac:(reflexivity) ltac:(reflexivity))
    as (E1 & E2 & _).
  split; [exact E1 | exact E2].
Defined.

(** X13. With such a cache directory, a run of [generateMonthSummary] for
    one monthly document leaves the cached summary and the cached digest of
    every other monthly document as they are. *)
Theorem generateMonthSummary_other_months
    (dateOf : string -> option (nat * nat))
    (systemPrompt cacheDir monthFile outputDir other : string) (w : Effects.world) :
  Listing.monthlyPattern monthFile = true ->
  Listing.monthlyPattern other = true ->
  JS.includes cacheDir ".json" = false ->
  other <> monthFile ->
  let after :=
    snd (Summarizer.generateMonthSummary dateOf systemPrompt cacheDir monthFile outputDir w) in
  Effects.cache after !! Summarizer.getCacheFilePath cacheDir other =
    Effects.cache w !! Summarizer.getCacheFilePath cacheDir other /\
  Effects.cache after !! Summarizer.oneSentenceCachePath cacheDir other =
    Effects.cache w !! Summarizer.oneSentenceCachePath cacheDir other.
Proof.
  intros Hf Ho Hd Hne after.
  destruct (monthly_paths_apart cacheDir monthFile other Hf Ho Hd (not_eq_sym Hne))
    as (N1 & N2 & N3 & N4).
  split; apply generateMonthSummary_frame; assumption.
Qed.

Lemma generateMonthSummary_other_months_witness :
  Effects.cache (snd (Sample.run (Sample.world Scenario.marchCached 1000 Sample.greets)))
    !! Summarizer.getCacheFilePath "cache" "2021-03.md" =
  Scenario.marchCached !! Summarizer.getCacheFilePath "cache" "2021-03.md".
Proof.
  apply (generateMonthSummary_other_months Sample.dateOf "PROMPT" "cache" "2021-02.md"
           "output" "2021-03.md" (Sample.world Scenario.marchCached 1000 Sample.greets)
           ltac:(reflexivity) ltac:(reflexivity) ltac:(reflexivity) ltac:(discriminate)).
Defined.

Section IncludesFacts.
Import JS.

Lemma append_nil_r (a : string) : a +:+ "" = a.
Proof. induction a as [|x a IH]; [reflexivity|]. now rewrite app_cons, IH. Qed.

Lemma includes_append (a pat b : string) : includes (a +:+ pat +:+ b) pat = true.
Proof.
  induction a as [|c a IH].
  - rewrite app_nil_l. pose proof (prefix_append pat b) as H.
    destruct (pat +:+ b); cbn [includes]; now rewrite H.
  - rewrite app_cons. cbn [includes]. rewrite IH. apply orb_true_r.
Qed.

End IncludesFacts.

(** X4. A fresh run that succeeds fills the cache so that the next runs are
    served from it. For a monthly file [YYYY-MM.md] and a cache directory
    whose path does not hold [".json"] (so that both cache files lie in the
    cache directory): when no digest file exists and both the call for the
    whole document (ten characters or more) and the digest call (a non-empty
    digest) succeed, the run caches the summary and the digest, and every
    later run that finds both entries at most seven days old returns the
    same text with no call to the service, whatever the document then
    holds. *)
Theorem generateMonthSummary_repeat_from_cache
    (dateOf : string -> option (nat * nat))
    (systemPrompt cacheDir monthFile outputDir content text digest : string)
    (w : Effects.world) :
  Effects.documents w !! Effects.path_join outputDir monthFile = Some content ->
  fst (Summarizer.getCachedSummary cacheDir monthFile w) = Effects.Return None ->
  Effects.cache w !! Summarizer.oneSentenceCachePath cacheDir monthFile = None ->
  Listing.monthlyPattern monthFile = true ->
  JS.includes cacheDir ".json" = false ->
  Effects.llm w (length (Effects.requests w)) = Effects.Content text ->
  10 <= String.length (JS.trim text) ->
  Effects.llm w (length (Effects.requests w) + 1) = Effects.Content digest ->
  JS.trim digest <> "" ->
  let monthName := Summarizer.monthNameOf dateOf monthFile in
  let formatted := Summarizer.heading monthName +:+ JS.trim text in
  let path := Summarizer.getCacheFilePath cacheDir monthFile in
  let digestPath := Summarizer.oneSentenceCachePath cacheDir monthFile in
  let generate :=
    Summarizer.generateMonthSummary dateOf systemPrompt cacheDir monthFile outputDir in
  exists out stampS stampD,
    fst (generate w) = Effects.Return out /\
    Effects.cache (snd (generate w)) !! path =
      Some (Effects.Json (summaryRecord stampS monthFile formatted)) /\
    Effects.cache (snd (generate w)) !! digestPath =
      Some (Effects.Json (digestRecord stampD monthFile (JS.trim digest))) /\
    forall (w2 : Effects.world) (content2 : string),
      Effects.documents w2 !! Effects.path_join outputDir monthFile = Some content2 ->
      Effects.cache w2 !! path = Effects.cache (snd (generate w)) !! path ->
      Effects.cache w2 !! digestPath = Effects.cache (snd (generate w)) !! digestPath ->
      (Effects.clock w2 (Effects.ticks w2) - stampS <= Summarizer.maxAge)%Z ->
      (Effects.clock w2 (S (Effects.ticks w2)) - stampD <= Summarizer.maxAge)%Z ->
      generate w2 = (Effects.Return out, Effects.tick (Effects.tick w2)).
Proof.
  intros Hdoc Hmiss Hop Hmonthly Hdir Hllm Hlen Hdig Hne
    monthName formatted path digestPath generate.
  assert (Hmd : JS.includes monthFile ".md" = true).
  { rewrite (monthly_stem monthFile Hmonthly), <- (append_nil_r ".md").
    apply includes_append. }
  pose proof (digest_path_differs cacheDir monthFile Hmd) as Hpaths.
  fold path digestPath in Hpaths.
  destruct (getCachedSummary_world cacheDir monthFile w) as (_ & Hr & Hl & Hc & _).
  set (w1 := Effects.sent (Summarizer.wholeRequest systemPrompt monthName content)
               (snd (Summarizer.getCachedSummary cacheDir monthFile w))).
  set (w2 := Effects.sent (Summarizer.oneSentenceRequest formatted) w1).
  set (stampD := Effects.clock w1 (Effects.ticks w1)).
  set (w3 := Effects.stored digestPath
               (Effects.Json (digestRecord stampD monthFile (JS.trim digest)))
               (Effects.tick w2)).
  assert (Ed : Summarizer.generateOneSentenceSummary cacheDir monthFile formatted w1 =
               (Effects.Return (JS.trim digest), w3)).
  { rewrite generateOneSentenceSummary_fresh
      by (unfold w1; cbn [Effects.sent Effects.cache]; now rewrite Hc).
    replace (Effects.llm w1 (length (Effects.requests w1))) with (Effects.Content digest);
      [reflexivity|].
    rewrite <- Hdig. unfold w1. cbn [Effects.sent Effects.llm Effects.requests].
    now rewrite Hl, length_app, Hr. }
  assert (Eg : generate w =
               (Effects.Return (Summarizer.withTldr monthName formatted (JS.trim digest)),
                saved cacheDir monthFile formatted w3)).
  { unfold generate.
    rewrite (generateMonthSummary_whole_run dateOf systemPrompt cacheDir monthFile
               outputDir content text w Hdoc Hmiss Hllm Hlen).
    fold monthName formatted w1.
    unfold Summarizer.finish, Effects.bind. now rewrite Ed, saveToCache_run. }
  exists (Summarizer.withTldr monthName formatted (JS.trim digest)),
         (Effects.clock w3 (Effects.ticks w3)), stampD.
  rewrite Eg. cbn [fst snd].
  assert (HS : Effects.cache (saved cacheDir monthFile formatted w3) !! path =
               Some (Effects.Json (summaryRecord (Effects.clock w3 (Effects.ticks w3))
                                     monthFile formatted))).
  { unfold saved. cbn [Effects.stored Effects.cache]. apply lookup_insert_eq. }
  assert (HD : Effects.cache (saved cacheDir monthFile formatted w3) !! digestPath =
               Some (Effects.Json (digestRecord stampD monthFile (JS.trim digest)))).
  { unfold saved. cbn [Effects.stored Effects.cache].
    fold path. rewrite lookup_insert_ne by congruence.
    unfold w3. cbn [Effects.stored Effects.cache]. apply lookup_insert_eq. }
  split; [reflexivity|]. split; [exact HS|]. split; [exact HD|].
  intros v content2 Hdoc2 HvS HvD HageS HageD.
  rewrite HS in HvS. rewrite HD in HvD.
  eapply generateMonthSummary_full_hit_run;
    [exact Hdoc2 | exact HvS | reflexivity | | reflexivity | exact HageS | exact HvD
    | reflexivity | exact Hne | reflexivity | exact HageD].
  unfold formatted. rewrite length_append. lia.
Qed.

Lemma generateMonthSummary_repeat_from_cache_witness :
  exists out,
    fst (Sample.run (Sample.world ∅ 1000 Scenario.summaryThenDigest)) = Effects.Return out /\
    Sample.run (snd (Sample.run (Sample.world ∅ 1000 Scenario.summaryThenDigest))) =
      (Effects.Return out,
       Effects.tick (Effects.tick
         (snd (Sample.run (Sample.world ∅ 1000 Scenario.summaryThenDigest))))).
Proof.
  destruct (generateMonthSummary_repeat_from_cache Sample.dateOf "PROMPT" "cache"
              "2021-02.md" "output" Sample.document
              "The team said hello to each other." " Greetings were exchanged. "
              (Sample.world ∅ 1000 Scenario.summaryThenDigest)
              ltac:(reflexivity) ltac:(reflexivity) ltac:(reflexivity)
              ltac:(reflexivity) ltac:(reflexivity) ltac:(reflexivity)
              ltac:(vm_compute; lia)
              ltac:(reflexivity) ltac:(vm_compute; discriminate))
    as (out & stampS & stampD & Hout & HS & HD & Hnext).
  exists out. split; [exact Hout|].
  apply (Hnext _ Sample.document); try reflexivity.
  - vm_compute in HS. injection HS as <-. vm_compute. discriminate.
  - vm_compute in HD. injection HD as <-. vm_compute. discriminate.
Defined.

(** ** Writing a summary and reading it back *)

(** X14. A summary written by [saveToCache] and still in its file is what
    [getCachedSummary] returns, provided it has at least ten characters and
    the clock has advanced by at most seven days between the write and the
    read; otherwise [getCachedSummary] returns nothing. *)
Theorem saveToCache_getCachedSummary
    (cacheDir monthFile text : string) (w later : Effects.world) :
  Effects.cache later !! Summarizer.getCacheFilePath cacheDir monthFile =
    Effects.cache (snd (Summarizer.saveToCache cacheDir monthFile text w))
      !! Summarizer.getCacheFilePath cacheDir monthFile ->
  fst (Summarizer.getCachedSummary cacheDir monthFile later) =
  Effects.Return
    (if (Effects.clock later (Effects.ticks later) - Effects.clock w (Effects.ticks w)
         <=? Summarizer.maxAge)%Z && (10 <=? String.length text)
     then Some text else None).
Proof.
  intros H. rewrite saveToCache_run in H. cbn [snd] in H.
  unfold saved, Effects.stored in H. cbn [Effects.cache] in H.
  rewrite lookup_insert_eq in H.
  rewrite getCachedSummary_run, H. cbn [fst]. f_equal.
  unfold validSummary, summaryRecord.
  cbn [Effects.timestamp Effects.summary Effects.minus Effects.greater].
  rewrite Z.gtb_ltb, Z.leb_antisym, Nat.leb_antisym.
  destruct (_ <? _)%Z; [reflexivity|].
  cbn [negb andb]. destruct (String.length text <? 10) eqn:E.
  - replace (10 <=? String.length text) with false; [reflexivity|].
    symmetry. apply Nat.leb_gt. now apply Nat.ltb_lt.
  - replace (10 <=? String.length text) with true; [reflexivity|].
    symmetry. apply Nat.leb_le. apply Nat.ltb_ge in E. lia.
Qed.

Lemma saveToCache_getCachedSummary_witness :
  fst (Summarizer.getCachedSummary "cache" "2021-02.md"
         (snd (Summarizer.saveToCache "cache" "2021-02.md" "The team said hello."
                 (Sample.world ∅ 1000 Sample.greets)))) =
  Effects.Return (Some "The team said hello.").
Proof.
  apply (saveToCache_getCachedSummary "cache" "2021-02.md" "The team said hello."
           (Sample.world ∅ 1000 Sample.greets)
           (snd (Summarizer.saveToCache "cache" "2021-02.md" "The team said hello."
                   (Sample.world ∅ 1000 Sample.greets)))
           ltac:(reflexivity)).
Defined.

(** ** The four segments *)

Section QuarterFacts.
Import JS Splitter.

Lemma slice_length {A} (a b : nat) (l : list A) :
  a <= b -> b <= length l -> length (slice a b l) = b - a.
Proof. intros H1 H2. unfold slice. rewrite length_take, length_drop. lia. Qed.

(** A split point is the first section boundary of its quarter, or the
    start of the quarter when the quarter has none. *)
Lemma splitPoint_spec (lines : list string) (quarterSize quarter : nat) :
  let target := quarter * quarterSize in
  let limit := Nat.min (target + quarterSize) (length lines) in
  let p := splitPoint lines quarterSize quarter in
  (target <= p < limit /\ boundary lines p = true /\
   forall i, target <= i < p -> boundary lines i = false) \/
  (p = target /\ forall i, target <= i < limit -> boundary lines i = false).
Proof.
  intros target limit p. unfold p, splitPoint. fold target. fold limit.
  clear p. clearbody limit. clearbody target.
  destruct (scan lines target (limit - target)) as [k|] eqn:E; cbn [default]; unfold id.
  - left. destruct (scan_Some _ _ _ _ E) as (Hk & Hb & Hj).
    split; [lia|]. split; [exact Hb | exact Hj].
  - right. split; [reflexivity|]. intros i Hi. apply (scan_None _ _ _ E). lia.
Qed.

End QuarterFacts.

(** X15. A document of fewer than four lines is not divided by
    [splitMonthContentIntoFour]: the first three segments are empty and the
    fourth is the whole document. A document of four lines or more is cut
    into four segments that each hold at least one line; with [q] a quarter
    of the number of lines, rounded down, the first three hold fewer than
    [2 * q] lines and the last at most [q + 3]. *)
Theorem splitMonthContentIntoFour_sizes (content : string) :
  let lines := JS.split_lines content in
  let q := length lines / 4 in
  (length lines < 4 ->
   Splitter.splitMonthContentIntoFour content = [""; ""; ""; content]) /\
  (4 <= length lines ->
   exists l1 l2 l3 l4,
     Splitter.splitMonthContentIntoFour content =
       [JS.join JS.nl l1; JS.join JS.nl l2; JS.join JS.nl l3; JS.join JS.nl l4] /\
     l1 ++ l2 ++ l3 ++ l4 = lines /\
     1 <= length l1 < 2 * q /\ 1 <= length l2 < 2 * q /\
     1 <= length l3 < 2 * q /\ 1 <= length l4 <= q + 3).
Proof.
  intros lines q. split.
  - intros Hlen. unfold Splitter.splitMonthContentIntoFour, Splitter.splitPoints.
    fold lines. fold q.
    assert (Hq : q = 0) by (unfold q; now apply Nat.div_small).
    rewrite Hq. cbn [map nth]. unfold Splitter.splitPoint.
    rewrite !Nat.mul_0_r. cbn [Nat.add Nat.min Nat.sub Splitter.scan default].
    unfold JS.slice, JS.sliceFrom. rewrite drop_0. cbn [Nat.sub take JS.join].
    unfold lines. now rewrite join_split_lines.
  - intros Hlen.
    pose proof (splitPoint_range lines 1) as (L1 & U1).
    pose proof (splitPoint_range lines 2) as (L2 & U2).
    pose proof (splitPoint_range lines 3) as (L3 & U3).
    pose proof (Nat.Div0.mul_div_le (length lines) 4) as H4.
    pose proof (Nat.div_mod_eq (length lines) 4) as Hd.
    pose proof (Nat.mod_upper_bound (length lines) 4 ltac:(lia)) as Hm.
    assert (Hq : 1 <= q) by (unfold q; apply Nat.div_le_lower_bound; lia).
    fold q in L1, U1, L2, U2, L3, U3, H4, Hd.
    set (p0 := Splitter.splitPoint lines q 1) in *.
    set (p1 := Splitter.splitPoint lines q 2) in *.
    set (p2 := Splitter.splitPoint lines q 3) in *.
    exists (JS.slice 0 p0 lines), (JS.slice p0 p1 lines), (JS.slice p1 p2 lines),
      (JS.sliceFrom p2 lines).
    split; [reflexivity|]. split.
    { unfold JS.sliceFrom.
      rewrite (slice_drop p1 p2), (slice_drop p0 p1), (slice_drop 0 p0) by lia.
      apply drop_0. }
    rewrite !slice_length by lia. unfold JS.sliceFrom. rewrite length_drop. lia.
Qed.

Lemma splitMonthContentIntoFour_sizes_witness :
  Splitter.splitMonthContentIntoFour ("## 1 March" +:+ JS.nl +:+ "@ann: hello") =
  [""; ""; ""; "## 1 March" +:+ JS.nl +:+ "@ann: hello"].
Proof.
  apply (proj1 (splitMonthContentIntoFour_sizes ("## 1 March" +:+ JS.nl +:+ "@ann: hello"))).
  vm_compute. lia.
Defined.

(** X16. Each of the three split points of [splitMonthContentIntoFour] is
    the first line starting with ["## "] in its quarter of the lines (from
    the quarter's first line up to the first line of the next quarter or the
    end of the document), and the first line of the quarter when no line of
    the quarter starts so. *)
Theorem splitPoints_first_boundary (content : string) :
  let lines := JS.split_lines content in
  let q := length lines / 4 in
  Forall2
    (fun quarter p =>
       let limit := Nat.min (quarter * q + q) (length lines) in
       (quarter * q <= p < limit /\ Splitter.boundary lines p = true /\
        forall i, quarter * q <= i < p -> Splitter.boundary lines i = false) \/
       (p = quarter * q /\
        forall i, quarter * q <= i < limit -> Splitter.boundary lines i = false))
    [1; 2; 3] (Splitter.splitPoints lines).
Proof.
  intros lines q. unfold Splitter.splitPoints. fold q. cbn [map].
  do 3 (constructor; [apply splitPoint_spec|]). constructor.
Qed.

(** ** Where the digest goes *)

Section TldrFacts.
Import JS.

Lemma search_absent (s pat : string) :
  includes s pat = false -> search pat s = None.
Proof.
  induction s as [|c r IH]; cbn [includes search]; intros H;
    apply orb_false_iff in H as [H1 H2]; rewrite H1; [reflexivity|].
  now rewrite (IH H2).
Qed.

End TldrFacts.

(** X17. The digest is put in by replacing the first occurrence of the
    heading. In a text that begins with the heading, a digest without [$]
    appears as it is in a [tl;dr] paragraph between the heading and the
    rest; a text in which the heading does not occur is returned as it is,
    without the digest. *)
Theorem withTldr_splice (monthName text one : string) :
  dollarFree monthName = true ->
  dollarFree one = true ->
  (forall body,
     text = Summarizer.heading monthName +:+ body ->
     Summarizer.withTldr monthName text one =
     Summarizer.heading monthName +:+ "**tl;dr:** " +:+ one +:+ JS.nl +:+ JS.nl +:+ body) /\
  (JS.includes text (Summarizer.heading monthName) = false ->
   Summarizer.withTldr monthName text one = text).
Proof.
  intros Hm Ho. split.
  - intros body ->. rewrite (withTldr_headed _ _ _ Hm).
    rewrite getSubstitution_dollarFree; [now rewrite !append_assoc|].
    now rewrite dollarFree_app, Ho.
  - intros H. unfold Summarizer.withTldr, JS.replace.
    now rewrite (search_absent _ _ H).
Qed.

Lemma withTldr_splice_witness :
  Summarizer.withTldr "February 2021"
    ("## February 2021" +:+ JS.nl +:+ JS.nl +:+ "The team said hello.") "Hello." =
  "## February 2021" +:+ JS.nl +:+ JS.nl +:+ "**tl;dr:** Hello." +:+ JS.nl +:+ JS.nl +:+
  "The team said hello.".
Proof.
  apply (proj1 (withTldr_splice "February 2021"
                  ("## February 2021" +:+ JS.nl +:+ JS.nl +:+ "The team said hello.")
                  "Hello." ltac:(reflexivity) ltac:(reflexivity))
           "The team said hello.").
  reflexivity.
Defined.

(** ** The heading of what is cached *)

(** X18. Starting without a cached summary for the month, after any number
    of runs of [generateMonthSummary] for that month, whatever the service
    answers, the summary in the cache, if there is one, begins with the
    heading of the month. *)
Theorem generateMonthSummary_caches_headed
    (dateOf : string -> option (nat * nat))
    (systemPrompt cacheDir monthFile outputDir : string) (w : Effects.world) (n : nat) :
  Effects.cache w !! Summarizer.getCacheFilePath cacheDir monthFile = None ->
  let after :=
    Nat.iter n
      (fun w => snd (Summarizer.generateMonthSummary dateOf systemPrompt cacheDir
                       monthFile outputDir w)) w in
  forall d s,
    Effects.cache after !! Summarizer.getCacheFilePath cacheDir monthFile =
      Some (Effects.Json d) ->
    Effects.summary d = Some s ->
    exists rest,
      s = Summarizer.heading (Summarizer.monthNameOf dateOf monthFile) +:+ rest.
Proof.
  intros Hnone after.
  change (wellFormedAt (Summarizer.getCacheFilePath cacheDir monthFile)
            (Summarizer.monthNameOf dateOf monthFile) after).
  unfold after. clear after. induction n as [|n IH].
  - intros d s Hd. cbn [Nat.iter nat_rect] in Hd. congruence.
  - cbn [Nat.iter nat_rect].
    apply (generateMonthSummary_keeps_wellFormed dateOf systemPrompt cacheDir monthFile
             outputDir), IH.
Qed.

Lemma generateMonthSummary_caches_headed_witness :
  exists rest,
    "## February 2021" +:+ JS.nl +:+ JS.nl +:+ "The team said hello to each other." =
    Summarizer.heading (Summarizer.monthNameOf Sample.dateOf "2021-02.md") +:+ rest.
Proof.
  eapply (generateMonthSummary_caches_headed Sample.dateOf "PROMPT" "cache" "2021-02.md"
            "output" (Sample.world ∅ 1000 Sample.greets) 2 ltac:(apply lookup_empty)).
  - vm_compute. reflexivity.
  - reflexivity.
Defined.

(** ** The run over all months *)

Section MainFacts.
Import JS Effects Summarizer Listing Orchestrator.

Variable dateOf : string -> option (nat * nat).
Variable systemPrompt : string.
Variable cacheDir : string.
Variable outputDir : string.
Variable toISOString : Z -> string.

(** The cache check returns, has counted every file once and has only read
    the clock. *)
Lemma checkCache_run (monthlyFiles : list string) (c n : nat) (w : world) :
  exists c' n' w',
    checkCache cacheDir monthlyFiles c n w = (Return (c', n'), w') /\
    c' + n' = c + n + length monthlyFiles /\
    requests w' = requests w /\ cache w' = cache w /\ documents w' = documents w.
Proof.
  revert c n w. induction monthlyFiles as [|f files IH]; intros c n w.
  - exists c, n, w. simpl. repeat split; try reflexivity. lia.
  - cbn [checkCache]. unfold bind.
    destruct (getCachedSummary_returns cacheDir f w) as [o Ho].
    destruct (getCachedSummary_world cacheDir f w) as (_ & Hr & _ & Hc & Hd & _).
    destruct (getCachedSummary cacheDir f w) as [r w1]. cbn [fst snd] in *. subst r.
    destruct (truthy_opt o).
    + destruct (IH (S c) n w1) as (c' & n' & w' & -> & Hsum & Hr' & Hc' & Hd').
      exists c', n', w'. repeat split; try congruence. simpl. lia.
    + destruct (IH c (S n) w1) as (c' & n' & w' & -> & Hsum & Hr' & Hc' & Hd').
      exists c', n', w'. repeat split; try congruence. simpl. lia.
Qed.

(** With its document in place and a cached summary, if any, that begins
    with the heading, [generateMonthSummary] returns a text of the month. *)
Lemma generateMonthSummary_shaped (monthFile : string) (w : world) :
  is_Some (documents w !! path_join outputDir monthFile) ->
  wellFormedAt (getCacheFilePath cacheDir monthFile) (monthNameOf dateOf monthFile) w ->
  exists text w',
    generateMonthSummary dateOf systemPrompt cacheDir monthFile outputDir w
      = (Return text, w') /\
    outputShape (monthNameOf dateOf monthFile) text.
Proof.
  intros [content Hdoc] Hwf.
  destruct (getCachedSummary_returns cacheDir monthFile w) as [[cached|] Hc].
  - destruct (generateMonthSummary_hit dateOf systemPrompt cacheDir monthFile
                outputDir content cached w Hdoc Hc) as (one & w1 & _ & ->).
    assert (Hh : headed (monthNameOf dateOf monthFile) cached).
    { revert Hc. rewrite getCachedSummary_run.
      destruct (cache w !! getCacheFilePath cacheDir monthFile) as [[|d]|] eqn:E;
        simpl; try discriminate.
      intros [= Hv]. apply validSummary_Some in Hv as (_ & Hs & _).
      exact (Hwf d cached E Hs). }
    destruct Hh as [body ->]. eexists _, _. split; [reflexivity | constructor].
  - rewrite (generateMonthSummary_miss dateOf systemPrompt cacheDir monthFile
               outputDir content w Hdoc Hc).
    apply summarizeWhole_shape.
Qed.

(** A run for one monthly file keeps the cached summaries of all monthly
    files headed by their months. *)
Lemma generateMonthSummary_keeps_all (monthFile other : string) (w : world) :
  Listing.monthlyPattern monthFile = true ->
  Listing.monthlyPattern other = true ->
  includes cacheDir ".json" = false ->
  wellFormedAt (getCacheFilePath cacheDir other) (monthNameOf dateOf other) w ->
  wellFormedAt (getCacheFilePath cacheDir other) (monthNameOf dateOf other)
    (snd (generateMonthSummary dateOf systemPrompt cacheDir monthFile outputDir w)).
Proof.
  intros Hf Ho Hdir Hwf. destruct (decide (monthFile = other)) as [<-|Hne].
  - now apply generateMonthSummary_keeps_wellFormed.
  - destruct (monthly_paths_apart cacheDir monthFile other Hf Ho Hdir Hne)
      as (N1 & N2 & _).
    intros d s Hd. apply Hwf. rewrite <- Hd. symmetry.
    now apply generateMonthSummary_frame.
Qed.

Lemma sections_app (a b : list string) : sections (a ++ b) = sections a +:+ sections b.
Proof.
  induction a as [|x a IH]; [reflexivity|].
  cbn [sections app]. now rewrite IH, !append_assoc.
Qed.

Local Abbreviation ready := (Terms.ready dateOf cacheDir).

(** The loop over the months, as far as the documents are in place: every
    month is appended to the file, whatever the service answers. *)
Lemma processMonths_done (done rest : list string) (t : tally) (file : string) (w : world) :
  includes cacheDir ".json" = false ->
  (forall f, f ∈ done -> is_Some (documents w !! path_join outputDir f)) ->
  ready done w ->
  exists news t' w',
    processMonths dateOf systemPrompt cacheDir outputDir (done ++ rest) t file w =
    processMonths dateOf systemPrompt cacheDir outputDir rest t' (file +:+ sections news) w' /\
    summaries t' = summaries t ++ news /\
    Forall2 (fun f text =>
               outputShape (monthNameOf dateOf f) text /\
               headed (monthNameOf dateOf f) text) done news /\
    processed t' = processed t + length done /\
    apiCallsMade t <= apiCallsMade t' <= apiCallsMade t + length done /\
    length (requests w') <= length (requests w) + 9 * length done /\
    documents w' = documents w.
Proof.
  intros Hdir. revert t file w.
  induction done as [|f done IH]; intros t file w Hdocs Hready.
  - exists [], t, w. cbn [app sections length]. rewrite append_nil_r, app_nil_r.
    repeat split; try constructor; lia.
  - cbn [app processMonths].
    destruct (getCachedSummary_returns cacheDir f w) as [o Ho].
    destruct (getCachedSummary_world cacheDir f w) as (_ & Hr & _ & Hc & Hd & _).
    destruct (getCachedSummary cacheDir f w) as [r w1]. cbn [fst snd] in *. subst r.
    assert (Hready1 : ready (f :: done) w1).
    { intros g Hg. destruct (Hready g Hg) as [Hp Hwf]. split; [exact Hp|].
      intros d s Hd1. apply Hwf. now rewrite <- Hc. }
    assert (Hf : is_Some (documents w1 !! path_join outputDir f)).
    { rewrite Hd. apply Hdocs. left. }
    destruct (Hready1 f ltac:(left)) as [Hpf Hwf].
    destruct (generateMonthSummary_shaped f w1 Hf Hwf) as (text & w2 & Hrun & Hsec).
    pose proof (calls_generateMonthSummary dateOf systemPrompt cacheDir f outputDir w1) as Hcalls.
    pose proof (generateMonthSummary_documents dateOf systemPrompt cacheDir f outputDir w1)
      as Hd2.
    assert (Hready2 : ready done w2).
    { intros g Hg. destruct (Hready1 g ltac:(now right)) as [Hpg Hwg]. split; [exact Hpg|].
      pose proof (generateMonthSummary_keeps_all f g w1 Hpf Hpg Hdir Hwg) as H.
      now rewrite Hrun in H. }
    rewrite Hrun in Hcalls, Hd2 |- *. cbn [snd] in Hd2.
    cbv beta iota in Hcalls. rewrite Hr in Hcalls.
    match goal with
    | |- context [processMonths _ _ _ _ (done ++ rest) ?t1 ?file1 w2] =>
        destruct (IH t1 file1 w2) as (news & t' & w' & -> & Hs & Hsecs & Hp & Ha & Hq & Hd3)
    end.
    { intros g Hg. rewrite Hd2, Hd. apply Hdocs. now right. }
    { exact Hready2. }
    exists (text :: news), t', w'. cbn [summaries processed apiCallsMade] in *.
    split; [f_equal; cbn [sections]; now rewrite !append_assoc|].
    split; [rewrite Hs, <- app_assoc; reflexivity|].
    split.
    { constructor; [|exact Hsecs]. split; [exact Hsec|].
      apply (outputShape_headed _ _ (monthNameOf_dollarFree dateOf f) Hsec). }
    split; [simpl; lia|].
    split; [destruct (bool_decide (o <> None)); simpl; lia|].
    split; [simpl; lia | congruence].
Qed.

(** The loop over the months of a confirmed run starts from the header
    and from the world the cache check leaves, one clock reading later. *)
Lemma main_confirmed (files : list string) (answer : string) (before : option string)
    (w : world) :
  getMonthlyFiles files <> [] ->
  declined answer = false ->
  exists c n w1,
    c + n = length (getMonthlyFiles files) /\
    requests w1 = requests w /\ cache w1 = cache w /\ documents w1 = documents w /\
    main dateOf systemPrompt cacheDir outputDir toISOString (Some files) answer before w =
    let header := header toISOString (clock w1 (ticks w1)) (length (getMonthlyFiles files)) in
    match processMonths dateOf systemPrompt cacheDir outputDir (getMonthlyFiles files)
            {| summaries := []; processed := 0; apiCallsMade := 0 |} header (tick w1) with
    | (Some e, t, file, w2) =>
        ({| ended := Threw e; cachedCount := c; needsApiCallCount := n;
            counted := t; summaryMd := Some file |}, w2)
    | (None, t, file, w2) =>
        ({| ended := Completed; cachedCount := c; needsApiCallCount := n;
            counted := t;
            summaryMd := Some (finalHeader toISOString (clock w2 (ticks w2)) (processed t)
                               +:+ dropStr (String.length header) file) |},
         tick w2)
    end.
Proof.
  intros Hne Hd.
  destruct (checkCache_run (getMonthlyFiles files) 0 0 w)
    as (c & n & w1 & E & Hsum & Hr & Hc & Hdoc).
  exists c, n, w1. repeat split; try assumption.
  unfold main. rewrite E, Hd.
  destruct (getMonthlyFiles files) as [|f l]; [congruence|]. reflexivity.
Qed.

Lemma toLowerCaseUnit_y (c : ascii) :
  toLowerCaseUnit c = "y"%char -> c = "y"%char \/ c = "Y"%char.
Proof.
  destruct c as [[] [] [] [] [] [] [] []]; vm_compute; intros H;
    first [discriminate | now left | now right].
Qed.

Lemma toLowerCaseUnit_e (c : ascii) :
  toLowerCaseUnit c = "e"%char -> c = "e"%char \/ c = "E"%char.
Proof.
  destruct c as [[] [] [] [] [] [] [] []]; vm_compute; intros H;
    first [discriminate | now left | now right].
Qed.

Lemma toLowerCaseUnit_s (c : ascii) :
  toLowerCaseUnit c = "s"%char -> c = "s"%char \/ c = "S"%char.
Proof.
  destruct c as [[] [] [] [] [] [] [] []]; vm_compute; intros H;
    first [discriminate | now left | now right].
Qed.

Lemma toLowerCase_empty (s : string) : toLowerCase s = "" -> s = "".
Proof. destruct s; [reflexivity | discriminate]. Qed.

End MainFacts.

(** X19. [main] goes on after the question only when the answer is [y] or
    [yes] in any mix of capital and small letters: an empty answer, and an
    answer with a space before or after, decline. *)
Theorem declined_iff (answer : string) :
  Orchestrator.declined answer = false <->
  In answer ["y"; "Y"; "yes"; "yeS"; "yEs"; "yES"; "Yes"; "YeS"; "YEs"; "YES"].
Proof.
  split.
  - unfold Orchestrator.declined. intros H.
    apply andb_false_iff in H. rewrite !negb_false_iff, !String.eqb_eq in H.
    destruct H as [H|H].
    + destruct answer as [|c1 r]; [discriminate|]. cbn [Orchestrator.toLowerCase] in H.
      injection H as H1 Hr. apply toLowerCase_empty in Hr. subst r.
      destruct (toLowerCaseUnit_y _ H1) as [-> | ->]; simpl; tauto.
    + destruct answer as [|c1 [|c2 [|c3 r]]]; try discriminate.
      cbn [Orchestrator.toLowerCase] in H.
      injection H as H1 H2 H3 Hr. apply toLowerCase_empty in Hr. subst r.
      destruct (toLowerCaseUnit_y _ H1) as [-> | ->],
        (toLowerCaseUnit_e _ H2) as [-> | ->],
        (toLowerCaseUnit_s _ H3) as [-> | ->]; simpl; tauto.
  - intros H. repeat (destruct H as [<-|H]; [reflexivity|]). destruct H.
Qed.

(** X20. [main] ends with [process.exit(1)] exactly when the output
    directory is missing or holds no monthly file, and with
    [process.exit(0)] exactly when there are monthly files and the answer
    declines. A run that ends with [process.exit] has made no call to the
    service and has changed neither the cache, nor the documents, nor
    [summary.md]; after a declined run the two counts shown add up to the
    number of monthly files. *)
Theorem main_exit
    (dateOf : string -> option (nat * nat))
    (systemPrompt cacheDir outputDir : string) (toISOString : Z -> string)
    (listing : option (list string)) (answer : string) (before : option string)
    (w : Effects.world) :
  let run := Orchestrator.main dateOf systemPrompt cacheDir outputDir toISOString
               listing answer before w in
  let months := match listing with
                | Some files => Listing.getMonthlyFiles files
                | None => []
                end in
  (Orchestrator.ended (fst run) = Orchestrator.Exit 1 <-> months = []) /\
  (Orchestrator.ended (fst run) = Orchestrator.Exit 0 <->
   months <> [] /\ Orchestrator.declined answer = true) /\
  (forall code,
     Orchestrator.ended (fst run) = Orchestrator.Exit code ->
     Orchestrator.summaryMd (fst run) = before /\
     Effects.requests (snd run) = Effects.requests w /\
     Effects.cache (snd run) = Effects.cache w /\
     Effects.documents (snd run) = Effects.documents w /\
     (code = 0 ->
      Orchestrator.cachedCount (fst run) + Orchestrator.needsApiCallCount (fst run)
      = length months)).
Proof.
  intros run months. unfold run, months. clear run months.
  destruct listing as [files|].
  2:{ cbn. split; [tauto|]. split; [split; [discriminate | tauto]|].
      intros code H. repeat split; reflexivity. }
  destruct (Listing.getMonthlyFiles files) as [|f l] eqn:Em.
  { unfold Orchestrator.main. rewrite Em. cbn.
    split; [tauto|]. split; [split; [discriminate | tauto]|].
    intros code H. repeat split; reflexivity. }
  destruct (Orchestrator.declined answer) eqn:Hd.
  - destruct (checkCache_run cacheDir (f :: l) 0 0 w)
      as (c & n & w1 & E & Hsum & Hr & Hc & Hdoc).
    unfold Orchestrator.main. rewrite Em, E, Hd. cbn.
    split; [split; [discriminate | discriminate]|].
    split; [split; [intros _; split; [discriminate | reflexivity] | reflexivity]|].
    intros code H. repeat split; try assumption. intros _. simpl in Hsum. lia.
  - rewrite (surjective_pairing (Orchestrator.main _ _ _ _ _ _ _ _ _)).
    assert (Hne : Listing.getMonthlyFiles files <> []) by (rewrite Em; discriminate).
    destruct (main_confirmed dateOf systemPrompt cacheDir outputDir toISOString
                files answer before w Hne Hd) as (c & n & w1 & _ & _ & _ & _ & ->).
    cbv zeta. rewrite Em.
    destruct (Orchestrator.processMonths _ _ _ _ _ _ _ _) as [[[[e|] t] file] w2]; cbn.
    + split; [split; discriminate|]. split; [split; [discriminate | intros [_ H]; discriminate]|].
      intros code H. discriminate.
    + split; [split; discriminate|]. split; [split; [discriminate | intros [_ H]; discriminate]|].
      intros code H. discriminate.
Qed.

Lemma main_exit_witness :
  Orchestrator.summaryMd
    (fst (Scenario.main (Some Scenario.listing) "no" (Some "old")
            (Sample.world ∅ 1000 Sample.greets))) = Some "old".
Proof.
  apply (proj2 (proj2 (main_exit Sample.dateOf "PROMPT" "cache" "output"
                         Scenario.toISOString (Some Scenario.listing) "no" (Some "old")
                         (Sample.world ∅ 1000 Sample.greets))) 0).
  vm_compute. reflexivity.
Defined.





(** ** The converter *)

Section ConverterFacts.
Import JS Effects Converter.

(** One round of the loop of [createUserMapping]: the name the user gets. *)
Lemma createUserMapping_step (userMap : gmap string string) (user : User) :
  (if truthy_opt (profileField user display_name) then
     <[ Converter.id user := default "" (profileField user display_name) ]> userMap
   else if truthy_opt (profileField user real_name) then
     <[ Converter.id user := default "" (profileField user real_name) ]> userMap
   else if truthy_opt (name user) then
     <[ Converter.id user := default "" (name user) ]> userMap
   else
     <[ Converter.id user := Converter.id user ]> userMap)
  = <[ Converter.id user :=
         firstTruthy [profileField user display_name; profileField user real_name; name user]
           (Converter.id user) ]> userMap.
Proof.
  unfold firstTruthy.
  destruct (profileField user display_name) as [a|],
    (profileField user real_name) as [b|], (name user) as [c|];
    unfold truthy_opt, truthy; simpl;
    repeat match goal with
           | |- context [String.eqb ?x ""] => destruct (String.eqb x ""); simpl
           end; reflexivity.
Qed.

Lemma createUserMapping_snoc (users : list User) (user : User) :
  createUserMapping (users ++ [user]) =
  <[ Converter.id user :=
       firstTruthy [profileField user display_name; profileField user real_name; name user]
         (Converter.id user) ]> (createUserMapping users).
Proof.
  unfold createUserMapping. rewrite foldl_app. cbn [foldl].
  apply createUserMapping_step.
Qed.

Lemma firstTruthy_nonempty (candidates : list (option string)) (fallback : string) :
  fallback <> "" -> firstTruthy candidates fallback <> "".
Proof.
  intros Hf. unfold firstTruthy.
  induction (omap (fun o => o) candidates) as [|x l IH]; [exact Hf|].
  cbn [List.filter]. destruct (truthy x) eqn:E; [|exact IH].
  cbn [hd]. intros ->. discriminate.
Qed.

End ConverterFacts.

(** X23. [createUserMapping] gives every user of the list a name under its
    [id], and no name under another key: the display name of the profile,
    else the real name of the profile, else the user name, each only when it
    is there and not empty, else the [id] itself. Of two entries with the
    same [id] the later one counts, and a name is empty only for an empty
    [id]. *)
Theorem createUserMapping_lookup (users : list Converter.User) :
  (forall before user after,
     users = before ++ user :: after ->
     (forall other, other ∈ after -> Converter.id other <> Converter.id user) ->
     Converter.createUserMapping users !! Converter.id user =
     Some (firstTruthy [Converter.profileField user Converter.display_name;
                        Converter.profileField user Converter.real_name;
                        Converter.name user] (Converter.id user))) /\
  (forall key,
     Converter.createUserMapping users !! key = None <->
     forall user, user ∈ users -> Converter.id user <> key) /\
  (forall key userName,
     Converter.createUserMapping users !! key = Some userName ->
     key <> "" -> userName <> "").
Proof.
  induction users as [|last users IH] using rev_ind.
  - split; [|split].
    + intros [|x before] user after H; discriminate.
    + intros key. split; [intros _ user Hu; inversion Hu | intros _; apply lookup_empty].
    + intros key userName H. unfold Converter.createUserMapping in H. cbn in H.
      rewrite lookup_empty in H. discriminate.
  - destruct IH as (IH1 & IH2 & IH3). rewrite createUserMapping_snoc.
    split; [|split].
    + intros before user after E Hlater.
      destruct after as [|x after _] using rev_ind.
      * apply app_inj_tail in E as [_ ->]. apply lookup_insert_eq.
      * rewrite app_comm_cons, app_assoc in E. apply app_inj_tail in E as [E ->].
        rewrite lookup_insert_ne.
        -- apply (IH1 before user after E). intros other Ho. apply Hlater.
           apply elem_of_app. now left.
        -- apply Hlater. apply elem_of_app. right. left.
    + intros key. destruct (decide (Converter.id last = key)) as [<-|ne].
      * rewrite lookup_insert_eq. split; [discriminate|].
        intros H. exfalso. apply (H last); [|reflexivity].
        apply elem_of_app. right. left.
      * rewrite lookup_insert_ne by exact ne. rewrite IH2. split.
        -- intros H user Hu. apply elem_of_app in Hu as [Hu|Hu]; [now apply H|].
           apply list_elem_of_singleton in Hu. now subst.
        -- intros H user Hu. apply H. apply elem_of_app. now left.
    + intros key userName. destruct (decide (Converter.id last = key)) as [<-|ne].
      * rewrite lookup_insert_eq. intros [= <-]. apply firstTruthy_nonempty.
      * rewrite lookup_insert_ne by exact ne. apply IH3.
Qed.

Lemma createUserMapping_lookup_witness :
  Converter.createUserMapping
    [ {| Converter.id := "U345678"; Converter.profile := None;
         Converter.name := Some "bob.wilson" |} ] !! "U345678" = Some "bob.wilson".
Proof.
  apply (proj1 (createUserMapping_lookup _) []
           {| Converter.id := "U345678"; Converter.profile := None;
              Converter.name := Some "bob.wilson" |} [] ltac:(reflexivity)).
  intros other H. inversion H.
Defined.

Section MentionFacts.
Import JS Effects Converter.

Lemma mentionAt_other (c : ascii) (r : string) :
  Ascii.eqb c "<" = false -> mentionAt (String c r) = None.
Proof.
  destruct c as [[] [] [] [] [] [] [] []]; intros H; try reflexivity; discriminate.
Qed.

Lemma replaceMentions_plain (userMap : gmap string string) (a s : string) :
  occurs "<" a = false ->
  replaceMentions userMap (a +:+ s) 0 = a +:+ replaceMentions userMap s 0.
Proof.
  induction a as [|c a IH]; intros H; [now rewrite !app_nil_l|].
  simpl in H. apply orb_false_iff in H as [Hc Ha].
  rewrite !app_cons. cbn [replaceMentions].
  now rewrite (mentionAt_other _ _ Hc), (IH Ha).
Qed.

Lemma replaceMentions_skip (userMap : gmap string string) (x s : string) :
  replaceMentions userMap (x +:+ s) (String.length x) = replaceMentions userMap s 0.
Proof.
  induction x as [|c x IH]; [now rewrite app_nil_l|].
  rewrite app_cons. cbn [replaceMentions String.length]. exact IH.
Qed.

Lemma idRun_app (userId rest : string) :
  Forall (fun c => isIdUnit c = true) (list_ascii_of_string userId) ->
  idRun (userId +:+ String ">" rest) = (userId, String ">" rest).
Proof.
  induction userId as [|c u IH]; intros H; [reflexivity|].
  cbn [list_ascii_of_string] in H. apply Forall_cons in H as [Hc Hu].
  rewrite app_cons. cbn [idRun]. now rewrite Hc, (IH Hu).
Qed.

Lemma replaceMentions_cons (userMap : gmap string string) (c : ascii) (r : string) :
  replaceMentions userMap (String c r) 0 =
  match mentionAt (String c r) with
  | Some userId =>
      "@" +:+ (if truthy_opt (userMap !! userId) then default "" (userMap !! userId)
               else userId)
          +:+ replaceMentions userMap r (String.length userId + 2)
  | None => String c (replaceMentions userMap r 0)
  end.
Proof. reflexivity. Qed.

Lemma mentionAt_mention (userId b : string) :
  userId <> "" ->
  Forall (fun c => isIdUnit c = true) (list_ascii_of_string userId) ->
  mentionAt (String "<" (String "@" (userId +:+ String ">" b))) = Some userId.
Proof.
  intros Hne Hid. cbn [mentionAt]. rewrite (idRun_app _ _ Hid).
  replace (truthy userId) with true
    by (unfold truthy; destruct userId; [congruence | reflexivity]).
  unfold startsWith. cbn [String.prefix andb].
  destruct (Ascii.ascii_dec ">" ">"); [|congruence]. now destruct b.
Qed.

Lemma replaceMentions_mention (userMap : gmap string string) (userId b : string) :
  userId <> "" ->
  Forall (fun c => isIdUnit c = true) (list_ascii_of_string userId) ->
  replaceMentions userMap ("<@" +:+ userId +:+ ">" +:+ b) 0 =
  "@" +:+ (if truthy_opt (userMap !! userId) then default "" (userMap !! userId) else userId)
      +:+ replaceMentions userMap b 0.
Proof.
  intros Hne Hid.
  change ("<@" +:+ userId +:+ ">" +:+ b)
    with (String "<" (String "@" (userId +:+ String ">" b))).
  rewrite replaceMentions_cons, (mentionAt_mention _ _ Hne Hid).
  do 2 f_equal.
  change (String "@" (userId +:+ String ">" b)) with (("@" +:+ userId +:+ ">") +:+ b)
    || (rewrite <- (app_cons "@" userId (String ">" b));
        change (String ">" b) with (">" +:+ b); rewrite <- append_assoc).
  replace (String.length userId + 2) with (String.length (String "@" userId +:+ ">"))
    by (rewrite length_append; simpl; lia).
  apply replaceMentions_skip.
Qed.

End MentionFacts.

Section MentionText.
Import JS Effects Converter.

Lemma cleanMessageText_Some (text : string) (userMap : gmap string string) :
  cleanMessageText (Some text) userMap = replaceMentions userMap text 0.
Proof.
  unfold cleanMessageText. cbn [truthy_opt default].
  unfold truthy. destruct text; reflexivity.
Qed.

End MentionText.

(** X24. [cleanMessageText] gives the empty text for a message without
    text, and a text without [<] as it is. A mention [<@ID>], with [ID] one
    or more capital letters and digits, becomes [@] followed by the name the
    map has for [ID] or, when the map has none or an empty one, by [ID]
    itself; the text before the first [<] is kept and the text after the
    mention is treated in the same way. *)
Theorem cleanMessageText_mentions (userMap : gmap string string) :
  Converter.cleanMessageText None userMap = "" /\
  (forall text,
     occurs "<" text = false -> Converter.cleanMessageText (Some text) userMap = text) /\
  (forall a userId b,
     occurs "<" a = false ->
     userId <> "" ->
     Forall (fun c => Converter.isIdUnit c = true) (list_ascii_of_string userId) ->
     Converter.cleanMessageText (Some (a +:+ "<@" +:+ userId +:+ ">" +:+ b)) userMap =
     a +:+ "@" +:+
     match userMap !! userId with
     | Some userName => if Effects.truthy userName then userName else userId
     | None => userId
     end +:+ Converter.cleanMessageText (Some b) userMap).
Proof.
  split; [reflexivity|]. split.
  - intros text H. rewrite cleanMessageText_Some.
    rewrite <- (append_nil_r text) at 1. rewrite (replaceMentions_plain _ _ _ H).
    apply append_nil_r.
  - intros a userId b Ha Hne Hid. rewrite !cleanMessageText_Some.
    rewrite (replaceMentions_plain _ _ _ Ha), (replaceMentions_mention _ _ _ Hne Hid).
    destruct (userMap !! userId) as [userName|]; reflexivity.
Qed.

Lemma cleanMessageText_mentions_witness :
  Converter.cleanMessageText (Some "hi <@U123456>!") {[ "U123456" := "John Doe" ]} =
  "hi @John Doe!".
Proof.
  apply (proj2 (proj2 (cleanMessageText_mentions {[ "U123456" := "John Doe" ]}))
           "hi " "U123456" "!" ltac:(reflexivity) ltac:(discriminate)).
  repeat constructor.
Defined.

(** X25. For the file of a day, [YYYY-MM-DD.json] with digits for the
    letters, [getDateFromFilename] gives the date and [getMonthKey] of it
    the month [YYYY-MM]; the file the converter writes for that month has a
    name that [getMonthlyFiles] of the summarizer keeps. *)
Theorem daily_file_month (y1 y2 y3 y4 m1 m2 d1 d2 : ascii) :
  Forall (fun c => Listing.isDigit c = true) [y1; y2; y3; y4; m1; m2; d1; d2] ->
  let date := String y1 (String y2 (String y3 (String y4 (String "-"
                (String m1 (String m2 (String "-" (String d1 (String d2 ""))))))))) in
  let month := String y1 (String y2 (String y3 (String y4 (String "-"
                 (String m1 (String m2 "")))))) in
  Converter.getDateFromFilename (date +:+ ".json") = date /\
  Converter.getMonthKey date = month /\
  Listing.getMonthlyFiles
    [Converter.monthFileName
       (Converter.getMonthKey (Converter.getDateFromFilename (date +:+ ".json")))]
  = [month +:+ ".md"].
Proof.
  intros H date month.
  assert (Hdot : forall c, Listing.isDigit c = true -> Ascii.eqb c "." = false).
  { intros c Hc. apply isDigit_range in Hc. apply Ascii.eqb_neq. intros ->.
    vm_compute in Hc. lia. }
  repeat match goal with
         | H : Forall _ (_ :: _) |- _ => apply Forall_cons in H as [? H]
         end.
  assert (Hdate : Converter.getDateFromFilename (date +:+ ".json") = date).
  { unfold Converter.getDateFromFilename.
    rewrite <- (append_nil_r (date +:+ ".json")), append_assoc.
    rewrite (replace_found _ _ "" date "");
      [rewrite app_nil_l; apply append_nil_r | | reflexivity].
    apply (search_after_plain "." "json" date "").
    unfold date. cbn [occurs].
    rewrite (Hdot y1), (Hdot y2), (Hdot y3), (Hdot y4), (Hdot m1), (Hdot m2),
      (Hdot d1), (Hdot d2) by assumption. reflexivity. }
  split; [exact Hdate|]. split; [reflexivity|].
  rewrite Hdate. unfold Converter.getMonthKey, Converter.monthFileName.
  change (String.substring 0 7 date) with month.
  assert (Hp : Listing.monthlyPattern (month +:+ ".md") = true).
  { change (month +:+ ".md")
      with (String y1 (String y2 (String y3 (String y4 (String "-"
              (String m1 (String m2 ".md"))))))).
    unfold Listing.monthlyPattern. cbn [list_ascii_of_string].
    repeat match goal with E : Listing.isDigit _ = true |- _ => rewrite E; clear E end.
    reflexivity. }
  unfold Listing.getMonthlyFiles. cbn [List.filter].
  rewrite Hp, (monthlyPattern_endsWith _ Hp). reflexivity.
Qed.

Lemma daily_file_month_witness :
  Converter.getMonthKey (Converter.getDateFromFilename "2021-02-15.json") = "2021-02".
Proof.
  destruct (daily_file_month "2" "0" "2" "1" "0" "2" "1" "5"
              ltac:(repeat constructor)) as (E1 & E2 & _).
  cbv zeta in E1, E2. change ("2021-02-15" +:+ ".json") with "2021-02-15.json" in E1.
  rewrite E1. exact E2.
Defined.

Section DMFacts.
Import JS Effects Converter.

Lemma filter_Permutation_list {A} (f : A -> bool) (l l' : list A) :
  l ≡ₚ l' -> List.filter f l ≡ₚ List.filter f l'.
Proof.
  induction 1 as [|x l l' _ IH|x y l|l l' l'' _ IH1 _ IH2]; cbn [List.filter].
  - reflexivity.
  - destruct (f x); [now constructor | exact IH].
  - destruct (f x), (f y); try reflexivity. constructor.
  - now rewrite IH1.
Qed.

(** Sorting forgets the order of what is sorted. *)
Lemma merge_sort_order (l l' : list string) :
  l ≡ₚ l' -> merge_sort String.le l = merge_sort String.le l'.
Proof.
  intros H. apply (StronglySorted_unique String.le).
  - apply StronglySorted_merge_sort; apply _.
  - apply StronglySorted_merge_sort; apply _.
  - now rewrite !merge_sort_Permutation.
Qed.

End DMFacts.

(** X26. The names [createDMMapping] gives the direct conversations do not
    depend on the order in which the members of a conversation are listed.
    A conversation all of whose members have the name [USLACKBOT] (by the
    map, or as their own identifier when the map has no name for them), or
    without members, gets no name. *)
Theorem createDMMapping_member_order (userMap : gmap string string) :
  (forall dms dms',
     Forall2 (fun dm dm' =>
                Converter.dmId dm = Converter.dmId dm' /\
                Converter.members dm ≡ₚ Converter.members dm') dms dms' ->
     Converter.createDMMapping dms userMap = Converter.createDMMapping dms' userMap) /\
  (forall dms dm,
     (forall userId, userId ∈ Converter.members dm ->
        (if Effects.truthy_opt (userMap !! userId) then default "" (userMap !! userId)
         else userId) = "USLACKBOT") ->
     Converter.createDMMapping (dms ++ [dm]) userMap = Converter.createDMMapping dms userMap).
Proof.
  split.
  - intros dms dms' H. unfold Converter.createDMMapping.
    generalize (∅ : gmap string string).
    induction H as [|dm dm' dms dms' [Hid Hm] _ IH]; intros m; [reflexivity|].
    cbn [foldl]. rewrite Hid.
    rewrite (merge_sort_order _ _
               (filter_Permutation_list _ _ _ (Permutation_map _ Hm))).
    apply IH.
  - intros dms dm H. unfold Converter.createDMMapping. rewrite foldl_app. cbn [foldl].
    replace (List.filter _ (map _ (Converter.members dm))) with (@nil string);
      [reflexivity|].
    symmetry. induction (Converter.members dm) as [|x l IH]; [reflexivity|].
    cbn [map List.filter]. rewrite (H x) by left. cbn [String.eqb negb].
    change (negb ("USLACKBOT" =? "USLACKBOT")%string) with false. cbv iota.
    apply IH. intros y Hy. apply H. now right.
Qed.

Lemma createDMMapping_member_order_witness :
  Converter.createDMMapping
    [ {| Converter.dmId := "D1"; Converter.members := ["U2"; "U1"] |} ]
    {[ "U1" := "Ann"; "U2" := "Bob" ]} =
  Converter.createDMMapping
    [ {| Converter.dmId := "D1"; Converter.members := ["U1"; "U2"] |} ]
    {[ "U1" := "Ann"; "U2" := "Bob" ]}.
Proof.
  apply (proj1 (createDMMapping_member_order {[ "U1" := "Ann"; "U2" := "Bob" ]})).
  constructor; [|constructor]. split; [reflexivity|]. apply perm_swap.
Defined.
